(** * PostMe: the content workflow engine, embedded and verified

    A shallow embedding of the orchestration code of the PostMe
    repository ([workflow.py], the merging part of [ai_services.py],
    and the file storage of [storage.py]) together with the
    properties its specification states about it.

    Python values are untyped: verdicts and generated content are
    dictionaries decoded from JSON, read with [dict.get] and tested
    through truthiness.  The embedding keeps that: a universe [pyval]
    of JSON-like values, dictionaries as [gmap string pyval], and an
    error type for the exceptions [dict.get] raises on a value that is
    no dictionary. *)

From stdpp Require Import gmap strings list fin_maps pretty.
From Stdlib Require Import ZArith Lia.

Open Scope string_scope.

(** ** Python values *)

Module Py.

(** JSON-like values.  JSON numbers are kept as integers (the engine
    only tests them for truthiness). *)
#[warnings="-register-all"]
Inductive pyval : Type :=
  | PNone
  | PBool (b : bool)
  | PInt (n : Z)
  | PStr (s : string)
  | PList (l : list pyval)
  | PDict (d : gmap string pyval).

(** [bool(v)]: Python truthiness. *)
Definition truthy (v : pyval) : bool :=
  match v with
  | PNone => false
  | PBool b => b
  | PInt n => negb (n =? 0)%Z
  | PStr s => negb (bool_decide (s = ""))
  | PList l => negb (bool_decide (length l = 0))
  | PDict d => negb (bool_decide (size d = 0))
  end.

(** [type(v).__name__], as it appears in exception messages. *)
Definition type_name (v : pyval) : string :=
  match v with
  | PNone => "NoneType"
  | PBool _ => "bool"
  | PInt _ => "int"
  | PStr _ => "str"
  | PList _ => "list"
  | PDict _ => "dict"
  end.

(** Results of fallible code: a value, or a raised exception with its
    message. *)
Inductive res (A : Type) : Type :=
  | Ok (a : A)
  | Raise (msg : string).
Arguments Ok {A} a.
Arguments Raise {A} msg.

Global Instance res_ret : MRet res := λ A a, Ok a.
Global Instance res_bind : MBind res := λ A B k r,
  match r with
  | Ok a => k a
  | Raise msg => Raise msg
  end.

(** [v.get(k, dflt)]: defined on dictionaries only; any other value
    raises [AttributeError]. *)
Definition py_get (v : pyval) (k : string) (dflt : pyval) : res pyval :=
  match v with
  | PDict d => Ok (default dflt (d !! k))
  | _ => Raise ("'" ++ type_name v ++ "' object has no attribute 'get'")
  end.

(** [v == s] for a string literal [s]. *)
Definition str_eq (v : pyval) (s : string) : bool :=
  match v with
  | PStr s' => bool_decide (s' = s)
  | _ => false
  end.

(** [d.setdefault(k, v)], for its effect on [d]. *)
Definition setdefault (k : string) (v : pyval) (d : gmap string pyval)
  : gmap string pyval :=
  match d !! k with
  | Some _ => d
  | None => <[k := v]> d
  end.

(** The characters [str.strip] removes: the white space among the
    characters below 256 (strings are sequences of such characters). *)
Definition is_space (a : Ascii.ascii) : bool :=
  let n := Ascii.nat_of_ascii a in
  ((9 <=? n) && (n <=? 13) || (28 <=? n) && (n <=? 32)
   || (n =? 133) || (n =? 160))%nat.

Fixpoint lstrip (s : string) : string :=
  match s with
  | String a rest => if is_space a then lstrip rest else s
  | EmptyString => EmptyString
  end.

(** [s.strip()]. *)
Definition strip (s : string) : string :=
  String.rev (lstrip (String.rev (lstrip s))).

(** The lines of a text, as iterating over a file opened for reading
    yields them, without their line ends: a line ends at a line feed,
    at a carriage return, or at the two in a row.  [line] holds the
    characters of the current line, the last one first; [after_cr]
    says that the previous character was a carriage return. *)
Fixpoint text_lines (after_cr : bool) (line text : string) : list string :=
  match text with
  | EmptyString =>
      match line with
      | EmptyString => []
      | _ => [String.rev line]
      end
  | String a rest =>
      if bool_decide (a = Ascii.ascii_of_nat 10) then
        if after_cr then text_lines false EmptyString rest
        else String.rev line :: text_lines false EmptyString rest
      else if bool_decide (a = Ascii.ascii_of_nat 13) then
        String.rev line :: text_lines true EmptyString rest
      else text_lines false (String a line) rest
  end.

(** [k in d]. *)
Definition has_key (d : gmap string pyval) (k : string) : bool :=
  bool_decide (is_Some (d !! k)).

End Py.
Export Py.

(** ** [ai_services.py]: parsing and merging of generated content *)

Module AIService.

(** The keys every generated content object is expected to carry. *)
Definition content_keys : list string :=
  ["post_text"; "image_prompt"; "hashtags"].

(** [generate_content], lines 139-143: when some expected key is
    missing, each missing one is filled by [setdefault]. *)
Definition fill_defaults (parsed_content : gmap string pyval)
  : gmap string pyval :=
  if forallb (has_key parsed_content) content_keys then parsed_content
  else
    setdefault "hashtags" (PList [])
      (setdefault "image_prompt" PNone
         (setdefault "post_text" PNone parsed_content)).

(** [generate_content], lines 145-157: the merge for partial
    regeneration.  The warning printed in the [image_prompt] branch
    leaves the content untouched. *)
Definition merge_content (regenerate_component : string)
    (approved_text approved_image_prompt : pyval)
    (parsed_content : gmap string pyval) : gmap string pyval :=
  if bool_decide (regenerate_component = "text")
     && truthy approved_image_prompt
  then <["image_prompt" := approved_image_prompt]> parsed_content
  else if bool_decide (regenerate_component = "image_prompt")
          && truthy approved_text
  then <["post_text" := approved_text]> parsed_content
  else parsed_content.

(** What the model call hands back to [generate_content]: the prompt
    could not be prepared, the API call raised, the reply was no JSON,
    or the reply decoded to a JSON value. *)
Inductive llm_reply : Type :=
  | PromptError (msg : string)
  | ApiError (msg : string)
  | JsonDecodeError (raw : string)
  | ParsedJson (v : pyval).

(** [generate_content]: the pair (content or [None], error or
    [None]).  A decoded reply that is no JSON object raises
    [ValueError] inside the parsing block, which the block turns into
    an error result. *)
Definition generate_content (reply : llm_reply)
    (regenerate_component : string)
    (approved_text approved_image_prompt : pyval)
  : pyval * option string :=
  match reply with
  | PromptError msg => (PNone, Some ("Error preparing prompt: " ++ msg))
  | ApiError msg => (PNone, Some ("OpenAI API Error: " ++ msg))
  | JsonDecodeError raw =>
      (PNone, Some ("Failed to parse JSON response: " ++ raw))
  | ParsedJson (PDict parsed_content) =>
      (PDict (merge_content regenerate_component approved_text
                approved_image_prompt (fill_defaults parsed_content)),
       None)
  | ParsedJson _ =>
      (PNone,
       Some "Error processing final content: LLM response is not a JSON object.")
  end.

(** [generate_image], lines 204-258, for its first result, the image
    URL (the error message beside it is only printed by the caller):
    no call for an empty prompt; the preview [prompt[:100]] of line 209
    stands before the [try] and raises for a prompt that cannot be
    sliced; every failure of the call itself is caught and gives
    [None], as does a reply without a URL.  [images_generate] is the
    call of the image API with its handlers. *)
Definition generate_image (images_generate : pyval → option string)
    (prompt : pyval) : res (option string) :=
  if negb (truthy prompt) then Ok None
  else
    match prompt with
    | PStr _ | PList _ =>
        match images_generate prompt with
        | Some image_url =>
            if truthy (PStr image_url) then Ok (Some image_url) else Ok None
        | None => Ok None
        end
    | PDict _ => Raise "unhashable type: 'slice'"
    | _ => Raise ("'" ++ type_name prompt ++ "' object is not subscriptable")
    end.

End AIService.

(** ** [workflow.py]: the orchestration engine *)

Module Workflow.
Import AIService.

(** The arguments of one [generate_content] call, as the attempt loop
    of [run] assembles them (lines 460-505). *)
Record regen_plan : Type := RegenPlan {
  regenerate_component : string;
  approved_text_for_regen : pyval;
  approved_image_prompt_for_regen : pyval;
  text_feedback_for_regen : pyval;
  image_prompt_feedback_for_regen : pyval
}.

(** One entry of [platform_states]. *)
Record platform_state : Type := PlatformState {
  content : pyval;
  review_outcome : pyval;
  attempts : Z
}.

(** The [step_result] dictionary of [_run_news_step]; its keys are
    fixed.  [fetched_articles] first holds the fetched article
    dictionaries and later the links of the articles used. *)
Record news_result : Type := NewsResult {
  status : string;
  news_summary : pyval;
  fetched_articles : list pyval;
  feedback : pyval
}.

(** What a run does, in order: the calls to the collaborators, and
    the entries into the generation step and the review step of a
    platform (each announces itself on the console).  [EvSave] is the
    attempt of the storage to write the file of a post, with whether
    the file was written. *)
Inductive event : Type :=
  | EvFetch
  | EvSummarize (text : string)
  | EvAIReview (content_type : string) (platform : pyval)
  | EvHumanReview (content_type : string) (platform : pyval)
  | EvGenerate (platform : string) (attempt : Z) (plan : regen_plan)
  | EvReview (platform : string) (attempt : Z)
  | EvImage (platform : string) (prompt : pyval)
  | EvSave (platform : string) (saved : pyval) (succeeded : bool)
  | EvAppend (links : list pyval).

(** The mutable state of one run: the local variables of [run] that
    outlive an exception, the text of the used-link file of the
    storage (empty when there is no file), and the log of collaborator
    calls. *)
Record state : Type := State {
  log : list event;
  ledger : string;
  news_step : news_result;
  links_from_approved_news : list pyval;
  final_approved_content : gmap string pyval;
  any_post_saved : bool;
  platform_states : gmap string platform_state
}.

Definition set_log (f : list event → list event) (s : state) : state :=
  State (f (log s)) (ledger s) (news_step s) (links_from_approved_news s)
    (final_approved_content s) (any_post_saved s) (platform_states s).
Definition set_ledger (l : string) (s : state) : state :=
  State (log s) l (news_step s) (links_from_approved_news s)
    (final_approved_content s) (any_post_saved s) (platform_states s).
Definition set_news_step (f : news_result → news_result) (s : state)
  : state :=
  State (log s) (ledger s) (f (news_step s)) (links_from_approved_news s)
    (final_approved_content s) (any_post_saved s) (platform_states s).
Definition set_links (l : list pyval) (s : state) : state :=
  State (log s) (ledger s) (news_step s) l
    (final_approved_content s) (any_post_saved s) (platform_states s).
Definition set_final (p : string) (c : pyval) (s : state) : state :=
  State (log s) (ledger s) (news_step s) (links_from_approved_news s)
    (<[p := c]> (final_approved_content s)) (any_post_saved s)
    (platform_states s).
Definition set_any_post_saved (b : bool) (s : state) : state :=
  State (log s) (ledger s) (news_step s) (links_from_approved_news s)
    (final_approved_content s) b (platform_states s).
Definition set_platform_states (m : gmap string platform_state)
    (s : state) : state :=
  State (log s) (ledger s) (news_step s) (links_from_approved_news s)
    (final_approved_content s) (any_post_saved s) m.

(** *** The monad of the run: state that survives exceptions *)

Definition M (A : Type) : Type := state → res A * state.

Global Instance M_ret : MRet M := λ A a s, (Ok a, s).
Global Instance M_bind : MBind M := λ A B k m s,
  match m s with
  | (Ok a, s') => k a s'
  | (Raise msg, s') => (Raise msg, s')
  end.

(** A pure fallible computation inside the run. *)
Definition lift {A : Type} (r : res A) : M A := λ s, (r, s).

(** [try: body / except Exception as e: handler(e)]. *)
Definition try_except {A : Type} (body : M A) (handler : string → M A)
  : M A := λ s,
  match body s with
  | (Ok a, s') => (Ok a, s')
  | (Raise msg, s') => handler msg s'
  end.

Definition get_state : M state := λ s, (Ok s, s).
Definition modify (f : state → state) : M unit := λ s, (Ok tt, f s).
Definition emit (e : event) : M unit := modify (set_log (λ l, (l ++ [e])%list)).

(** [for x in xs: body(x)], where the body says whether it ended in
    [break]. *)
Inductive ctl : Type := Break | Next.

Fixpoint for_each {A : Type} (xs : list A) (body : A → M ctl) : M unit :=
  match xs with
  | [] => mret tt
  | x :: rest =>
      c ← body x;
      match c with
      | Break => mret tt
      | Next => for_each rest body
      end
  end.

(** A component verdict [{'approved': a, 'feedback': f}]. *)
Definition verdict (a : bool) (f : string) : pyval :=
  PDict (<["approved" := PBool a]> {["feedback" := PStr f]}).

(** A review [step_result]: [{'status': st, 'feedback': fb}]. *)
Definition review_result (st : string) (fb : pyval) : pyval :=
  PDict (<["status" := PStr st]> {["feedback" := fb]}).

(** [{'error': msg}]. *)
Definition error_dict (msg : string) : pyval :=
  PDict {["error" := PStr msg]}.

(** *** The regeneration plan, [run] lines 460-505 *)

Definition initial_plan : regen_plan :=
  RegenPlan "all" PNone PNone PNone PNone.

Definition regeneration_plan (attempt : Z)
    (previous_review previous_content : pyval) : res regen_plan :=
  if (0 <? attempt)%Z && truthy previous_review then
    st ← py_get previous_review "status" PNone;
    if str_eq st "rejected" then
      structured_fb ← py_get previous_review "feedback" (PDict ∅);
      t ← py_get structured_fb "text" (PDict ∅);
      text_approved ← py_get t "approved" (PBool false);
      p ← py_get structured_fb "image_prompt" (PDict ∅);
      prompt_approved ← py_get p "approved" (PBool false);
      t' ← py_get structured_fb "text" (PDict ∅);
      text_fb ← py_get t' "feedback" PNone;
      p' ← py_get structured_fb "image_prompt" (PDict ∅);
      prompt_fb ← py_get p' "feedback" PNone;
      approved_text ←
        (if truthy previous_content && truthy text_approved
         then py_get previous_content "post_text" PNone
         else Ok PNone);
      approved_image_prompt ←
        (if truthy previous_content && truthy prompt_approved
         then py_get previous_content "image_prompt" PNone
         else Ok PNone);
      if truthy text_approved && negb (truthy prompt_approved) then
        Ok (RegenPlan "image_prompt" approved_text approved_image_prompt
              PNone prompt_fb)
      else if negb (truthy text_approved) && truthy prompt_approved then
        Ok (RegenPlan "text" approved_text approved_image_prompt
              text_fb PNone)
      else
        Ok (RegenPlan "all" PNone PNone
              (if negb (truthy text_approved) then text_fb else PNone)
              (if negb (truthy prompt_approved) then prompt_fb else PNone))
    else Ok initial_plan
  else Ok initial_plan.

(** *** Configuration and collaborators *)

(** The switches of [config.py] the engine reads. *)
Record config : Type := Config {
  AI_REVIEW_ENABLED_NEWS : bool;
  AI_REVIEW_ENABLED_POST_TEXT : bool;
  AI_REVIEW_ENABLED_IMAGE_PROMPT : bool;
  ARTICLE_SUMMARIZATION_THRESHOLD : nat
}.

(** The fields of a [ContentWorkflow] object. *)
Record workflow : Type := ContentWorkflow {
  max_regen_attempts : Z;
  human_review_required_news : bool;
  human_review_required_post : bool
}.

(** What the news fetcher returns: an error message, or the list of
    new articles, each a [Dict[str, str]]. *)
Inductive fetched : Type :=
  | FetchFailed (msg : string)
  | Articles (l : list (gmap string string)).

(** What the collaborators answer during one attempt on one platform:
    whether the prompt file loads, the reply of the generation model
    to the request, the two AI reviews, and the human review.  The
    answers are indexed by platform and attempt (see [attempt_of]), so
    they may depend on everything that happened before. *)
Record attempt_world : Type := AttemptWorld {
  prompt_loaded : bool;
  llm : regen_plan → llm_reply;
  ai_text_review : res pyval;
  ai_image_prompt_review : res pyval;
  human_post_review : res pyval
}.

(** The collaborators of one run.  The storage is the one of
    [storage.py]; of its input and output the world says how it goes:
    [download_image] is the download block of [save_content] (lines
    38-72), which catches what the download raises and raises only
    from its own handler (line 70 reads [image_filepath], unbound when
    the URL could not be parsed); [write_post] says whether the file
    of the post gets written (lines 74-81); [ledger_read] is [None]
    when the used-link file is read to its end, and the number of
    lines read before the error otherwise (lines 95-103);
    [ledger_writable] says whether the file opens for appending
    (lines 116-126). *)
Record world : Type := World {
  news_fetcher_func : gset string → res fetched;
  summarize_article_text : string → res string;
  ai_news_review : res pyval;
  human_news_review : res pyval;
  attempt_of : string → Z → attempt_world;
  images_generate : string → pyval → option string;
  download_image : string → string → res unit;
  write_post : string → pyval → bool;
  ledger_read : option nat;
  ledger_writable : bool
}.

Definition nl : string := String (Ascii.ascii_of_nat 10) "".

Section Engine.

Variable cfg : config.
Variable self : workflow.
Variable w : world.

(** *** [storage.py]: saved posts and the used-link file *)

(** [save_content], lines 17-81.  Empty content is skipped.  The copy
    of line 31 needs a dictionary or a list, and the [get] of line 35 a
    dictionary.  The write of the post catches its own errors: the call
    returns whether or not the file was written. *)
Definition save_content (platform_name : string) (content : pyval)
    (image_url : option string) : M unit :=
  if negb (truthy content) then mret tt
  else
    match content with
    | PDict _ | PList _ => mret tt
    | _ => lift (Raise ("'" ++ type_name content
                        ++ "' object has no attribute 'copy'"))
    end;;
    match image_url with
    | Some url =>
        if truthy (PStr url) then
          lift (py_get content "image_prompt" PNone);;
          lift (download_image w platform_name url)
        else mret tt
    | None => mret tt
    end;;
    emit (EvSave platform_name content (write_post w platform_name content)).

(** The lines [load_used_article_links] gets to see: all of them, or
    those before the read failed. *)
Definition lines_read (file : string) : list string :=
  match ledger_read w with
  | None => text_lines false "" file
  | Some n => take n (text_lines false "" file)
  end.

(** [load_used_article_links], lines 89-106: the set of the stripped
    lines that are not empty; a failed read keeps what was added
    before it. *)
Definition load_used_article_links (file : string) : gset string :=
  list_to_set (filter (λ link, link ≠ "") (strip <$> lines_read file)).

(** The loop of [append_used_article_links]: every non-empty link
    other than ['#'] is written, followed by a line feed; a truthy
    value that is no string raises inside the storage's own [try] and
    ends the loop. *)
Fixpoint write_links (new_links : list pyval) (file : string) : string :=
  match new_links with
  | [] => file
  | PStr link :: rest =>
      if negb (bool_decide (link = "")) && negb (bool_decide (link = "#"))
      then write_links rest (file ++ link ++ nl)
      else write_links rest file
  | v :: rest => if truthy v then file else write_links rest file
  end.

Definition append_used_article_links (new_links : list pyval) : M unit :=
  emit (EvAppend new_links);;
  if negb (truthy (PList new_links)) then mret tt
  else if ledger_writable w
  then modify (λ s, set_ledger (write_links new_links (ledger s)) s)
  else mret tt.

(** *** [_run_news_step] *)

Definition initial_news_result : news_result :=
  NewsResult "rejected" PNone [] (PStr "Unknown error").

Definition set_status (v : string) (r : news_result) : news_result :=
  NewsResult v (news_summary r) (fetched_articles r) (feedback r).
Definition set_news_summary (v : pyval) (r : news_result) : news_result :=
  NewsResult (status r) v (fetched_articles r) (feedback r).
Definition set_fetched_articles (v : list pyval) (r : news_result)
  : news_result :=
  NewsResult (status r) (news_summary r) v (feedback r).
Definition set_feedback (v : pyval) (r : news_result) : news_result :=
  NewsResult (status r) (news_summary r) (fetched_articles r) v.

Definition article_val (a : gmap string string) : pyval :=
  PDict (PStr <$> a).

(** Lines 113-127: the text of an article, summarized when it is
    longer than the threshold and the summarizer succeeds. *)
Definition summarized_content (content : string) : M string :=
  if bool_decide (ARTICLE_SUMMARIZATION_THRESHOLD cfg < String.length content)
  then
    emit (EvSummarize content);;
    match summarize_article_text w content with
    | Ok summary =>
        if negb (bool_decide (summary = ""))
           && negb (String.prefix "[Error" summary)
           && negb (String.prefix "[Unexpected" summary)
        then mret summary else mret content
    | Raise _ => mret content
    end
  else mret content.

(** Lines 104-135: the loop over the fetched articles, threading
    [combined_news_content], [processed_articles_count] and
    [links_to_add_to_used]. *)
Fixpoint process_articles (articles : list (gmap string string))
    (combined : string) (count : nat) (links : list pyval)
  : M (string * list pyval) :=
  match articles with
  | [] => mret (combined, links)
  | article :: rest =>
      let content := default "" (article !! "content") in
      let link := article !! "link" in
      if bool_decide (content = "") || String.prefix "[" content
      then process_articles rest combined count links
      else
        text ← summarized_content content;
        let combined1 :=
          if bool_decide (combined = "") then combined
          else combined ++ nl ++ nl ++ "--- ARTICLE SEPARATOR ---" ++ nl ++ nl in
        let shown_link :=
          match link with
          | Some l => if bool_decide (l = "") then "No Link" else l
          | None => "No Link"
          end in
        let combined2 :=
          combined1 ++ "ARTICLE " ++ pretty (count + 1) ++ ": "
          ++ default "No Title" (article !! "title") ++ nl
          ++ "SOURCE: " ++ shown_link ++ nl ++ nl ++ text in
        let links' :=
          match link with
          | Some l =>
              if negb (bool_decide (l = "")) && negb (bool_decide (l = "#"))
              then (links ++ [PStr l])%list else links
          | None => links
          end in
        process_articles rest combined2 (count + 1) links'
  end.

Definition news_try_body (used_links : gset string) : M unit :=
  emit EvFetch;;
  fetched_data ← lift (news_fetcher_func w used_links);
  match fetched_data with
  | FetchFailed msg =>
      modify (set_news_step
        (set_feedback (PStr ("News fetching failed: " ++ msg))))
  | Articles [] =>
      modify (set_news_step
        (set_feedback (PStr
          "News fetching succeeded, but no *new* relevant articles were found.")));;
      modify (set_news_step (set_status "no_news"))
  | Articles fetched_data =>
      modify (set_news_step
        (set_fetched_articles (article_val <$> fetched_data)));;
      '(combined_news_content, links_to_add_to_used) ←
        process_articles fetched_data "" 0 [];
      if bool_decide (combined_news_content = "") then
        modify (set_news_step (set_feedback (PStr
          "All fetched articles were skipped due to missing/invalid content.")));;
        modify (set_news_step (set_status "rejected"))
      else
        modify (set_news_step
          (set_news_summary (PStr combined_news_content)));;
        '(ai_review, ai_approved) ←
          (if AI_REVIEW_ENABLED_NEWS cfg then
             emit (EvAIReview "news_summary" PNone);;
             ai_review ← lift (ai_news_review w);
             ai_approved ← lift (py_get ai_review "approved" (PBool false));
             mret (ai_review, ai_approved)
           else mret (verdict true "AI review skipped by config.", PBool true));
        modify (set_news_step (set_feedback ai_review));;
        if negb (truthy ai_approved) || human_review_required_news self
        then
          emit (EvHumanReview "news_summary" PNone);;
          human_review ← lift (human_news_review w);
          fb ← lift (py_get human_review "feedback"
                       (error_dict "Human review failed to return feedback."));
          modify (set_news_step (set_feedback fb));;
          approved ← lift (py_get human_review "approved" (PBool false));
          if negb (truthy approved) then
            modify (set_news_step (set_status "rejected"));;
            modify (set_news_step (set_fetched_articles []))
          else
            modify (set_news_step (set_status "approved"));;
            modify (set_news_step (set_fetched_articles links_to_add_to_used))
        else
          modify (set_news_step (set_status "approved"));;
          modify (set_news_step (set_fetched_articles links_to_add_to_used))
  end.

Definition _run_news_step (used_links : gset string) : M news_result :=
  modify (set_news_step (λ _, initial_news_result));;
  try_except (news_try_body used_links)
    (λ e,
       modify (set_news_step
         (set_feedback (PStr ("Critical error in news step: " ++ e))));;
       modify (set_news_step (set_fetched_articles [])));;
  s ← get_state;
  mret (news_step s).

(** *** [_run_generation_step] *)

(** What [_run_generation_step] returns: [None] when the prompt file
    does not load or [generate_content] reports an error, else the
    generated content. *)
Definition generation_result (platform : string) (attempt : Z)
    (plan : regen_plan) : pyval :=
  let aw := attempt_of w platform attempt in
  if negb (prompt_loaded aw) then PNone
  else
    let '(generated_content, error) :=
      generate_content (llm aw plan) (regenerate_component plan)
        (approved_text_for_regen plan)
        (approved_image_prompt_for_regen plan) in
    match error with
    | Some e => if truthy (PStr e) then PNone else generated_content
    | None => generated_content
    end.

Definition _run_generation_step (platform : string) (attempt : Z)
    (plan : regen_plan) : M pyval :=
  emit (EvGenerate platform attempt plan);;
  mret (generation_result platform attempt plan).

(** *** [_run_review_step] *)

(** One AI sub-review (lines 331-341 and 344-354): the review kept in
    [component_reviews] and whether it approves. *)
Definition ai_component_review (enabled : bool) (content_type : string)
    (platform : string) (answer : res pyval) : M (pyval * bool) :=
  if enabled then
    emit (EvAIReview content_type (PStr platform));;
    review ← lift answer;
    approved ← lift (py_get review "approved" (PBool false));
    mret (review, truthy approved)
  else mret (verdict true "AI review skipped by config.", true).

Definition review_try_body (platform_content : pyval) (platform : string)
    (aw : attempt_world) : M pyval :=
  post_text_to_review ← lift (py_get platform_content "post_text" (PStr ""));
  image_prompt_to_review ←
    lift (py_get platform_content "image_prompt" (PStr ""));
  '(text_review, text_ok) ←
    ai_component_review (AI_REVIEW_ENABLED_POST_TEXT cfg) "post_text"
      platform (ai_text_review aw);
  '(prompt_review, prompt_ok) ←
    ai_component_review (AI_REVIEW_ENABLED_IMAGE_PROMPT cfg) "image_prompt"
      platform (ai_image_prompt_review aw);
  let ai_approved_all_components := text_ok && prompt_ok in
  let component_reviews :=
    PDict (<["text" := text_review]> {["image_prompt" := prompt_review]}) in
  if negb ai_approved_all_components || human_review_required_post self
  then
    emit (EvHumanReview "full_post" (PStr platform));;
    human_review ← lift (human_post_review aw);
    approved ← lift (py_get human_review "approved" (PBool false));
    let st := if truthy approved then "approved" else "rejected" in
    human_feedback ← lift (py_get human_review "feedback" (PDict ∅));
    let dflt := verdict (bool_decide (st = "approved")) "N/A" in
    t ← lift (py_get human_feedback "text" dflt);
    p ← lift (py_get human_feedback "image_prompt" dflt);
    mret (review_result st
            (PDict (<["text" := t]> {["image_prompt" := p]})))
  else if ai_approved_all_components
  then mret (review_result "approved" component_reviews)
  else mret (review_result "rejected" component_reviews).

Definition _run_review_step (platform_content : pyval) (platform : string)
    (attempt : Z) : M pyval :=
  emit (EvReview platform attempt);;
  if negb (truthy platform_content)
  then mret (review_result "rejected"
               (error_dict "No content provided for review."))
  else
    try_except
      (review_try_body platform_content platform
         (attempt_of w platform attempt))
      (λ e, mret (review_result "rejected"
                    (error_dict ("Critical error in review step: " ++ e)))).

(** *** The attempt loop of [run], lines 456-548 *)

(** [platform_states[platform]] and [final_approved_content[platform]]:
    a missing key raises [KeyError]. *)
Definition get_platform_state (platform : string) : M platform_state :=
  λ s, match platform_states s !! platform with
       | Some ps => (Ok ps, s)
       | None => (Raise ("KeyError: " ++ platform), s)
       end.

Definition update_platform_state (platform : string)
    (f : platform_state → platform_state) : M unit :=
  modify (λ s, set_platform_states (alter f platform (platform_states s)) s).

Definition set_attempts (n : Z) (ps : platform_state) : platform_state :=
  PlatformState (content ps) (review_outcome ps) n.
Definition set_content (c : pyval) (ps : platform_state) : platform_state :=
  PlatformState c (review_outcome ps) (attempts ps).
Definition set_review_outcome (r : pyval) (ps : platform_state)
  : platform_state :=
  PlatformState (content ps) r (attempts ps).

(** The verdict recorded when generation returns nothing. *)
Definition generation_failed : pyval :=
  review_result "rejected" (error_dict "Generation failed").

(** The second half of an iteration, lines 519-548: what happens to
    the content the generation step returned. *)
Definition judge_attempt (platform : string) (attempt : Z)
    (current_content : pyval) : M ctl :=
  update_platform_state platform (set_content current_content);;
  if negb (truthy current_content) then
    update_platform_state platform (set_review_outcome generation_failed);;
    if (max_regen_attempts self <=? attempt)%Z then mret Break else mret Next
  else
    outcome ← _run_review_step current_content platform attempt;
    update_platform_state platform (set_review_outcome outcome);;
    st ← lift (py_get outcome "status" PNone);
    if str_eq st "approved" then
      modify (set_final platform current_content);;
      mret Break
    else if (max_regen_attempts self <=? attempt)%Z then
      modify (set_final platform PNone);;
      mret Break
    else mret Next.

(** One iteration of [for attempt in range(self.max_regen_attempts + 1)]. *)
Definition attempt_body (platform : string) (attempt : Z) : M ctl :=
  update_platform_state platform (set_attempts (attempt + 1));;
  platform_state ← get_platform_state platform;
  plan ← lift (regeneration_plan attempt (review_outcome platform_state)
                 (content platform_state));
  current_content ← _run_generation_step platform attempt plan;
  judge_attempt platform attempt current_content.

Definition attempt_loop (platform : string) : M unit :=
  for_each (seqZ 0 (max_regen_attempts self + 1)) (attempt_body platform).

(** *** Saving an approved platform, lines 550-587 *)

Definition get_final (platform : string) : M pyval :=
  λ s, match final_approved_content s !! platform with
       | Some c => (Ok c, s)
       | None => (Raise ("KeyError: " ++ platform), s)
       end.

(** The image is generated outside the [try] around the save: what
    [generate_image] raises ends the work on the platforms. *)
Definition save_platform (platform : string) : M unit :=
  approved_content_dict ← get_final platform;
  if truthy approved_content_dict then
    image_prompt ← lift (py_get approved_content_dict "image_prompt" PNone);
    image_url ←
      (if truthy image_prompt then
         emit (EvImage platform image_prompt);;
         lift (generate_image (images_generate w platform) image_prompt)
       else mret None);
    try_except
      (save_content platform approved_content_dict image_url;;
       modify (set_any_post_saved true))
      (λ _, modify (set_final platform PNone))
  else mret tt.

(** *** [run] *)

Definition platforms : list string := ["Instagram"; "Rednote"].

Definition initial_platform_state : platform_state :=
  PlatformState PNone PNone 0.

Definition process_platform (platform : string) : M ctl :=
  attempt_loop platform;;
  save_platform platform;;
  mret Next.

(** The final step, lines 597-603. *)
Definition save_used_links : M unit :=
  s ← get_state;
  if truthy (PList (links_from_approved_news s)) && any_post_saved s
  then append_used_article_links (links_from_approved_news s)
  else mret tt.

Definition run_try_body : M unit :=
  s ← get_state;
  news_result ← _run_news_step (load_used_article_links (ledger s));
  if bool_decide (status news_result = "rejected") then mret tt
  else if bool_decide (status news_result = "no_news") then mret tt
  else
    modify (set_links (fetched_articles news_result));;
    modify (set_platform_states
              (list_to_map ((λ p, (p, initial_platform_state)) <$> platforms)));;
    for_each platforms process_platform;;
    save_used_links.

(** The handler of the outer [try], lines 619-628. *)
Definition run_except (e : string) : M unit :=
  s ← get_state;
  if truthy (PList (links_from_approved_news s)) && any_post_saved s
  then try_except (append_used_article_links (links_from_approved_news s))
         (λ _, mret tt)
  else mret tt.

(** The locals [run] initialises before its [try], lines 409-411. *)
Definition init_locals (s : state) : state :=
  State (log s) (ledger s) (news_step s) []
    (list_to_map ((λ p, (p, PNone)) <$> platforms)) false
    (platform_states s).

Definition run : M unit :=
  modify init_locals;;
  try_except run_try_body run_except.

(** The state a run starts from: nothing logged, and the used-link
    file as the earlier runs left it. *)
Definition start (file : string) : state :=
  State [] file initial_news_result [] ∅ false ∅.

End Engine.

(** Unfolds the operations of the monad [M], in the goal or in a
    hypothesis. *)
Ltac unfold_M :=
  unfold mbind, mret, M_bind, M_ret, lift, emit, modify, try_except,
    get_state.
Tactic Notation "unfold_M" "in" hyp(H) :=
  unfold mbind, mret, M_bind, M_ret, lift, emit, modify, try_except,
    get_state in H.

End Workflow.

(** * Vocabulary of the specification *)

Module Spec.
Import Workflow.

(** Whether a review verdict approves a component, read the way the
    attempt loop reads it (lines 472-475): the ['approved'] flag of the
    component entry of the ['feedback'] dictionary, [False] when
    missing. *)
Definition verdict_approves (review : pyval) (component : string) : bool :=
  match
    (structured_fb ← py_get review "feedback" (PDict ∅);
     c ← py_get structured_fb component (PDict ∅);
     py_get c "approved" (PBool false))
  with
  | Ok a => truthy a
  | Raise _ => false
  end.

(** What a step adds to the log. *)
Definition new_events (before after : state) : list event :=
  drop (length (log before)) (log after).

(** [preserves I m]: running [m] from a state in [I] ends in a state
    in [I], whether [m] returns or raises. *)
Definition preserves {A : Type} (I : state → Prop) (m : M A) : Prop :=
  ∀ s, I s → I (m s).2.

(** [triple P m Q E]: from a state in [P], [m] either returns [a] in a
    state satisfying [Q a], or raises in a state satisfying [E]. *)
Definition triple {A : Type} (P : state → Prop) (m : M A)
    (Q : A → state → Prop) (E : state → Prop) : Prop :=
  ∀ s, P s →
    match m s with
    | (Ok a, s') => Q a s'
    | (Raise _, s') => E s'
    end.

(** The events that neither write the file of a post nor touch the
    used-link file. *)
Definition benign (e : event) : Prop :=
  match e with
  | EvAppend _ => False
  | EvSave _ _ true => False
  | _ => True
  end.

Definition is_append (e : event) : bool :=
  match e with
  | EvAppend _ => true
  | _ => false
  end.

(** How often [append_used_article_links] was called. *)
Definition count_appends (l : list event) : nat :=
  length (filter (λ e, is_append e = true) l).

(** The file of some platform's post was written. *)
Definition persisted (l : list event) : Prop :=
  ∃ platform saved, EvSave platform saved true ∈ l.

Definition is_written (e : event) : bool :=
  match e with
  | EvSave _ _ true => true
  | _ => false
  end.

(** Some call of [save_content] came to its end: the write of the
    post was attempted, with or without success. *)
Definition save_returned (l : list event) : Prop :=
  ∃ platform saved written, EvSave platform saved written ∈ l.

(** What the attempt loop stores for a platform between two
    iterations: generated content that is a dictionary, or no content
    together with no verdict yet or the verdict of a failed
    generation. *)
Definition content_matches_verdict (ps : platform_state) : Prop :=
  (∃ c, content ps = PDict c)
  ∨ (content ps = PNone
     ∧ (review_outcome ps = PNone ∨ review_outcome ps = generation_failed)).

Definition stored_states_consistent (s : state) : Prop :=
  ∀ platform ps,
    platform_states s !! platform = Some ps → content_matches_verdict ps.

(** Every recorded attempt count is at most [bound]. *)
Definition attempts_bounded (bound : Z) (s : state) : Prop :=
  ∀ platform ps,
    platform_states s !! platform = Some ps → (attempts ps ≤ bound)%Z.

(** Before the used links are committed: no call to
    [append_used_article_links] yet, the used-link file as the run
    found it, and [any_post_saved] only set after a call of
    [save_content] that returned. *)
Definition links_pending (file : string) (s : state) : Prop :=
  count_appends (log s) = 0
  ∧ ledger s = file
  ∧ (any_post_saved s = true → save_returned (log s)).

(** At most one call to [append_used_article_links], made only in a
    run in which some call of [save_content] returned; otherwise the
    used-link file is as the run found it. *)
Definition links_accounted (file : string) (s : state) : Prop :=
  (count_appends (log s) ≤ 1)%nat
  ∧ (0 < count_appends (log s) → save_returned (log s))%nat
  ∧ (¬ save_returned (log s) → count_appends (log s) = 0 ∧ ledger s = file).

End Spec.

(** * Concrete inputs used as examples *)

Module Examples.
Import AIService Workflow.

Definition cfg0 : config := Config true true true 1500.

Definition draft : gmap string pyval :=
  <["post_text" := PStr "draft"]>
    (<["image_prompt" := PStr "a cat"]> {["hashtags" := PList [PStr "#news"]]}).

(** A human verdict that approves the text and rejects the image
    prompt as too generic. *)
Definition prompt_rejected : gmap string pyval :=
  <["text" := verdict true "Human approved."]>
    {["image_prompt" := verdict false "too generic"]}.

(** A human verdict whose text entry lacks the ['approved'] flag while
    the image prompt is approved. *)
Definition text_flag_missing : gmap string pyval :=
  <["text" := PDict {["feedback" := PStr "too long"]}]>
    {["image_prompt" := verdict true "Human approved."]}.

Definition rejected_with (fb : gmap string pyval) : gmap string pyval :=
  <["status" := PStr "rejected"]> {["feedback" := PDict fb]}.

Definition self0 : workflow := ContentWorkflow 1 false true.

(** The rejection [ConsoleReviewer.request_review] returns for input
    it does not handle: no component entry at all. *)
Definition unhandled_review : pyval :=
  PDict (<["approved" := PBool false]>
           {["feedback" :=
               error_dict "Unhandled content type/format for human review: full_post"]}).

(** An article whose body is an error placeholder. *)
Definition placeholder_article : gmap string string :=
  <["title" := "Sales are booming"]>
    (<["link" := "https://news.example/booming"]>
       {["content" := "[Error: could not fetch article]"]}).

(** A world whose fetcher finds only the placeholder article and whose
    human reviewer answers every request with [unhandled_review]. *)
Definition w0 : world :=
  World (λ _, Ok (Articles [placeholder_article])) (λ text, Ok text)
    (Ok (verdict true "Meets criteria.")) (Ok unhandled_review)
    (λ _ _, AttemptWorld true (λ _, ParsedJson (PDict draft))
              (Ok (verdict true "Meets criteria."))
              (Ok (verdict true "Meets criteria."))
              (Ok unhandled_review))
    (λ _ _, None) (λ _ _, Ok tt) (λ _ _, true) None true.

Definition article1 : gmap string string :=
  <["title" := "Checkout trends"]>
    (<["link" := "https://news.example/checkout"]>
       {["content" := "Shoppers abandon fewer carts this quarter."]}).

Definition human_answer (approved : bool) (fb : gmap string pyval) : pyval :=
  PDict (<["approved" := PBool approved]> {["feedback" := PDict fb]}).

Definition all_approved : gmap string pyval :=
  <["text" := verdict true "Human approved."]>
    {["image_prompt" := verdict true "Human approved."]}.

(** A world with one usable article in which, on every platform, the
    human rejects the image prompt of the first attempt and approves
    the second attempt. *)
Definition w1 : world :=
  World (λ _, Ok (Articles [article1; placeholder_article])) (λ text, Ok text)
    (Ok (verdict true "Meets criteria."))
    (Ok (human_answer true all_approved))
    (λ _ attempt,
       AttemptWorld true (λ _, ParsedJson (PDict draft))
         (Ok (verdict true "Meets criteria."))
         (Ok (verdict true "Meets criteria."))
         (Ok (if bool_decide (attempt = 0%Z)
              then human_answer false prompt_rejected
              else human_answer true all_approved)))
    (λ _ _, Some "https://images.example/1.png") (λ _ _, Ok tt)
    (λ _ _, true) None true.


(** The world [w1], except that the storage fails to write the file
    of any post (the disk is full, say, or the content does not encode
    as UTF-8); the used-link file can be appended to. *)
Definition w_unwritten : world :=
  World (news_fetcher_func w1) (summarize_article_text w1)
    (ai_news_review w1) (human_news_review w1) (attempt_of w1)
    (images_generate w1) (download_image w1) (λ _ _, false) None true.


End Examples.

(** * Further vocabulary and models *)

(** ** Vocabulary for the review gate, the news gate and the run *)

Module ReviewVocabulary.
Import AIService Workflow Spec.

(** What an enabled AI sub-review of [_run_review_step] says (lines
    331-354): [Some b] when the review came back and reads as approved
    ([b]) or not, [None] when asking for it or reading it raised.  A
    check switched off in the configuration counts as approved. *)
Definition ai_check (enabled : bool) (answer : res pyval) : option bool :=
  if enabled then
    match answer with
    | Ok review =>
        match py_get review "approved" (PBool false) with
        | Ok a => Some (truthy a)
        | Raise _ => None
        end
    | Raise _ => None
    end
  else Some true.

(** The escalation rule in words: the human is asked when both AI
    sub-reviews came back and either one of them did not approve or
    the policy requires a human. *)
Definition escalates (cfg : config) (self : workflow) (aw : attempt_world)
  : bool :=
  match ai_check (AI_REVIEW_ENABLED_POST_TEXT cfg) (ai_text_review aw) with
  | Some text_ok =>
      match ai_check (AI_REVIEW_ENABLED_IMAGE_PROMPT cfg)
              (ai_image_prompt_review aw) with
      | Some prompt_ok =>
          negb (text_ok && prompt_ok) || human_review_required_post self
      | None => false
      end
  | None => false
  end.

(** What [_run_review_step] makes of the answer of the human
    reviewer (lines 360-376, and the handler at lines 391-396): the
    status follows the ['approved'] flag of the answer, the component
    entries are those of its feedback, with a placeholder for a
    missing one; an exception, of the reviewer or met while reading
    the answer, gives a rejection carrying its text. *)
Definition human_outcome (answer : res pyval) : pyval :=
  match
    (human_review ← answer;
     approved ← py_get human_review "approved" (PBool false);
     let st := if truthy approved then "approved" else "rejected" in
     human_feedback ← py_get human_review "feedback" (PDict ∅);
     let dflt := verdict (bool_decide (st = "approved")) "N/A" in
     t ← py_get human_feedback "text" dflt;
     p ← py_get human_feedback "image_prompt" dflt;
     Ok (review_result st (PDict (<["text" := t]> {["image_prompt" := p]}))))
  with
  | Ok outcome => outcome
  | Raise e =>
      review_result "rejected"
        (error_dict ("Critical error in review step: " ++ e))
  end.

End ReviewVocabulary.

Module NewsVocabulary.
Import AIService Workflow Spec.

(** An article whose body the news step folds into the summary: the
    body is present and is no bracketed placeholder (line 109). *)
Definition usable (article : gmap string string) : bool :=
  let content := default "" (article !! "content") in
  negb (bool_decide (content = "") || String.prefix "[" content).

(** The link of an article, when it is one the used-link ledger
    tracks (lines 134-135). *)
Definition trackable_link (article : gmap string string) : option string :=
  match article !! "link" with
  | Some l =>
      if negb (bool_decide (l = "")) && negb (bool_decide (l = "#"))
      then Some l else None
  | None => None
  end.

(** The links a summary of the fetched articles consumes: the
    trackable links of the usable articles, in the order fetched. *)
Definition consumed_links (articles : list (gmap string string))
  : list string :=
  omap trackable_link (filter (λ a, usable a = true) articles).

(** The text [append_used_article_links] writes for links that are
    all trackable: each on a line of its own. *)
Fixpoint link_lines (links : list string) : string :=
  match links with
  | [] => ""
  | link :: rest => link ++ nl ++ link_lines rest
  end.

(** The events of the news step. *)
Definition news_event (e : event) : Prop :=
  match e with
  | EvFetch | EvSummarize _ => True
  | EvAIReview ct p | EvHumanReview ct p => ct = "news_summary" ∧ p = PNone
  | _ => False
  end.

End NewsVocabulary.

Module RunVocabulary.
Import AIService Workflow Spec.

(** The event of a generation call for [platform]. *)
Definition generates (platform : string) (e : event) : bool :=
  match e with
  | EvGenerate p _ _ => bool_decide (p = platform)
  | _ => false
  end.

(** How often [generate_content] was asked for a post of [platform]. *)
Definition count_generations (platform : string) (l : list event) : nat :=
  length (filter (λ e, generates platform e = true) l).

End RunVocabulary.

Module RunBounds.
Import AIService Workflow Spec.
Import RunVocabulary.

(** [m] asks for at most [k] further generations for [platform]. *)
Definition adds_generations {A : Type} (platform : string) (k : nat)
    (m : M A) : Prop :=
  ∀ s, (count_generations platform (log (m s).2)
        ≤ count_generations platform (log s) + k)%nat.

(** At most [c] generations for [platform] so far. *)
Definition generations_at_most (platform : string) (c : nat) (s : state)
  : Prop :=
  (count_generations platform (log s) ≤ c)%nat.

(** An event that is no generation for [platform]. *)
Definition no_generation (platform : string) (e : event) : Prop :=
  generates platform e = false.

End RunBounds.

Module SaveVocabulary.
Import AIService Workflow Spec.

(** Every platform whose final content is non-empty had exactly that
    content handed to [save_content], which came to the write of the
    post (and so returned). *)
Definition successes_saved (s : state) : Prop :=
  ∀ p c,
    final_approved_content s !! p = Some c → truthy c = true →
    ∃ written, EvSave p c written ∈ log s.

(** The same between the attempt loop of [platform] and its save:
    [platform] may hold approved content, a dictionary, not saved yet. *)
Definition successes_saved_but (platform : string) (s : state) : Prop :=
  ∀ p c,
    final_approved_content s !! p = Some c → truthy c = true →
    (∃ written, EvSave p c written ∈ log s)
    ∨ (p = platform ∧ ∃ d, c = PDict d).

End SaveVocabulary.

Module MoreExamples.
Import AIService Workflow Spec.


End MoreExamples.

(** ** Python strings *)

Module PyStr.
Import AIService Workflow Spec.

(** [sub in s] for two strings: [sub] occurs in [s]. *)
Fixpoint contains (sub s : string) : bool :=
  String.prefix sub s
  || match s with
     | EmptyString => false
     | String _ rest => contains sub rest
     end.

(** The double quote character, as a string. *)
Definition dquote : string := String (Ascii.ascii_of_nat 34) EmptyString.

End PyStr.

(** ** [workflow.py]: the ad intensity instruction *)

Module AdIntensity.
Import AIService Workflow Spec.

Definition no_promotion : string :=
  "Focus entirely on the news insight and value for the user. Mention Airmart only if absolutely essential and natural, keeping it extremely minimal.".
Definition subtle_promotion : string :=
  "Prioritize the news insight and general advice. Keep Airmart mentions very subtle and brief (max 1-2 times) only as a relevant tool.".
Definition balanced_promotion : string :=
  "Balance the news insight/advice with Airmart's relevance. Integrate Airmart naturally as a helpful solution, mentioning specific relevant features subtly.".
Definition explicit_promotion : string :=
  "Clearly connect the news insight to Airmart's benefits. Highlight relevant features more explicitly and explain how Airmart helps address the topic.".
Definition central_promotion : string :=
  "Make Airmart a central part of the solution/advice presented. Strongly emphasize how Airmart features address the news insight and promote its value in this context.".

(** [_generate_ad_intensity_instruction], lines 203-228.  The argument
    is what [int(config.AD_CONTENT_INTENSITY_PERCENT)] gives: the
    integer, or [None] when the conversion raises [ValueError] or
    [TypeError]. *)
Definition _generate_ad_intensity_instruction (configured : option Z)
  : string :=
  let intensity_percent :=
    match configured with
    | Some n => n
    | None => 20%Z
    end in
  let intensity_percent :=
    if negb ((0 <=? intensity_percent)%Z && (intensity_percent <=? 100)%Z)
    then Z.max 0 (Z.min 100 intensity_percent)
    else intensity_percent in
  if (intensity_percent =? 0)%Z then no_promotion
  else if (1 <=? intensity_percent)%Z && (intensity_percent <=? 20)%Z
  then subtle_promotion
  else if (21 <=? intensity_percent)%Z && (intensity_percent <=? 50)%Z
  then balanced_promotion
  else if (51 <=? intensity_percent)%Z && (intensity_percent <=? 80)%Z
  then explicit_promotion
  else central_promotion.

End AdIntensity.

(** ** [utils.py]: loading a prompt file *)

Module Utils.
Import AIService Workflow Spec.

(** The body of the loop of [load_prompt_from_file], lines 20-48, for
    one item of the list: the processed message, or [None] where the
    source raises (every exception makes the function return [None]).
    [read_file] is the reading of a content file named relative to the
    prompt file: its text, or [None] when opening or reading raises.
    A ['content_file'] entry that is no string makes [os.path.join]
    raise. *)
Definition process_message (read_file : string → option string)
    (msg : pyval) : option (gmap string pyval) :=
  match msg with
  | PDict m =>
      if negb (has_key m "role") then None
      else if has_key m "content" && has_key m "content_file" then None
      else if has_key m "content_file" then
        match m !! "content_file" with
        | Some (PStr content_filename) =>
            match read_file content_filename with
            | Some content_str =>
                Some (delete "content_file"
                        (<["content" := PStr content_str]> m))
            | None => None
            end
        | _ => None
        end
      else if has_key m "content" then
        match m !! "content" with
        | Some (PStr _) => Some m
        | _ => None
        end
      else None
  | _ => None
  end.

(** [load_prompt_from_file].  [prompt_messages] is what opening the
    file and [json.load] give: the decoded value, or [None] when the
    file is missing or holds no JSON. *)
Definition load_prompt_from_file (prompt_messages : option pyval)
    (read_file : string → option string)
  : option (list (gmap string pyval)) :=
  match prompt_messages with
  | Some (PList msgs) => mapM (process_message read_file) msgs
  | _ => None
  end.

End Utils.

(** ** [summarizer_agent.py] and [AIService.summarize_article_text] *)

Module Summarizer.
Import AIService Workflow Spec.

(** What the chat completion call of [summarize_with_llm] does: it
    raises an [OpenAIError], or some other exception (among them the
    [AttributeError] of a reply without content), or returns the text
    of the reply. *)
Inductive completion : Type :=
  | OpenAIError (e : string)
  | OtherError (e : string)
  | Completed (content : string).

Section Summarize.

(** [client] is [None] when no client was built; [strip] is
    [str.strip]. *)
Variable client : option (string → completion).
Variable strip : string → string.

Definition summarize_with_llm (text_to_summarize : string) : string :=
  match client with
  | None => "[Error: Invalid OpenAI client provided.]"
  | Some create =>
      if bool_decide (text_to_summarize = "")
      then "[Error: No text provided for summarization.]"
      else
        match create text_to_summarize with
        | Completed content => "[LLM Summary]: " ++ strip content
        | OpenAIError e => "[Error summarizing text: " ++ e ++ "]"
        | OtherError e => "[Unexpected error summarizing text: " ++ e ++ "]"
        end
  end.

(** [AIService.summarize_article_text], [ai_services.py] lines 401-420. *)
Definition summarize_article_text (text_to_summarize : string) : string :=
  if bool_decide (text_to_summarize = "")
  then "[Error: No text provided for summarization.]"
  else summarize_with_llm text_to_summarize.

End Summarize.

End Summarizer.

(** ** [AIService.review_content] *)

Module AIReviewer.
Import AIService Workflow Spec.

(** What the chat completion call of [review_content] and the decoding
    of its reply give: an exception raised by the call (or by
    [json.loads] on a reply without content), a reply that is no JSON,
    or a reply with the value it decodes to. *)
Inductive review_reply : Type :=
  | ReviewCallFailed (e : string)
  | ReviewNotJson (review_result_str : string)
  | ReviewDecoded (review_result_str : string) (review_result : pyval).

Section Review.

(** The text of the [TypeError] an operation raises on a value it does
    not support (it differs between interpreter versions). *)
Variable type_error : string → pyval → string.

(** The review model, asked about a content of a type for a platform
    in a language. *)
Variable review_model : pyval → string → option string → string → review_reply.

(** [k in v] for a string [k]. *)
Definition py_in (k : string) (v : pyval) : res bool :=
  match v with
  | PDict d => Ok (has_key d k)
  | PList l => Ok (existsb (λ x, str_eq x k) l)
  | PStr s => Ok (PyStr.contains k s)
  | _ => Raise (type_error "in" v)
  end.

(** [v[k]] for a string [k], for whether it raises. *)
Definition py_item (v : pyval) (k : string) : res pyval :=
  match v with
  | PDict d =>
      match d !! k with
      | Some x => Ok x
      | None => Raise ("'" ++ k ++ "'")
      end
  | _ => Raise (type_error "getitem" v)
  end.

(** The content types for which criteria are defined. *)
Definition known_content_type (content_type : string) : bool :=
  bool_decide (content_type = "news_summary")
  || bool_decide (content_type = "post_text")
  || bool_decide (content_type = "image_prompt").

(** Lines 379-393: what is made of the decoded reply.  An exception
    here is caught by the handler of the API call. *)
Definition read_review (review_result_str : string) (review_result : pyval)
  : res pyval :=
  has_approved ← py_in "approved" review_result;
  invalid ←
    (if negb has_approved then Ok true
     else has_feedback ← py_in "feedback" review_result;
          Ok (negb has_feedback));
  if (invalid : bool) then
    Ok (verdict false
          ("AI feedback: Invalid review response format: "
           ++ review_result_str))
  else
    _ ← py_item review_result "approved";
    _ ← py_item review_result "feedback";
    Ok review_result.

(** [review_content], lines 260-399.  The preview printed at line 272
    slices the content, which raises for a non-empty value that is
    neither a string nor a list; that exception is not caught. *)
Definition review_content (content_to_review : pyval) (content_type : string)
    (platform : option string) (language : string) : res pyval :=
  if negb (truthy content_to_review) then
    Ok (verdict false "AI feedback: Content to review was empty.")
  else
    match content_to_review with
    | PStr _ | PList _ =>
        if negb (known_content_type content_type) then
          Ok (verdict false
                ("AI feedback: Unknown content type " ++ PyStr.dquote
                 ++ content_type ++ PyStr.dquote ++ " for review."))
        else
          match review_model content_to_review content_type platform
                  language with
          | ReviewCallFailed e => Ok (verdict false ("AI Review Failed: " ++ e))
          | ReviewNotJson review_result_str =>
              Ok (verdict false
                    ("AI feedback: Failed to parse JSON review response: "
                     ++ review_result_str))
          | ReviewDecoded review_result_str review_result =>
              match read_review review_result_str review_result with
              | Ok v => Ok v
              | Raise e => Ok (verdict false ("AI Review Failed: " ++ e))
              end
          end
    | _ => Raise (type_error "slice" content_to_review)
    end.

End Review.

End AIReviewer.

(** ** Vocabulary for the prompt files *)

Module PromptVocabulary.
Import AIService Workflow Spec.

(** A message [load_prompt_from_file] accepts, in words: a dictionary
    with a ['role'] that carries either a string ['content'] and no
    ['content_file'], or no ['content'] and a ['content_file'] naming
    a file that can be read. *)
Definition valid_message (read_file : string → option string)
    (msg : pyval) : Prop :=
  ∃ m, msg = PDict m
    ∧ is_Some (m !! "role")
    ∧ ((∃ s, m !! "content" = Some (PStr s)) ∧ m !! "content_file" = None
       ∨ m !! "content" = None
         ∧ ∃ name, m !! "content_file" = Some (PStr name)
                   ∧ is_Some (read_file name)).

End PromptVocabulary.

(** ** [reviewers.py]: the console reviewer *)

Module Reviewers.
Import AIService Workflow Spec.

(** A computation that reads lines from the console: the lines not
    read yet are threaded through, also past an exception. *)
Definition Console (A : Type) : Type := list string → res A * list string.

Global Instance Console_ret : MRet Console := λ A a lines, (Ok a, lines).
Global Instance Console_bind : MBind Console := λ A B k m lines,
  match m lines with
  | (Ok a, rest) => k a rest
  | (Raise msg, rest) => (Raise msg, rest)
  end.

Definition pure {A : Type} (r : res A) : Console A := λ lines, (r, lines).

(** [input(...)]: the next line, or [EOFError] at the end of the
    input. *)
Definition input : Console string := λ lines,
  match lines with
  | [] => (Raise "EOF when reading a line", [])
  | line :: rest => (Ok line, rest)
  end.

Section Console.

(** [normalize s] is [s.lower().strip()]. *)
Variable normalize : string → string.

(** The loops at lines 49-53, 70-74 and 93-97: lines are read until
    one normalizes to ['y'] or ['n']. *)
Fixpoint ask_approval (lines : list string) : res string * list string :=
  match lines with
  | [] => (Raise "EOF when reading a line", [])
  | line :: rest =>
      let approval := normalize line in
      if bool_decide (approval = "y") || bool_decide (approval = "n")
      then (Ok approval, rest)
      else ask_approval rest
  end.

(** [text.replace(...)], for whether it raises: only strings have the
    method. *)
Definition replace_newlines (text : pyval) : res unit :=
  match text with
  | PStr _ => Ok tt
  | _ => Raise ("'" ++ type_name text ++ "' object has no attribute 'replace'")
  end.

(** One component of a full post, lines 41-59 and 62-80: the
    component is shown together with the AI feedback on it, and the
    reviewer is asked to approve it, and for feedback when not. *)
Definition review_component (content_to_review ai_feedback : pyval)
    (key missing ai_key : string) : Console (bool * pyval) :=
  component ← pure (py_get content_to_review key (PStr missing));
  _ ← pure (replace_newlines component);
  ai_entry ← pure (py_get ai_feedback ai_key (PDict ∅));
  _ ← pure (py_get ai_entry "feedback" (PStr "N/A"));
  approval ← ask_approval;
  if bool_decide (approval = "n") then
    fb ← input;
    mret (false, verdict false fb)
  else mret (true, verdict true "Human approved.").

Definition human_verdict (approved : bool) (text image_prompt : pyval)
  : pyval :=
  PDict (<["approved" := PBool approved]>
           {["feedback" :=
               PDict (<["text" := text]> {["image_prompt" := image_prompt]})]}).

(** [ConsoleReviewer.request_review], lines 7-114. *)
Definition request_review (content_to_review : pyval) (content_type : string)
    (ai_feedback : pyval) : Console pyval :=
  match content_to_review with
  | PDict _ =>
      if bool_decide (content_type = "full_post") then
        '(text_ok, text_entry) ←
          review_component content_to_review ai_feedback "post_text"
            "[NO TEXT FOUND]" "text";
        '(prompt_ok, prompt_entry) ←
          review_component content_to_review ai_feedback "image_prompt"
            "[NO IMAGE PROMPT FOUND]" "image_prompt";
        mret (human_verdict (text_ok && prompt_ok) text_entry prompt_entry)
      else
        mret (PDict (<["approved" := PBool false]>
                {["feedback" :=
                    error_dict ("Unhandled content type/format for human review: "
                                ++ content_type)]}))
  | PStr _ =>
      if bool_decide (content_type = "news_summary") then
        _ ← pure (py_get ai_feedback "feedback" (PStr "N/A"));
        approval ← ask_approval;
        if bool_decide (approval = "n") then
          news_fb ← input;
          mret (human_verdict false (verdict false news_fb)
                  (verdict false "N/A - News has no image prompt"))
        else
          mret (human_verdict true (verdict true "Human approved.")
                  (verdict true "N/A - News has no image prompt"))
      else
        mret (PDict (<["approved" := PBool false]>
                {["feedback" :=
                    error_dict ("Unhandled content type/format for human review: "
                                ++ content_type)]}))
  | _ =>
      mret (PDict (<["approved" := PBool false]>
              {["feedback" :=
                  error_dict ("Unhandled content type/format for human review: "
                              ++ content_type)]}))
  end.

End Console.

End Reviewers.

(** ** [news_fetcher.py] *)

Module NewsFetcher.
Import AIService Workflow Spec.

(** What [feedparser.parse] gives: it raises, or returns a feed
    flagged as ill-formed ([bozo]) with the kind and the text of its
    exception, or returns the entries of the feed.  The fields of an
    entry the fetcher reads are strings. *)
Inductive bozo_kind : Type :=
  | CharacterEncodingOverride
  | OtherException
  | NoException.

Inductive feed : Type :=
  | ParseRaised (e : string)
  | Bozo (kind : bozo_kind) (bozo_exception : string)
  | Entries (entries : list (gmap string string)).

(** What [gnewsdecoder] returns: nothing, or its status and the
    decoded URL (empty when there is none). *)
Record decoded_info : Type := DecodedInfo {
  decoded_status : bool;
  decoded_url : string
}.

(** What downloading and parsing an article gives: an
    [ArticleException], another exception, or the text. *)
Inductive article_fetch : Type :=
  | ArticleException (e : string)
  | ArticleOtherException (e : string)
  | ArticleText (text : string).

Section Fetcher.

(** The feed found for the keywords, the language and the country;
    the decoder of Google News links; the download of an article;
    and [str.lower]. *)
Variable parse : list string → string → string → feed.
Variable gnewsdecoder : string → res (option decoded_info).
Variable download : string → article_fetch.
Variable lower : string → string.

(** [entries[:n]]. *)
Definition py_slice_to {A : Type} (n : Z) (l : list A) : list A :=
  if (0 <=? n)%Z then take (Z.to_nat n) l
  else take (length l - Z.to_nat (- n)) l.

(** Lines 162-176: the link checked against the used links and the
    decoded URL, if decoding succeeded. *)
Definition decode_link (google_news_link : string) : string * option string :=
  if negb (bool_decide (google_news_link = ""))
     && negb (bool_decide (google_news_link = "#"))
  then
    match gnewsdecoder google_news_link with
    | Ok (Some info) =>
        if decoded_status info && negb (bool_decide (decoded_url info = ""))
        then (decoded_url info, Some (decoded_url info))
        else (google_news_link, None)
    | Ok None => (google_news_link, None)
    | Raise _ => (google_news_link, None)
    end
  else (google_news_link, None).

(** Lines 185-193. *)
Definition is_excluded (excluded_keywords : list string)
    (title rss_summary : string) : bool :=
  existsb (λ keyword,
             PyStr.contains (lower keyword) (lower title)
             || PyStr.contains (lower keyword) (lower rss_summary))
    excluded_keywords.

(** Lines 196-223: the text of the article, or a bracketed
    placeholder. *)
Definition fetch_text (google_news_link : string)
    (decoded_url_for_check : option string) : string :=
  match decoded_url_for_check with
  | Some final_link =>
      match download final_link with
      | ArticleText fetched_text =>
          if negb (bool_decide (fetched_text = "")) then fetched_text
          else "[Full text fetched but empty]"
      | ArticleException e => "[Error fetching/parsing article: " ++ e ++ "]"
      | ArticleOtherException e =>
          "[Unexpected error fetching article: " ++ e ++ "]"
      end
  | None =>
      if negb (bool_decide (google_news_link = ""))
         && negb (bool_decide (google_news_link = "#"))
      then "[Could not decode Google News URL, unable to fetch full text]"
      else "[Invalid Google News link provided]"
  end.

(** Lines 231-235. *)
Definition content_is_kept (article_text : string) : bool :=
  let is_error_content :=
    String.prefix "[Error" article_text
    || String.prefix "[Unexpected error" article_text
    || String.prefix "[Invalid Google" article_text
    || String.prefix "[URL decoding failed" article_text
    || String.prefix "[Could not decode" article_text in
  let is_empty_content :=
    bool_decide (article_text = "[Full text not fetched]")
    || bool_decide (article_text = "[Full text fetched but empty]") in
  let is_fallback_content := String.prefix "[Using RSS Summary]" article_text in
  (negb is_error_content && negb is_empty_content) || is_fallback_content.

(** The body of the loop for one entry, lines 150-245: the article it
    adds, if any. *)
Definition process_entry (excluded_keywords : list string)
    (used_links : gset string) (entry : gmap string string)
  : option (gmap string string) :=
  let title := default "No Title" (entry !! "title") in
  let rss_summary :=
    default (default "No summary available" (entry !! "description"))
      (entry !! "summary") in
  let google_news_link := default "#" (entry !! "link") in
  let pub_date_str := default "" (entry !! "published") in
  if bool_decide (title = "") || bool_decide (rss_summary = "")
     || bool_decide (title = "[Removed]")
  then None
  else
    let '(temp_final_link, decoded_url_for_check) :=
      decode_link google_news_link in
    if bool_decide (temp_final_link ∈ used_links)
       || (negb (bool_decide (google_news_link = temp_final_link))
           && bool_decide (google_news_link ∈ used_links))
    then None
    else if negb (bool_decide (excluded_keywords = []))
            && is_excluded excluded_keywords title rss_summary
    then None
    else
      let final_link := temp_final_link in
      let article_text := fetch_text google_news_link decoded_url_for_check in
      let article_text :=
        if String.prefix "[" article_text
           && negb (bool_decide (rss_summary = ""))
        then "[Using RSS Summary]: " ++ rss_summary
        else article_text in
      if content_is_kept article_text then
        Some (<["title" := title]>
                (<["link" := final_link]>
                   (<["date" := pub_date_str]>
                      {["content" := article_text]})))
      else None.

(** The loop of lines 143-245, threading [articles]. *)
Fixpoint collect (excluded_keywords : list string) (used_links : gset string)
    (max_articles : Z) (entries : list (gmap string string))
    (articles : list (gmap string string)) : list (gmap string string) :=
  match entries with
  | [] => articles
  | entry :: rest =>
      if (max_articles <=? Z.of_nat (length articles))%Z then articles
      else
        match process_entry excluded_keywords used_links entry with
        | Some article_data =>
            collect excluded_keywords used_links max_articles rest
              (articles ++ [article_data])
        | None =>
            collect excluded_keywords used_links max_articles rest articles
        end
  end.

(** [get_recent_ecommerce_news]: an error message or the list of new
    articles. *)
Definition get_recent_ecommerce_news (query_keywords : list string)
    (excluded_keywords : list string) (target_language target_country : string)
    (max_articles : Z) (used_links : gset string) (initial_fetch_count : Z)
  : fetched :=
  if bool_decide (query_keywords = []) then
    FetchFailed "Error: No query keywords provided."
  else
    match parse query_keywords target_language target_country with
    | ParseRaised e => FetchFailed ("An unexpected error occurred: " ++ e)
    | Bozo CharacterEncodingOverride bozo_exception =>
        FetchFailed ("Error: Feed character encoding issue: " ++ bozo_exception)
    | Bozo OtherException bozo_exception =>
        FetchFailed ("Error: Could not fetch or parse feed: " ++ bozo_exception)
    | Bozo NoException bozo_exception =>
        FetchFailed ("Error: Malformed RSS feed encountered: " ++ bozo_exception)
    | Entries entries =>
        if bool_decide (entries = []) then Articles []
        else
          Articles (collect excluded_keywords used_links max_articles
                      (py_slice_to initial_fetch_count entries) [])
    end.

End Fetcher.

End NewsFetcher.

Module FetcherVocabulary.
Import AIService Workflow Spec.

(** An article as the fetcher returns them: it has a title and a
    date, its link is not a used one, and its content is the
    non-empty text downloaded from the link, not starting with a
    bracket, or the RSS summary marked as such. *)
Definition fresh_article (download : string → NewsFetcher.article_fetch)
    (used_links : gset string) (article : gmap string string) : Prop :=
  ∃ link content,
    article !! "link" = Some link
    ∧ (link ∉ used_links)
    ∧ article !! "content" = Some content
    ∧ is_Some (article !! "title") ∧ is_Some (article !! "date")
    ∧ ((download link = NewsFetcher.ArticleText content
        ∧ content ≠ "" ∧ String.prefix "[" content = false)
       ∨ (∃ rss_summary,
            content = "[Using RSS Summary]: " ++ rss_summary
            ∧ rss_summary ≠ "")).

End FetcherVocabulary.

(** ** Concrete collaborators used as examples *)

Module ModelExamples.
Import AIService Workflow Spec.

(** A completion call that always answers, and a [strip] for replies
    without surrounding blanks. *)
Definition create0 (text : string) : Summarizer.completion :=
  Summarizer.Completed "Fewer carts are abandoned.".
Definition strip0 (s : string) : string := s.

(** A configuration that summarizes every article longer than ten
    characters. *)
Definition cfg_short : config := Config true true true 10.

(** The world [Examples.w1] with the summarizer of [AIService]. *)
Definition w_summarizer : world :=
  World (news_fetcher_func Examples.w1)
    (λ text, Ok (Summarizer.summarize_article_text (Some create0) strip0 text))
    (ai_news_review Examples.w1) (human_news_review Examples.w1)
    (attempt_of Examples.w1) (images_generate Examples.w1)
    (download_image Examples.w1) (write_post Examples.w1) None true.

(** A generated post that lacks its text: [generate_content] filled
    in [None]. *)
Definition textless : gmap string pyval :=
  <["post_text" := PNone]>
    (<["image_prompt" := PStr "a cat"]> {["hashtags" := PList []]}).

Definition type_error0 (operation : string) (v : pyval) : string :=
  "unsupported operand".

(** A review model that approves whatever it is shown. *)
Definition review_model0 (content : pyval) (content_type : string)
    (platform : option string) (language : string)
  : AIReviewer.review_reply :=
  AIReviewer.ReviewDecoded "{...}" (verdict true "Meets criteria.").

(** A world in which [AIService.review_content] reviews the two
    components of [textless], and the human approves. *)
Definition w_ai_reviewer : world :=
  World (news_fetcher_func Examples.w1) (summarize_article_text Examples.w1)
    (ai_news_review Examples.w1) (human_news_review Examples.w1)
    (λ platform attempt,
       AttemptWorld true (λ _, ParsedJson (PDict textless))
         (AIReviewer.review_content type_error0 review_model0 PNone
            "post_text" (Some platform) "en")
         (AIReviewer.review_content type_error0 review_model0 (PStr "a cat")
            "image_prompt" (Some platform) "en")
         (Ok (Examples.human_answer true Examples.all_approved)))
    (images_generate Examples.w1) (download_image Examples.w1) (write_post Examples.w1) None true.

(** What is typed at the console: the text is approved, the image
    prompt is not. *)
Definition typed : list string := ["y"; "maybe"; "n"; "too generic"].
Definition normalize0 (s : string) : string := s.

Definition ai_reviews : pyval :=
  PDict (<["text" := verdict true "Meets criteria."]>
           {["image_prompt" := verdict true "Meets criteria."]}).

(** A world whose human reviewer is the console reviewer, reading
    [typed], for the post [content]. *)
Definition w_console (content : gmap string pyval) : world :=
  World (news_fetcher_func Examples.w1) (summarize_article_text Examples.w1)
    (ai_news_review Examples.w1) (human_news_review Examples.w1)
    (λ platform attempt,
       AttemptWorld true (λ _, ParsedJson (PDict content))
         (Ok (verdict true "Meets criteria."))
         (Ok (verdict true "Meets criteria."))
         (Reviewers.request_review normalize0 (PDict content) "full_post"
            ai_reviews typed).1)
    (images_generate Examples.w1) (download_image Examples.w1) (write_post Examples.w1) None true.

(** A feed with one entry, whose link decodes and whose page can be
    downloaded. *)
Definition entry0 : gmap string string :=
  <["title" := "Checkout trends"]>
    (<["summary" := "Fewer carts are abandoned."]>
       {["link" := "https://news.google.com/rss/articles/1"]}).

Definition parse0 (query_keywords : list string)
    (target_language target_country : string) : NewsFetcher.feed :=
  NewsFetcher.Entries [entry0].
Definition gnewsdecoder0 (link : string)
  : res (option NewsFetcher.decoded_info) :=
  Ok (Some (NewsFetcher.DecodedInfo true "https://news.example/checkout")).
Definition download0 (link : string) : NewsFetcher.article_fetch :=
  NewsFetcher.ArticleText "Shoppers abandon fewer carts this quarter.".
Definition lower0 (s : string) : string := s.

(** The world [Examples.w1] with [get_recent_ecommerce_news] as its
    fetcher. *)
Definition w_fetcher : world :=
  World
    (λ used_links,
       Ok (NewsFetcher.get_recent_ecommerce_news parse0 gnewsdecoder0
             download0 lower0 ["ecommerce"] [] "en" "US" 3 used_links 20))
    (summarize_article_text Examples.w1)
    (ai_news_review Examples.w1) (human_news_review Examples.w1)
    (attempt_of Examples.w1) (images_generate Examples.w1)
    (download_image Examples.w1) (write_post Examples.w1) None true.

End ModelExamples.

(** * Properties of the content merger ([ai_services.py]) *)

Module ContentMerger.
Import AIService.

Lemma setdefault_lookup_eq k v (d : gmap string pyval) :
  setdefault k v d !! k = Some (default v (d !! k)).
Proof.
  unfold setdefault. destruct (d !! k) as [x|] eqn:E; simpl.
  - exact E.
  - apply lookup_insert_eq.
Qed.

Lemma setdefault_lookup_ne k k' v (d : gmap string pyval) :
  k ≠ k' → setdefault k v d !! k' = d !! k'.
Proof.
  intros Hne. unfold setdefault. destruct (d !! k); [done|].
  by apply lookup_insert_ne.
Qed.

Lemma has_key_true (d : gmap string pyval) k :
  has_key d k = true → d !! k = Some (default PNone (d !! k)).
Proof.
  unfold has_key. intros H. apply bool_decide_eq_true in H.
  destruct H as [x Hx]. by rewrite Hx.
Qed.

(** C6.  Merging with target ['all'] is the identity: whatever the
    kept text and the kept image prompt are, the merged content is the
    freshly generated one, and [generate_content] returns the parsed
    reply with its defaults filled and nothing else changed. *)
Theorem merge_all_is_identity (c : gmap string pyval) (kept_text kept_prompt : pyval) :
  merge_content "all" kept_text kept_prompt c = c
  ∧ generate_content (ParsedJson (PDict c)) "all" kept_text kept_prompt
    = (PDict (fill_defaults c), None).
Proof.
  assert (Hm : ∀ x, merge_content "all" kept_text kept_prompt x = x).
  { intros x. unfold merge_content.
    rewrite !bool_decide_eq_false_2 by discriminate. reflexivity. }
  split; [apply Hm|]. simpl. by rewrite Hm.
Qed.

(** C10.  A kept component that is empty ([None], the empty string,
    or any other falsy value) never overwrites the fresh one: with
    target ['text'] and an empty kept image prompt, and with target
    ['image_prompt'] and an empty kept text, the merge returns the
    fresh generation unchanged. *)
Theorem merge_ignores_empty_kept (fresh : gmap string pyval) (kept other : pyval) :
  truthy kept = false →
  merge_content "text" other kept fresh = fresh
  ∧ merge_content "image_prompt" kept other fresh = fresh.
Proof.
  intros Hk. unfold merge_content. rewrite Hk. split.
  - rewrite andb_false_r.
    rewrite (bool_decide_eq_false_2 ("text" = "image_prompt")) by discriminate.
    reflexivity.
  - rewrite (bool_decide_eq_false_2 ("image_prompt" = "text")) by discriminate.
    rewrite andb_false_r. reflexivity.
Qed.

Lemma merge_ignores_empty_kept_witness :
  truthy (PStr "") = false
  ∧ merge_content "text" (PStr "approved") (PStr "")
      {["image_prompt" := PStr "fresh prompt"]}
    = {["image_prompt" := PStr "fresh prompt"]}
  ∧ merge_content "image_prompt" (PStr "") (PStr "approved")
      {["image_prompt" := PStr "fresh prompt"]}
    = {["image_prompt" := PStr "fresh prompt"]}.
Proof.
  split; [reflexivity|].
  apply (merge_ignores_empty_kept {["image_prompt" := PStr "fresh prompt"]}
           (PStr "") (PStr "approved")).
  reflexivity.
Defined.

(** The other direction, for contrast: a non-empty kept image prompt
    does replace the fresh one. *)
Lemma merge_text_overwrites_prompt (fresh : gmap string pyval) (kt kp : pyval) :
  truthy kp = true →
  merge_content "text" kt kp fresh !! "image_prompt" = Some kp.
Proof.
  intros Hk. unfold merge_content. rewrite Hk.
  rewrite bool_decide_eq_true_2 by reflexivity. simpl.
  apply lookup_insert_eq.
Qed.

Lemma merge_prompt_overwrites_text (fresh : gmap string pyval) (kt kp : pyval) :
  truthy kt = true →
  merge_content "image_prompt" kt kp fresh !! "post_text" = Some kt.
Proof.
  intros Hk. unfold merge_content. rewrite Hk.
  rewrite bool_decide_eq_false_2 by discriminate.
  rewrite bool_decide_eq_true_2 by reflexivity. simpl.
  apply lookup_insert_eq.
Qed.

(** C8, as the specification states it, fails: a reply that carries
    only [hashtags] keeps them (they are not reset to the empty list),
    and the placeholder filled in for [post_text] is [None]. *)
Lemma fill_defaults_nonnull_placeholders_fails :
  ¬ (∀ d : gmap string pyval,
       forallb (has_key d) content_keys = false →
       fill_defaults d !! "hashtags" = Some (PList [])
       ∧ ∃ t p, fill_defaults d !! "post_text" = Some t ∧ t ≠ PNone
                ∧ fill_defaults d !! "image_prompt" = Some p ∧ p ≠ PNone).
Proof.
  intros H.
  destruct (H {["hashtags" := PList [PStr "#news"]]}) as [Hh _].
  { vm_compute. reflexivity. }
  vm_compute in Hh. discriminate Hh.
Qed.

(** C8, amended.  After the default-filling step all three keys are
    present; a key the reply carried keeps its value, a missing
    [hashtags] becomes the empty list, a missing [post_text] or
    [image_prompt] becomes [None], and no other key changes. *)
Theorem fill_defaults_all_keys (d : gmap string pyval) :
  fill_defaults d !! "post_text" = Some (default PNone (d !! "post_text"))
  ∧ fill_defaults d !! "image_prompt"
    = Some (default PNone (d !! "image_prompt"))
  ∧ fill_defaults d !! "hashtags"
    = Some (default (PList []) (d !! "hashtags"))
  ∧ ∀ k, k ∉ content_keys → fill_defaults d !! k = d !! k.
Proof.
  unfold fill_defaults.
  destruct (forallb (has_key d) content_keys) eqn:E.
  - simpl in E. apply andb_prop in E as [E1 E]. apply andb_prop in E as [E2 E].
    apply andb_prop in E as [E3 _].
    apply has_key_true in E1, E2, E3.
    repeat split; try congruence.
    rewrite E3 at 1. f_equal. destruct (d !! "hashtags"); done.
  - repeat split.
    + rewrite !setdefault_lookup_ne by discriminate.
      apply setdefault_lookup_eq.
    + rewrite setdefault_lookup_ne by discriminate.
      rewrite setdefault_lookup_eq.
      by rewrite setdefault_lookup_ne by discriminate.
    + rewrite setdefault_lookup_eq.
      by rewrite !setdefault_lookup_ne by discriminate.
    + intros k Hk. unfold content_keys in Hk.
      rewrite !setdefault_lookup_ne; [done|..];
        intros <-; apply Hk; set_solver.
Qed.

End ContentMerger.

(** * Properties of the regeneration planner ([run], lines 460-505) *)

Module RegenerationPlanner.
Import Workflow.

Lemma truthy_dict_lookup (d : gmap string pyval) k v :
  d !! k = Some v → truthy (PDict d) = true.
Proof.
  intros H. simpl. apply negb_true_iff, bool_decide_eq_false_2.
  intros Hs. apply map_size_empty_iff in Hs. subst d.
  by rewrite lookup_empty in H.
Qed.

Lemma falsy_dict_lookup (d : gmap string pyval) k :
  truthy (PDict d) = false → d !! k = None.
Proof.
  simpl. intros H. apply negb_false_iff, bool_decide_eq_true_1 in H.
  apply map_size_empty_iff in H. subst d. apply lookup_empty.
Qed.

(** The value kept from the previous content is the stored one, also
    when the content dictionary is empty. *)
Lemma kept_value (c : gmap string pyval) (a : bool) k :
  (if truthy (PDict c) && a then Ok (default PNone (c !! k)) else Ok PNone)
  = Ok (if a then default PNone (c !! k) else PNone).
Proof.
  destruct a; rewrite ?andb_false_r, ?andb_true_r; [|done].
  destruct (truthy (PDict c)) eqn:E; [done|].
  by rewrite (falsy_dict_lookup _ k E).
Qed.

(** What the planner computes from a rejected verdict whose component
    entries, where present, are dictionaries. *)
Lemma regeneration_plan_rejected (attempt : Z) (r fb t p c : gmap string pyval) :
  (0 < attempt)%Z →
  r !! "status" = Some (PStr "rejected") →
  default (PDict ∅) (r !! "feedback") = PDict fb →
  default (PDict ∅) (fb !! "text") = PDict t →
  default (PDict ∅) (fb !! "image_prompt") = PDict p →
  let ta := truthy (default (PBool false) (t !! "approved")) in
  let pa := truthy (default (PBool false) (p !! "approved")) in
  let tfb := default PNone (t !! "feedback") in
  let pfb := default PNone (p !! "feedback") in
  regeneration_plan attempt (PDict r) (PDict c)
  = Ok (if ta && negb pa then
          RegenPlan "image_prompt" (default PNone (c !! "post_text")) PNone
            PNone pfb
        else if negb ta && pa then
          RegenPlan "text" PNone (default PNone (c !! "image_prompt"))
            tfb PNone
        else
          RegenPlan "all" PNone PNone
            (if negb ta then tfb else PNone)
            (if negb pa then pfb else PNone)).
Proof.
  intros Hlt Hst Hfb Ht Hp ta pa tfb pfb.
  unfold regeneration_plan.
  apply Z.ltb_lt in Hlt. rewrite Hlt, (truthy_dict_lookup _ _ _ Hst).
  cbn [andb py_get mbind res_bind]. rewrite Hst, Hfb.
  cbn [default from_option id str_eq]. rewrite bool_decide_eq_true_2 by done.
  cbn [py_get mbind res_bind]. rewrite Ht, Hp.
  cbn [py_get mbind res_bind]. fold ta pa tfb pfb.
  rewrite !kept_value. cbn [mbind res_bind].
  destruct ta, pa; reflexivity.
Qed.

(** C1.  After a rejection that approved exactly one component, the
    plan targets the rejected component only, keeps the approved
    component's value of the previous content, and forwards the
    feedback of the rejected component and none for the approved one. *)
Theorem partial_rejection_plan (attempt : Z) (r fb t p c : gmap string pyval) :
  (0 < attempt)%Z →
  r !! "status" = Some (PStr "rejected") →
  r !! "feedback" = Some (PDict fb) →
  fb !! "text" = Some (PDict t) →
  fb !! "image_prompt" = Some (PDict p) →
  let approved (v : gmap string pyval) :=
    truthy (default (PBool false) (v !! "approved")) in
  (approved t = true → approved p = false →
   regeneration_plan attempt (PDict r) (PDict c)
   = Ok (RegenPlan "image_prompt" (default PNone (c !! "post_text")) PNone
           PNone (default PNone (p !! "feedback"))))
  ∧ (approved t = false → approved p = true →
     regeneration_plan attempt (PDict r) (PDict c)
     = Ok (RegenPlan "text" PNone (default PNone (c !! "image_prompt"))
             (default PNone (t !! "feedback")) PNone)).
Proof.
  intros Hlt Hst Hfb Ht Hp approved.
  assert (H := regeneration_plan_rejected attempt r fb t p c Hlt Hst).
  rewrite Hfb, Ht, Hp in H. specialize (H eq_refl eq_refl eq_refl).
  cbv zeta in H. fold (approved t) (approved p) in H.
  split; intros Ha Hb; rewrite H, Ha, Hb; reflexivity.
Qed.

Lemma partial_rejection_plan_witness :
  regeneration_plan 1 (PDict (Examples.rejected_with Examples.prompt_rejected))
    (PDict Examples.draft)
  = Ok (RegenPlan "image_prompt" (PStr "draft") PNone PNone
          (PStr "too generic")).
Proof.
  refine (proj1 (partial_rejection_plan 1
            (Examples.rejected_with Examples.prompt_rejected)
            Examples.prompt_rejected
            (<["approved" := PBool true]> {["feedback" := PStr "Human approved."]})
            (<["approved" := PBool false]> {["feedback" := PStr "too generic"]})
            Examples.draft _ _ _ _ _) _ _);
    first [lia | vm_compute; reflexivity].
Defined.

(** C3, as the specification states it, fails: when the text verdict
    lacks its ['approved'] flag and the image prompt is approved, the
    plan targets ['text'] (not ['all']) and carries the image prompt
    over. *)
Lemma malformed_verdict_targets_all_fails :
  ¬ (∀ (attempt : Z) (r fb t p c : gmap string pyval) (plan : regen_plan),
       (0 < attempt)%Z →
       r !! "status" = Some (PStr "rejected") →
       default (PDict ∅) (r !! "feedback") = PDict fb →
       default (PDict ∅) (fb !! "text") = PDict t →
       default (PDict ∅) (fb !! "image_prompt") = PDict p →
       t !! "approved" = None ∨ p !! "approved" = None →
       regeneration_plan attempt (PDict r) (PDict c) = Ok plan →
       regenerate_component plan = "all"
       ∧ approved_text_for_regen plan = PNone
       ∧ approved_image_prompt_for_regen plan = PNone).
Proof.
  intros H.
  destruct (H 1%Z (Examples.rejected_with Examples.text_flag_missing)
              Examples.text_flag_missing
              {["feedback" := PStr "too long"]}
              (<["approved" := PBool true]>
                 {["feedback" := PStr "Human approved."]})
              Examples.draft
              (RegenPlan "text" PNone (PStr "a cat") (PStr "too long") PNone))
    as [Hall _];
    try (vm_compute; reflexivity); try lia.
  - left. vm_compute. reflexivity.
  - discriminate Hall.
Qed.

(** C3, amended.  A component verdict that is missing, or lacks its
    ['approved'] flag, counts as rejected: the component is never
    carried over and is always regenerated.  The plan targets ['all']
    and carries nothing over when the other component is not approved
    either; when the other component is approved, the plan targets the
    component with the missing verdict alone and keeps the approved
    one. *)
Theorem missing_verdict_counts_as_rejected (attempt : Z) (r fb t p c : gmap string pyval) :
  (0 < attempt)%Z →
  r !! "status" = Some (PStr "rejected") →
  default (PDict ∅) (r !! "feedback") = PDict fb →
  default (PDict ∅) (fb !! "text") = PDict t →
  default (PDict ∅) (fb !! "image_prompt") = PDict p →
  let approved (v : gmap string pyval) :=
    truthy (default (PBool false) (v !! "approved")) in
  (t !! "approved" = None →
   regeneration_plan attempt (PDict r) (PDict c)
   = Ok (if approved p
         then RegenPlan "text" PNone (default PNone (c !! "image_prompt"))
                (default PNone (t !! "feedback")) PNone
         else RegenPlan "all" PNone PNone
                (default PNone (t !! "feedback"))
                (default PNone (p !! "feedback"))))
  ∧ (p !! "approved" = None →
     regeneration_plan attempt (PDict r) (PDict c)
     = Ok (if approved t
           then RegenPlan "image_prompt" (default PNone (c !! "post_text"))
                  PNone PNone (default PNone (p !! "feedback"))
           else RegenPlan "all" PNone PNone
                  (default PNone (t !! "feedback"))
                  (default PNone (p !! "feedback")))).
Proof.
  intros Hlt Hst Hfb Ht Hp approved.
  assert (H := regeneration_plan_rejected attempt r fb t p c Hlt Hst Hfb Ht Hp).
  cbv zeta in H. fold (approved t) (approved p) in H.
  split; intros Hmiss; rewrite H.
  - assert (Ha : approved t = false) by (unfold approved; by rewrite Hmiss).
    rewrite Ha. destruct (approved p); reflexivity.
  - assert (Ha : approved p = false) by (unfold approved; by rewrite Hmiss).
    rewrite Ha. destruct (approved t); reflexivity.
Qed.

Lemma missing_verdict_counts_as_rejected_witness :
  regeneration_plan 1 (PDict (Examples.rejected_with (∅ : gmap string pyval)))
    (PDict Examples.draft)
  = Ok (RegenPlan "all" PNone PNone PNone PNone).
Proof.
  refine (proj1 (missing_verdict_counts_as_rejected 1
            (Examples.rejected_with ∅) ∅ ∅ ∅ Examples.draft _ _ _ _ _) _);
    first [lia | vm_compute; reflexivity].
Defined.

End RegenerationPlanner.

(** * Properties of the review gate ([_run_review_step]) *)

Module ReviewGate.
Import Workflow Spec.

(** An event of another kind is not in a list of events. *)
Ltac absent_event H :=
  exfalso;
  repeat (apply elem_of_cons in H as [H|H]; [discriminate H|]);
  by apply elem_of_nil in H.

Section Review.

Variable cfg : config.
Variable self : workflow.
Variable w : world.

(** C7, amended.  When human review of a full post is invoked (and
    the reviewer answers with a dictionary whose feedback is a
    dictionary), the verdict is the human one: status and component
    entries come from the human answer alone, whatever the AI reviews
    said.  A component the human feedback does not cover gets the
    placeholder verdict with feedback ['N/A'], which is approved
    exactly when the human's overall decision is approval. *)
Theorem human_review_supersedes (platform_content : gmap string pyval)
    (platform : string) (attempt : Z) (s s' : state) (r : res pyval)
    (hr hf : gmap string pyval) :
  truthy (PDict platform_content) = true →
  _run_review_step cfg self w (PDict platform_content) platform attempt s
  = (r, s') →
  EvHumanReview "full_post" (PStr platform) ∈ new_events s s' →
  human_post_review (attempt_of w platform attempt) = Ok (PDict hr) →
  default (PDict ∅) (hr !! "feedback") = PDict hf →
  let approved := truthy (default (PBool false) (hr !! "approved")) in
  let dflt := verdict approved "N/A" in
  r = Ok (review_result (if approved then "approved" else "rejected")
            (PDict (<["text" := default dflt (hf !! "text")]>
                      {["image_prompt" := default dflt (hf !! "image_prompt")]}))).
Proof.
  intros Hc Hrun Hev Hh Hf approved dflt. unfold new_events in Hev.
  unfold _run_review_step in Hrun. rewrite Hc in Hrun. cbn [negb] in Hrun.
  unfold review_try_body, ai_component_review in Hrun.
  rewrite Hh in Hrun. unfold_M in Hrun. cbn [py_get] in Hrun.
  rewrite Hf in Hrun. cbn [py_get] in Hrun. fold approved in Hrun.
  repeat match type of Hrun with
    | context [if AI_REVIEW_ENABLED_POST_TEXT cfg then _ else _] =>
        destruct (AI_REVIEW_ENABLED_POST_TEXT cfg)
    | context [if AI_REVIEW_ENABLED_IMAGE_PROMPT cfg then _ else _] =>
        destruct (AI_REVIEW_ENABLED_IMAGE_PROMPT cfg)
    | context [match ai_text_review ?a with _ => _ end] =>
        destruct (ai_text_review a)
    | context [match ai_image_prompt_review ?a with _ => _ end] =>
        destruct (ai_image_prompt_review a)
    | context [match py_get ?a ?k ?d with _ => _ end] =>
        destruct (py_get a k d)
    | context [truthy ?b && _] => destruct (truthy b)
    | context [true && truthy ?b] => destruct (truthy b)
    | context [_ || human_review_required_post self] =>
        destruct (human_review_required_post self)
    end; cbn [andb orb negb] in Hrun.
  all: injection Hrun as Hr Hs; subst r s'.
  all: cbn [log set_log] in Hev.
  all: rewrite <- ?app_assoc in Hev.
  all: first [rewrite drop_app_length in Hev | rewrite drop_all in Hev].
  all: cbn [app] in Hev.
  all: try absent_event Hev.
  all: subst dflt; destruct approved; reflexivity.
Qed.

End Review.

(** An event is in an explicit list of events. *)
Ltac present_event :=
  repeat first [apply list_elem_of_here | apply list_elem_of_further].

Lemma human_review_supersedes_witness :
  (_run_review_step Examples.cfg0 Examples.self0 Examples.w0
     (PDict Examples.draft) "Instagram" 0 (start "")).1
  = Ok (review_result "rejected"
          (PDict (<["text" := verdict false "N/A"]>
                    {["image_prompt" := verdict false "N/A"]}))).
Proof.
  destruct (_run_review_step Examples.cfg0 Examples.self0 Examples.w0
              (PDict Examples.draft) "Instagram" 0 (start ""))
    as [r s'] eqn:Hrun.
  refine (human_review_supersedes Examples.cfg0 Examples.self0 Examples.w0
            Examples.draft "Instagram" 0 (start "") s' r
            (<["approved" := PBool false]>
               {["feedback" :=
                   error_dict "Unhandled content type/format for human review: full_post"]})
            {["error" :=
                PStr "Unhandled content type/format for human review: full_post"]}
            _ Hrun _ _ _);
    try (vm_compute; reflexivity).
  vm_compute in Hrun. injection Hrun as _ <-.
  vm_compute. present_event.
Defined.

(** C7, as the specification states it, fails: when the human rejects
    and the feedback covers no component (the rejection the console
    reviewer returns for input it does not handle), the uncovered
    components come out rejected, not approved. *)
Lemma uncovered_component_approved_fails :
  ¬ (∀ (cfg : config) (self : workflow) (w : world)
       (platform_content hr hf : gmap string pyval) (platform c : string)
       (attempt : Z) (s s' : state) (v : pyval),
       truthy (PDict platform_content) = true →
       _run_review_step cfg self w (PDict platform_content) platform attempt s
       = (Ok v, s') →
       EvHumanReview "full_post" (PStr platform) ∈ new_events s s' →
       human_post_review (attempt_of w platform attempt) = Ok (PDict hr) →
       default (PDict ∅) (hr !! "feedback") = PDict hf →
       c ∈ ["text"; "image_prompt"] →
       hf !! c = None →
       verdict_approves v c = true).
Proof.
  intros H.
  destruct (_run_review_step Examples.cfg0 Examples.self0 Examples.w0
              (PDict Examples.draft) "Instagram" 0 (start ""))
    as [r s'] eqn:Hrun.
  assert (Hr := Hrun). vm_compute in Hr. injection Hr as Hr Hs.
  subst r.
  specialize (H Examples.cfg0 Examples.self0 Examples.w0 Examples.draft
                (<["approved" := PBool false]>
                   {["feedback" :=
                       error_dict "Unhandled content type/format for human review: full_post"]})
                {["error" :=
                    PStr "Unhandled content type/format for human review: full_post"]}
                "Instagram" "text" 0%Z (start "") s' _ eq_refl Hrun).
  assert (Hfalse : true = false); [|discriminate Hfalse].
  rewrite <- H; [vm_compute; reflexivity|..]; try (vm_compute; reflexivity).
  - subst s'. vm_compute. present_event.
  - present_event.
Qed.

End ReviewGate.

(** * Properties of the news gate ([_run_news_step]) *)

Module NewsGate.
Import Workflow Spec.

Section News.

Variable cfg : config.
Variable self : workflow.
Variable w : world.

(** The step always returns its [step_result]. *)
Lemma news_step_returns (used_links : gset string) (s : state) :
  ∃ r s', _run_news_step cfg self w used_links s = (Ok r, s')
          ∧ r = news_step s'.
Proof.
  unfold _run_news_step. unfold_M.
  destruct (news_try_body cfg self w used_links _) as [[[]|msg] s1]; eauto.
Qed.

(** Processing the articles only calls the summarizer: the
    [step_result] is not touched. *)
Lemma summarized_content_news_step (content : string) (s : state) :
  news_step (summarized_content cfg w content s).2 = news_step s.
Proof.
  unfold summarized_content. case_bool_decide; [|done].
  unfold_M. destruct (summarize_article_text w content) as [summary|msg];
    [|done].
  by destruct (_ && _).
Qed.

Lemma process_articles_news_step (articles : list (gmap string string))
    (combined : string) (count : nat) (links : list pyval) (s : state) :
  news_step (process_articles cfg w articles combined count links s).2
  = news_step s.
Proof.
  revert combined count links s.
  induction articles as [|a l IH]; intros combined count links s; [done|].
  cbn [process_articles]. destruct (_ || _); [apply IH|].
  unfold mbind, M_bind.
  assert (Hs := summarized_content_news_step (default "" (a !! "content")) s).
  destruct (summarized_content cfg w _ s) as [[text|msg] s1]; cbn in Hs |- *.
  - rewrite IH. exact Hs.
  - exact Hs.
Qed.


End News.

(** The approved path, for contrast: of a usable article and a
    placeholder fetched with AI review switched off, the step folds
    the usable one into the summary and returns its link alone. *)
Lemma approved_news_links_example :
  ∃ r s',
    _run_news_step (Config false true true 1500) Examples.self0 Examples.w1
      ∅ (start "")
    = (Ok r, s')
    ∧ status r = "approved"
    ∧ fetched_articles r = [PStr "https://news.example/checkout"].
Proof. eexists _, _. split; [vm_compute; reflexivity|]. by split. Qed.

(** C2 at the failing input.  The fetcher finds one article whose
    body is an error placeholder: the step skips it, returns with
    status ['rejected'], and its [fetched_articles] still holds the
    fetched article. *)
Theorem all_skipped_keeps_fetched_articles :
  ∃ r s',
    _run_news_step Examples.cfg0 Examples.self0 Examples.w0 ∅ (start "")
    = (Ok r, s')
    ∧ status r = "rejected"
    ∧ fetched_articles r = [article_val Examples.placeholder_article]
    ∧ fetched_articles r ≠ [].
Proof.
  eexists _, _. split; [vm_compute; reflexivity|].
  repeat split. discriminate.
Qed.

End NewsGate.

(** * Invariants of a run *)

Module Invariants.
Import Workflow Spec.

Section Rules.

Variable I : state → Prop.

Lemma preserves_ret {A : Type} (a : A) : preserves I (mret a).
Proof. intros s Hs. exact Hs. Qed.

Lemma preserves_lift {A : Type} (r : res A) : preserves I (lift r).
Proof. intros s Hs. exact Hs. Qed.

Lemma preserves_get : preserves I get_state.
Proof. intros s Hs. exact Hs. Qed.

Lemma preserves_modify (f : state → state) :
  (∀ s, I s → I (f s)) → preserves I (modify f).
Proof. intros Hf s Hs. by apply Hf. Qed.

Lemma preserves_bind {A B : Type} (m : M A) (k : A → M B) :
  preserves I m → (∀ a, preserves I (k a)) → preserves I (m ≫= k).
Proof.
  intros Hm Hk s Hs. specialize (Hm s Hs). unfold mbind, M_bind.
  destruct (m s) as [[a|msg] s1]; [by apply Hk|exact Hm].
Qed.

Lemma preserves_try {A : Type} (body : M A) (handler : string → M A) :
  preserves I body → (∀ e, preserves I (handler e)) →
  preserves I (try_except body handler).
Proof.
  intros Hm Hh s Hs. specialize (Hm s Hs). unfold try_except.
  destruct (body s) as [[a|msg] s1]; [exact Hm|by apply Hh].
Qed.

Lemma preserves_for_each {A : Type} (xs : list A) (body : A → M ctl) :
  (∀ x, x ∈ xs → preserves I (body x)) → preserves I (for_each xs body).
Proof.
  induction xs as [|x xs IH]; intros Hb; [apply preserves_ret|].
  cbn [for_each]. apply preserves_bind.
  - apply Hb, list_elem_of_here.
  - intros [|]; [apply preserves_ret|].
    apply IH. intros y Hy. by apply Hb, list_elem_of_further.
Qed.

Lemma triple_of_preserves {A : Type} (m : M A) :
  preserves I m → triple I m (λ _, I) I.
Proof.
  intros Hm s Hs. specialize (Hm s Hs). by destruct (m s) as [[a|msg] s1].
Qed.

Lemma triple_bind {A B : Type} (P : state → Prop) (R : A → state → Prop)
    (Q : B → state → Prop) (E : state → Prop) (m : M A) (k : A → M B) :
  triple P m R E → (∀ a, triple (R a) (k a) Q E) → triple P (m ≫= k) Q E.
Proof.
  intros Hm Hk s Hs. specialize (Hm s Hs). unfold mbind, M_bind.
  destruct (m s) as [[a|msg] s1]; [by apply Hk|exact Hm].
Qed.

Lemma triple_try {A : Type} (P : state → Prop) (Q : A → state → Prop)
    (R E : state → Prop) (body : M A) (handler : string → M A) :
  triple P body Q R → (∀ e, triple R (handler e) Q E) →
  triple P (try_except body handler) Q E.
Proof.
  intros Hm Hh s Hs. specialize (Hm s Hs). unfold try_except.
  destruct (body s) as [[a|msg] s1]; [exact Hm|by apply Hh].
Qed.

Lemma triple_for_each {A : Type} (E : state → Prop) (xs : list A)
    (body : A → M ctl) :
  (∀ x, x ∈ xs → triple I (body x) (λ _, I) E) →
  triple I (for_each xs body) (λ _, I) E.
Proof.
  induction xs as [|x xs IH]; intros Hb; [by intros s Hs|].
  cbn [for_each]. eapply triple_bind.
  - apply Hb, list_elem_of_here.
  - intros [|]; [by intros s Hs|].
    apply IH. intros y Hy. by apply Hb, list_elem_of_further.
Qed.

End Rules.

(** Decomposes a [preserves] goal along the structure of the code. *)
Ltac preserves_step :=
  match goal with
  | |- preserves _ (mret _) => apply preserves_ret
  | |- preserves _ (lift _) => apply preserves_lift
  | |- preserves _ get_state => apply preserves_get
  | |- preserves _ (_ ≫= _) => apply preserves_bind; [|intros ?]
  | |- preserves _ (try_except _ _) => apply preserves_try; [|intros ?]
  | |- preserves _ (for_each _ _) => apply preserves_for_each; intros ? ?
  | |- preserves _ (if ?b then _ else _) => destruct b
  | |- preserves _ (match ?x with _ => _ end) => destruct x
  end.

(** What a call of [save_content] on content that is not empty does:
    it logs the attempted write and returns, or raises before it in
    the state it started from. *)
Lemma save_content_cases (w : world) (platform : string) (c : pyval)
    (image_url : option string) (s : state) :
  truthy c = true →
  save_content w platform c image_url s
  = (Ok tt, set_log (λ l, l ++ [EvSave platform c (write_post w platform c)])%list s)
  ∨ ∃ msg, save_content w platform c image_url s = (Raise msg, s).
Proof.
  intros Hc. unfold save_content. rewrite Hc. cbn [negb]. unfold_M.
  destruct c; try (right; eexists; reflexivity);
    destruct image_url as [url|]; try (by left);
    destruct (truthy (PStr url)); try (by left);
    cbn [py_get];
    try (right; eexists; reflexivity);
    destruct (download_image w platform url);
    first [by left | right; eexists; reflexivity].
Qed.

(** Every invariant that the elementary state changes of the engine
    respect is kept by the news step and by the work on the
    platforms. *)
Section Preservation.

Variable cfg : config.
Variable self : workflow.
Variable w : world.
Variable I : state → Prop.

Hypothesis I_emit : ∀ e s, benign e → I s → I (set_log (λ l, l ++ [e])%list s).
Hypothesis I_news_step : ∀ f s, I s → I (set_news_step f s).
Hypothesis I_final : ∀ p c s, I s → I (set_final p c s).
Hypothesis I_content : ∀ c p s,
  I s → I (set_platform_states (alter (set_content c) p (platform_states s)) s).
Hypothesis I_review_outcome : ∀ r p s,
  I s →
  I (set_platform_states (alter (set_review_outcome r) p (platform_states s)) s).
Hypothesis I_attempts : ∀ a p s,
  (0 ≤ a ≤ max_regen_attempts self)%Z → I s →
  I (set_platform_states (alter (set_attempts (a + 1)) p (platform_states s)) s).
Hypothesis I_saved : ∀ p c written s,
  I s →
  I (set_any_post_saved true
       (set_log (λ l, l ++ [EvSave p c written])%list s)).

Lemma preserves_emit (e : event) : benign e → preserves I (emit e).
Proof. intros He. apply preserves_modify. intros s. by apply I_emit. Qed.

Ltac pres :=
  repeat first
    [ preserves_step
    | apply preserves_emit; exact Logic.I
    | apply preserves_modify; intros ? ?;
      first [ by apply I_news_step | by apply I_final | by apply I_content
            | by apply I_review_outcome ] ].

Lemma preserves_summarized_content (content : string) :
  preserves I (summarized_content cfg w content).
Proof. unfold summarized_content. pres. Qed.

Lemma preserves_process_articles (articles : list (gmap string string))
    (combined : string) (count : nat) (links : list pyval) :
  preserves I (process_articles cfg w articles combined count links).
Proof.
  revert combined count links.
  induction articles as [|a l IH]; intros combined count links;
    cbn [process_articles]; pres; [apply IH|..].
  - apply preserves_summarized_content.
  - apply IH.
Qed.

Lemma preserves_news_step (used_links : gset string) :
  preserves I (_run_news_step cfg self w used_links).
Proof.
  unfold _run_news_step, news_try_body. pres;
    apply preserves_process_articles.
Qed.

Lemma preserves_generation_step (platform : string) (attempt : Z)
    (plan : regen_plan) :
  preserves I (_run_generation_step w platform attempt plan).
Proof. unfold _run_generation_step. pres. Qed.

Lemma preserves_review_step (platform_content : pyval) (platform : string)
    (attempt : Z) :
  preserves I (_run_review_step cfg self w platform_content platform attempt).
Proof.
  unfold _run_review_step, review_try_body, ai_component_review. pres.
Qed.

Lemma preserves_get_platform_state (platform : string) :
  preserves I (get_platform_state platform).
Proof.
  intros s Hs. unfold get_platform_state. by destruct (_ !! _).
Qed.

Lemma preserves_get_final (platform : string) :
  preserves I (get_final platform).
Proof. intros s Hs. unfold get_final. by destruct (_ !! _). Qed.

Lemma preserves_judge_attempt (platform : string) (attempt : Z)
    (current_content : pyval) :
  preserves I (judge_attempt cfg self w platform attempt current_content).
Proof.
  unfold judge_attempt, update_platform_state. pres.
  apply preserves_review_step.
Qed.

Lemma preserves_attempt_body (platform : string) (attempt : Z) :
  (0 ≤ attempt ≤ max_regen_attempts self)%Z →
  preserves I (attempt_body cfg self w platform attempt).
Proof.
  intros Ha. unfold attempt_body, update_platform_state.
  apply preserves_bind.
  { apply preserves_modify. intros s Hs. by apply I_attempts. }
  intros _. apply preserves_bind; [apply preserves_get_platform_state|].
  intros ps. pres;
    first [apply preserves_generation_step | apply preserves_judge_attempt].
Qed.

Lemma preserves_attempt_loop (platform : string) :
  preserves I (attempt_loop cfg self w platform).
Proof.
  unfold attempt_loop. apply preserves_for_each. intros a Ha.
  apply elem_of_seqZ in Ha. apply preserves_attempt_body. lia.
Qed.

Lemma preserves_save_platform (platform : string) :
  preserves I (save_platform w platform).
Proof.
  unfold save_platform.
  apply preserves_bind; [apply preserves_get_final|]. intros c.
  destruct (truthy c) eqn:Hc; [|apply preserves_ret].
  apply preserves_bind; [apply preserves_lift|]. intros image_prompt.
  apply preserves_bind; [pres|]. intros image_url.
  intros s Hs. unfold try_except.
  destruct (save_content_cases w platform c image_url s Hc) as [H|[msg H]];
    unfold mbind at 1, M_bind at 1; rewrite H.
  - apply I_saved, Hs.
  - apply I_final, Hs.
Qed.

Lemma preserves_process_platform (platform : string) :
  preserves I (process_platform cfg self w platform).
Proof.
  unfold process_platform. pres;
    [apply preserves_attempt_loop | apply preserves_save_platform].
Qed.

Lemma preserves_platforms :
  preserves I (for_each platforms (process_platform cfg self w)).
Proof.
  apply preserves_for_each. intros p _. apply preserves_process_platform.
Qed.

End Preservation.

End Invariants.

(** * Properties of the platform pipeline (the attempt loop of [run]) *)

Module PlatformPipeline.
Import Workflow Spec Invariants.

Section Pipeline.

Variable cfg : config.
Variable self : workflow.
Variable w : world.

Lemma lookup_alter_bounded (bound : Z) (f : platform_state → platform_state)
    (p : string) (s : state) :
  (∀ ps, (attempts ps ≤ bound)%Z → (attempts (f ps) ≤ bound)%Z) →
  attempts_bounded bound s →
  attempts_bounded bound
    (set_platform_states (alter f p (platform_states s)) s).
Proof.
  intros Hf Hs q ps. cbn. rewrite lookup_alter.
  case_decide as Hq; [subst q|apply Hs].
  destruct (platform_states s !! p) as [ps0|] eqn:E; cbn; [|done].
  intros [= <-]. apply Hf. by apply (Hs p).
Qed.

Lemma preserves_append (bound : Z) (new_links : list pyval) :
  preserves (attempts_bounded bound) (append_used_article_links w new_links).
Proof.
  unfold append_used_article_links.
  repeat first [preserves_step | apply preserves_modify; by intros s Hs].
Qed.

(** The whole run keeps the attempt counts within the bound. *)
Lemma run_preserves_attempts_bounded :
  (0 ≤ max_regen_attempts self)%Z →
  preserves (attempts_bounded (max_regen_attempts self + 1))
    (run cfg self w).
Proof.
  intros Hmax.
  set (I := attempts_bounded (max_regen_attempts self + 1)).
  assert (Hplat : preserves I (for_each platforms (process_platform cfg self w))).
  { apply preserves_platforms; try (by intros).
    - intros c p s. apply lookup_alter_bounded. by intros ps.
    - intros r p s. apply lookup_alter_bounded. by intros ps.
    - intros a p s Ha. apply lookup_alter_bounded. intros ps _. cbn. lia. }
  assert (Hnews : ∀ used, preserves I (_run_news_step cfg self w used)).
  { intros used. apply preserves_news_step; by intros. }
  unfold run, run_try_body, run_except, save_used_links.
  repeat first
    [ apply Hplat | apply Hnews | apply preserves_append
    | preserves_step
    | apply preserves_modify; by intros s Hs ].
  apply preserves_modify. intros s Hs p ps.
  cbn [platform_states set_platform_states].
  intros Hp. apply elem_of_list_to_map_2, list_elem_of_fmap in Hp
    as (q & [= -> ->] & _).
  cbn. lia.
Qed.

(** C4.  With a non-negative [max_regen_attempts], the attempt count
    recorded for any platform at the end of a run (and, the count
    only growing during the loop, at any time) is at most
    [max_regen_attempts + 1]. *)
Theorem attempts_within_bound (file : string) (platform : string)
    (ps : platform_state) :
  (0 ≤ max_regen_attempts self)%Z →
  platform_states (run cfg self w (start file)).2 !! platform = Some ps →
  (attempts ps ≤ max_regen_attempts self + 1)%Z.
Proof.
  intros Hmax Hps.
  refine (run_preserves_attempts_bounded Hmax (start file) _ platform ps Hps).
  intros q qs. cbn. by rewrite lookup_empty.
Qed.

(** The generation step returns [None] or a dictionary. *)
Lemma generation_result_shape (platform : string) (attempt : Z) (plan : regen_plan) :
  generation_result w platform attempt plan = PNone
  ∨ ∃ c, generation_result w platform attempt plan = PDict c.
Proof.
  unfold generation_result, AIService.generate_content.
  destruct (prompt_loaded _); cbn [negb]; [|by left].
  destruct (llm _ plan) as [msg|msg|raw|[]]; cbn [truthy];
    try case_bool_decide; cbn [negb]; eauto.
Qed.

(** The review step leaves [platform_states] alone. *)
Lemma review_step_platform_states (v : pyval) (platform : string) (attempt : Z) (s : state) :
  platform_states (_run_review_step cfg self w v platform attempt s).2
  = platform_states s.
Proof.
  by apply (preserves_review_step cfg self w
              (λ s', platform_states s' = platform_states s)); intros.
Qed.

(** An iteration that returns leaves consistent what it stores. *)
Lemma attempt_body_consistent (platform : string) (attempt : Z) :
  triple stored_states_consistent (attempt_body cfg self w platform attempt)
    (λ _, stored_states_consistent) (λ _, True).
Proof.
  intros s Hs.
  unfold attempt_body, _run_generation_step, judge_attempt,
    update_platform_state, get_platform_state.
  unfold_M. cbn [platform_states set_platform_states set_log].
  rewrite lookup_alter_eq.
  destruct (platform_states s !! platform) as [ps|] eqn:Hps;
    cbn [fmap option_fmap option_map]; [|done].
  destruct (regeneration_plan _ _ _) as [plan|msg]; [|done].
  set (v := generation_result w platform attempt plan).
  assert (Hfin : ∀ (o : pyval) (s' : state),
    platform_states s'
    = alter (set_review_outcome o) platform
        (alter (set_content v) platform
           (alter (set_attempts (attempt + 1)) platform (platform_states s))) →
    content_matches_verdict
      (set_review_outcome o (set_content v (set_attempts (attempt + 1) ps))) →
    stored_states_consistent s').
  { intros o s' Hs' Hc q qs. rewrite Hs'.
    destruct (decide (platform = q)) as [<-|Hne].
    - rewrite !lookup_alter_eq, Hps. by intros [= <-].
    - rewrite !lookup_alter_ne by done. apply Hs. }
  destruct (truthy v) eqn:Hv; cbn [negb].
  - match goal with
    | |- context [_run_review_step cfg self w v platform attempt ?s0] =>
        pose proof (review_step_platform_states v platform attempt s0) as Hfr;
        destruct (_run_review_step cfg self w v platform attempt s0)
          as [[outcome|msg] s1]
    end; [|done].
    cbn [snd platform_states set_platform_states set_log] in Hfr.
    assert (Hc : content_matches_verdict
              (set_review_outcome outcome
                 (set_content v (set_attempts (attempt + 1) ps)))).
    { left. destruct (generation_result_shape platform attempt plan)
        as [Hn|[c Hc]]; fold v in Hn || fold v in Hc.
      - rewrite Hn in Hv. discriminate Hv.
      - by exists c. }
    destruct (py_get outcome "status" PNone) as [st|msg]; [|done].
    destruct (str_eq st "approved"); [|destruct (_ <=? _)%Z];
      (eapply Hfin; [|exact Hc]); cbn; by rewrite Hfr.
  - assert (Hc : content_matches_verdict
              (set_review_outcome generation_failed
                 (set_content v (set_attempts (attempt + 1) ps)))).
    { destruct (generation_result_shape platform attempt plan)
        as [Hn|[c Hc]]; fold v in Hn || fold v in Hc.
      - right. cbn. by eauto.
      - left. by exists c. }
    destruct (_ <=? _)%Z; (eapply Hfin; [|exact Hc]); reflexivity.
Qed.
(** So does the attempt loop of a platform, from the initial entries on. *)
Lemma attempt_loop_consistent (platform : string) :
  triple stored_states_consistent (attempt_loop cfg self w platform)
    (λ _, stored_states_consistent) (λ _, True).
Proof.
  unfold attempt_loop. apply triple_for_each. intros a _.
  apply attempt_body_consistent.
Qed.

Lemma initial_states_consistent (s : state) :
  stored_states_consistent
    (set_platform_states
       (list_to_map ((λ p, (p, initial_platform_state)) <$> platforms)) s).
Proof.
  intros p ps. cbn [platform_states set_platform_states].
  intros Hp. apply elem_of_list_to_map_2, list_elem_of_fmap in Hp
    as (q & [= -> ->] & _).
  right. cbn. by eauto.
Qed.

(** Inside the loop: in a consistent state whose stored verdict
    approved exactly one component, the stored content is a
    dictionary, and the plan keeps its entry for the approved
    component. *)
Lemma loop_plan_after_partial_rejection (attempt : Z) (ps : platform_state)
    (r fb t p : gmap string pyval) :
  content_matches_verdict ps →
  (0 < attempt)%Z →
  review_outcome ps = PDict r →
  r !! "status" = Some (PStr "rejected") →
  r !! "feedback" = Some (PDict fb) →
  fb !! "text" = Some (PDict t) →
  fb !! "image_prompt" = Some (PDict p) →
  let approved (v : gmap string pyval) :=
    truthy (default (PBool false) (v !! "approved")) in
  ∃ c, content ps = PDict c
    ∧ (approved t = true → approved p = false →
       regeneration_plan attempt (review_outcome ps) (content ps)
       = Ok (RegenPlan "image_prompt" (default PNone (c !! "post_text"))
               PNone PNone (default PNone (p !! "feedback"))))
    ∧ (approved t = false → approved p = true →
       regeneration_plan attempt (review_outcome ps) (content ps)
       = Ok (RegenPlan "text" PNone (default PNone (c !! "image_prompt"))
               (default PNone (t !! "feedback")) PNone)).
Proof.
  intros Hc Hlt Hr Hst Hfb Ht Hp approved.
  destruct Hc as [[c Hc]|[_ [Hn|Hf]]].
  - exists c. rewrite Hc, Hr. split; [done|].
    assert (H := RegenerationPlanner.regeneration_plan_rejected
                   attempt r fb t p c Hlt Hst).
    rewrite Hfb, Ht, Hp in H. specialize (H eq_refl eq_refl eq_refl).
    cbv zeta in H. fold (approved t) (approved p) in H.
    split; intros Ha Hb; rewrite H, Ha, Hb; reflexivity.
  - rewrite Hr in Hn. discriminate Hn.
  - exfalso. rewrite Hr in Hf. injection Hf as ->.
    assert (fb = {["error" := PStr "Generation failed"]}) as ->.
    { rewrite lookup_insert_ne in Hfb by done.
      rewrite lookup_singleton_eq in Hfb. by injection Hfb. }
    by rewrite lookup_singleton_ne in Ht.
Qed.





End Pipeline.


Lemma attempts_within_bound_witness :
  ∃ ps,
    platform_states (run Examples.cfg0 Examples.self0 Examples.w1 (start "")).2
      !! "Instagram" = Some ps
    ∧ attempts ps = 2%Z
    ∧ (attempts ps ≤ max_regen_attempts Examples.self0 + 1)%Z.
Proof.
  eexists. split; [vm_compute; reflexivity|]. split; [reflexivity|].
  apply (attempts_within_bound Examples.cfg0 Examples.self0 Examples.w1 ""
           "Instagram").
  - cbn. lia.
  - vm_compute. reflexivity.
Defined.

End PlatformPipeline.

(** * Properties of the whole run: the used-link file *)

Module WorkflowRun.
Import Workflow Spec Invariants.

Lemma count_appends_snoc (l : list event) (e : event) :
  count_appends (l ++ [e])
  = (count_appends l + if is_append e then 1 else 0)%nat.
Proof.
  unfold count_appends. rewrite filter_app, length_app. f_equal.
  destruct e; reflexivity.
Qed.

Lemma save_returned_snoc (l : list event) (e : event) :
  save_returned l → save_returned (l ++ [e]).
Proof.
  intros (p & c & b & H). exists p, c, b. apply elem_of_app. by left.
Qed.

(** Whether some post was written can be read off the log. *)
Lemma persisted_existsb (l : list event) :
  persisted l ↔ existsb is_written l = true.
Proof.
  rewrite existsb_exists. split.
  - intros (p & c & H). exists (EvSave p c true).
    split; [by apply list_elem_of_In|reflexivity].
  - intros (e & Hin & He). destruct e as [| | | | | | |p c [|]|]; try discriminate.
    exists p, c. by apply list_elem_of_In.
Qed.

Section Run.

Variable cfg : config.
Variable self : workflow.
Variable w : world.
Variable file : string.

Lemma pending_emit (e : event) (s : state) :
  benign e → links_pending file s →
  links_pending file (set_log (λ l, l ++ [e])%list s).
Proof.
  intros He (Hc & Hl & Hp).
  repeat split; cbn [log ledger any_post_saved set_log].
  - rewrite count_appends_snoc, Hc. destruct e; try done.
  - exact Hl.
  - intros Hs. by apply save_returned_snoc, Hp.
Qed.

Lemma pending_saved (p : string) (c : pyval) (written : bool) (s : state) :
  links_pending file s →
  links_pending file
    (set_any_post_saved true
       (set_log (λ l, l ++ [EvSave p c written])%list s)).
Proof.
  intros (Hc & Hl & Hp).
  repeat split; cbn [log ledger any_post_saved set_log set_any_post_saved].
  - by rewrite count_appends_snoc, Hc.
  - exact Hl.
  - intros _. exists p, c, written. apply elem_of_app. right.
    apply list_elem_of_here.
Qed.

Lemma pending_platforms :
  preserves (links_pending file)
    (for_each platforms (process_platform cfg self w)).
Proof.
  apply preserves_platforms;
    first [exact pending_emit | exact pending_saved | by intros].
Qed.

Lemma pending_news (used_links : gset string) :
  preserves (links_pending file) (_run_news_step cfg self w used_links).
Proof.
  apply preserves_news_step; first [exact pending_emit | by intros].
Qed.

Lemma pending_accounted (s : state) :
  links_pending file s → links_accounted file s.
Proof.
  intros (Hc & Hl & Hp). unfold links_accounted. rewrite Hc.
  split; [lia|split]; [lia|done].
Qed.

(** The call of the storage: it never raises, and made from a state
    in which [any_post_saved] is set it is the one accounted call. *)
Lemma append_accounted (new_links : list pyval) (s : state) :
  links_pending file s → any_post_saved s = true →
  ∃ s', append_used_article_links w new_links s = (Ok tt, s')
        ∧ links_accounted file s'.
Proof.
  intros (Hc & Hl & Hp) Hsaved. specialize (Hp Hsaved).
  unfold append_used_article_links. unfold_M.
  assert (Hacc : ∀ s1, log s1 = (log s ++ [EvAppend new_links])%list →
                       links_accounted file s1).
  { intros s1 Hlog. unfold links_accounted. rewrite Hlog.
    rewrite count_appends_snoc, Hc. cbn [is_append Nat.add].
    split; [lia|split]; [intros _; by apply save_returned_snoc|].
    intros Hn. exfalso. by apply Hn, save_returned_snoc. }
  destruct (negb (truthy (PList new_links)));
    [|destruct (ledger_writable w)];
    eexists; (split; [reflexivity|]); by apply Hacc.
Qed.

Lemma save_used_links_accounted :
  triple (links_pending file) (save_used_links w)
    (λ _, links_accounted file) (links_pending file).
Proof.
  intros s Hs. unfold save_used_links. unfold_M.
  destruct (truthy (PList (links_from_approved_news s))
            && any_post_saved s) eqn:E.
  - apply andb_prop in E as [_ E].
    destruct (append_accounted (links_from_approved_news s) s Hs E)
      as (s' & -> & Hacc). exact Hacc.
  - by apply pending_accounted.
Qed.

Lemma run_except_accounted (e : string) :
  triple (links_pending file) (run_except w e)
    (λ _, links_accounted file) (links_accounted file).
Proof.
  intros s Hs. unfold run_except. unfold_M.
  destruct (truthy (PList (links_from_approved_news s))
            && any_post_saved s) eqn:E.
  - apply andb_prop in E as [_ E].
    destruct (append_accounted (links_from_approved_news s) s Hs E)
      as (s' & -> & Hacc). exact Hacc.
  - by apply pending_accounted.
Qed.

Lemma run_try_body_accounted :
  triple (links_pending file) (run_try_body cfg self w)
    (λ _, links_accounted file) (links_pending file).
Proof.
  unfold run_try_body.
  eapply triple_bind; [apply triple_of_preserves, preserves_get|].
  intros s0. cbv beta.
  eapply triple_bind; [apply triple_of_preserves, pending_news|].
  intros news_result. cbv beta.
  repeat case_bool_decide;
    try (intros s Hs; by apply pending_accounted).
  eapply triple_bind.
  { apply triple_of_preserves, preserves_modify. by intros s Hs. }
  intros ?. cbv beta. eapply triple_bind.
  { apply triple_of_preserves, preserves_modify. by intros s Hs. }
  intros ?. cbv beta. eapply triple_bind.
  { apply triple_of_preserves, pending_platforms. }
  intros ?. apply save_used_links_accounted.
Qed.

(** The body of [run] with its handler, from a state in which the
    links are pending. *)
Lemma run_body_accounted :
  triple (links_pending file)
    (try_except (run_try_body cfg self w) (run_except w))
    (λ _, links_accounted file) (links_accounted file).
Proof.
  eapply triple_try; [apply run_try_body_accounted|].
  apply run_except_accounted.
Qed.

(** A run whose news step ends rejected stops there: nothing is
    appended and the used-link file stays as it was. *)
Lemma rejected_news_commits_nothing (r : news_result) (s1 : state) :
  _run_news_step cfg self w (load_used_article_links w file)
    (init_locals (start file)) = (Ok r, s1) →
  status r = "rejected" →
  run cfg self w (start file) = (Ok tt, s1)
  ∧ count_appends (log s1) = 0
  ∧ ledger s1 = file.
Proof.
  intros Hnews Hst. split.
  - change (run cfg self w (start file))
      with (try_except (run_try_body cfg self w) (run_except w)
              (init_locals (start file))).
    unfold try_except, run_try_body.
    unfold mbind at 1, M_bind at 1, get_state.
    unfold mbind at 1, M_bind at 1.
    change (ledger (init_locals (start file))) with file.
    rewrite Hnews. by rewrite bool_decide_eq_true_2.
  - assert (H := pending_news (load_used_article_links w file)
                   (init_locals (start file))).
    rewrite Hnews in H. destruct H as (Hc & Hl & _); [|done].
    repeat split; done.
Qed.

End Run.

(** A run that does commit: with one usable article and both
    platforms approved on their second attempt, the link of that
    article is appended, once. *)
Lemma committing_run_example :
  let s' := (run Examples.cfg0 Examples.self0 Examples.w1 (start "")).2 in
  count_appends (log s') = 1
  ∧ persisted (log s')
  ∧ ledger s' = "https://news.example/checkout" ++ nl.
Proof.
  cbv zeta. split; [vm_compute; reflexivity|].
  split; [apply persisted_existsb; vm_compute; reflexivity|].
  vm_compute. reflexivity.
Qed.

(** C9.  The claim fails where the storage cannot write the file of a
    post: [save_content] catches that failure itself (lines 74-81) and
    returns, so [run] sets [any_post_saved] (line 583) all the same.
    In the run of [Examples.w_unwritten], in which both posts are
    approved and neither file gets written, no platform is persisted,
    and yet [append_used_article_links] is called and the link of the
    article is committed to the used-link file. *)
Theorem unwritten_posts_still_commit_links :
  let s' := (run Examples.cfg0 Examples.self0 Examples.w_unwritten
               (start "")).2 in
  ¬ persisted (log s')
  ∧ count_appends (log s') = 1
  ∧ ledger s' = "https://news.example/checkout" ++ nl.
Proof.
  cbv zeta. split.
  - rewrite persisted_existsb. vm_compute. discriminate.
  - split; vm_compute; reflexivity.
Qed.

End WorkflowRun.

(** * Further properties *)

(** ** The regeneration planner and the generated content *)

Module PlannerMore.
Import AIService Workflow Spec Invariants.
Import RegenerationPlanner.

(** X1.  Whatever the stored verdict and content are, a plan the
    planner computes targets ['all'], ['text'] or ['image_prompt'],
    and never carries over the component it regenerates: a plan for
    ['text'] keeps no text and forwards no image-prompt feedback, a
    plan for ['image_prompt'] keeps no image prompt and forwards no
    text feedback, and a plan for ['all'] keeps nothing. *)
Theorem plan_never_keeps_its_target (attempt : Z) (review previous : pyval)
    (plan : regen_plan) :
  regeneration_plan attempt review previous = Ok plan →
  regenerate_component plan ∈ ["all"; "text"; "image_prompt"]
  ∧ (regenerate_component plan = "text" →
     approved_text_for_regen plan = PNone
     ∧ image_prompt_feedback_for_regen plan = PNone)
  ∧ (regenerate_component plan = "image_prompt" →
     approved_image_prompt_for_regen plan = PNone
     ∧ text_feedback_for_regen plan = PNone)
  ∧ (regenerate_component plan = "all" →
     approved_text_for_regen plan = PNone
     ∧ approved_image_prompt_for_regen plan = PNone).
Proof.
  unfold regeneration_plan, initial_plan.
  destruct (_ && _); [|intros [= <-]; cbn; set_solver].
  destruct (py_get review "status" PNone) as [st|]; [|done]. cbn [mbind res_bind].
  destruct (str_eq st "rejected"); [|intros [= <-]; cbn; set_solver].
  destruct (py_get review "feedback" (PDict ∅)) as [fb|]; [|done].
  cbn [mbind res_bind].
  destruct (py_get fb "text" (PDict ∅)) as [t|]; [|done]. cbn [mbind res_bind].
  destruct (py_get t "approved" (PBool false)) as [ta|]; [|done].
  cbn [mbind res_bind].
  destruct (py_get fb "image_prompt" (PDict ∅)) as [p|]; [|done].
  cbn [mbind res_bind].
  destruct (py_get p "approved" (PBool false)) as [pa|]; [|done].
  cbn [mbind res_bind].
  destruct (py_get t "feedback" PNone) as [tfb|]; [|done]. cbn [mbind res_bind].
  destruct (py_get p "feedback" PNone) as [pfb|]; [|done]. cbn [mbind res_bind].
  destruct (truthy ta) eqn:Ha, (truthy pa) eqn:Hp;
    rewrite ?andb_false_r, ?andb_true_r; cbn [andb negb].
  all: repeat match goal with
       | |- context [if truthy ?c then _ else _] => destruct (truthy c)
       | |- context [py_get ?c ?k ?d] => destruct (py_get c k d)
       end; cbn [mbind res_bind]; try done.
  all: intros [= <-]; cbn; repeat split; try done; try set_solver.
Qed.

Lemma plan_never_keeps_its_target_witness :
  let plan :=
    RegenPlan "image_prompt" (PStr "draft") PNone PNone (PStr "too generic") in
  regenerate_component plan ∈ ["all"; "text"; "image_prompt"]
  ∧ (regenerate_component plan = "text" →
     approved_text_for_regen plan = PNone
     ∧ image_prompt_feedback_for_regen plan = PNone)
  ∧ (regenerate_component plan = "image_prompt" →
     approved_image_prompt_for_regen plan = PNone
     ∧ text_feedback_for_regen plan = PNone)
  ∧ (regenerate_component plan = "all" →
     approved_text_for_regen plan = PNone
     ∧ approved_image_prompt_for_regen plan = PNone).
Proof.
  apply (plan_never_keeps_its_target 1
           (PDict (Examples.rejected_with Examples.prompt_rejected))
           (PDict Examples.draft)).
  vm_compute. reflexivity.
Defined.

(** X2.  After a rejection in which both components are rejected, the
    plan regenerates everything, keeps nothing and forwards both
    feedbacks; after a rejection whose component entries both read as
    approved, the plan is the initial one: everything is regenerated
    and no feedback is forwarded. *)
Theorem full_regeneration_plan (attempt : Z) (r fb t p c : gmap string pyval) :
  (0 < attempt)%Z →
  r !! "status" = Some (PStr "rejected") →
  default (PDict ∅) (r !! "feedback") = PDict fb →
  default (PDict ∅) (fb !! "text") = PDict t →
  default (PDict ∅) (fb !! "image_prompt") = PDict p →
  let approved (v : gmap string pyval) :=
    truthy (default (PBool false) (v !! "approved")) in
  (approved t = false → approved p = false →
   regeneration_plan attempt (PDict r) (PDict c)
   = Ok (RegenPlan "all" PNone PNone (default PNone (t !! "feedback"))
           (default PNone (p !! "feedback"))))
  ∧ (approved t = true → approved p = true →
     regeneration_plan attempt (PDict r) (PDict c) = Ok initial_plan).
Proof.
  intros Hlt Hst Hfb Ht Hp approved.
  assert (H := regeneration_plan_rejected attempt r fb t p c Hlt Hst Hfb Ht Hp).
  cbv zeta in H. fold (approved t) (approved p) in H.
  split; intros Ha Hb; rewrite H, Ha, Hb; reflexivity.
Qed.

Lemma full_regeneration_plan_witness :
  regeneration_plan 2
    (PDict (Examples.rejected_with
              (<["text" := verdict false "too long"]>
                 {["image_prompt" := verdict false "too generic"]})))
    (PDict Examples.draft)
  = Ok (RegenPlan "all" PNone PNone (PStr "too long") (PStr "too generic")).
Proof.
  refine (proj1 (full_regeneration_plan 2
            (Examples.rejected_with
               (<["text" := verdict false "too long"]>
                  {["image_prompt" := verdict false "too generic"]}))
            (<["text" := verdict false "too long"]>
               {["image_prompt" := verdict false "too generic"]})
            (<["approved" := PBool false]> {["feedback" := PStr "too long"]})
            (<["approved" := PBool false]> {["feedback" := PStr "too generic"]})
            Examples.draft _ _ _ _ _) _ _);
    first [lia | vm_compute; reflexivity].
Defined.

(** X3.  A rejected verdict whose ['text'] entry (or, the ['text']
    entry being a dictionary or missing, whose ['image_prompt'] entry)
    is present and is no dictionary makes the planner raise the
    [AttributeError] of the failed [.get], whatever the previous
    content is. *)
Theorem malformed_component_entry_raises (attempt : Z)
    (r fb : gmap string pyval) (x c : pyval) :
  (0 < attempt)%Z →
  r !! "status" = Some (PStr "rejected") →
  r !! "feedback" = Some (PDict fb) →
  (∀ d, x ≠ PDict d) →
  (fb !! "text" = Some x ∨
   (∃ t, default (PDict ∅) (fb !! "text") = PDict t)
   ∧ fb !! "image_prompt" = Some x) →
  regeneration_plan attempt (PDict r) c
  = Raise ("'" ++ type_name x ++ "' object has no attribute 'get'").
Proof.
  intros Hlt Hst Hfb Hx Hcase.
  unfold regeneration_plan.
  apply Z.ltb_lt in Hlt. rewrite Hlt, (truthy_dict_lookup _ _ _ Hst).
  cbn [andb py_get mbind res_bind]. rewrite Hst, Hfb.
  cbn [default from_option id str_eq]. rewrite bool_decide_eq_true_2 by done.
  cbn [py_get mbind res_bind].
  destruct Hcase as [Ht|[[t Ht] Hp]].
  - rewrite Ht. cbn [default from_option id].
    destruct x; try reflexivity. by destruct (Hx d).
  - rewrite Ht, Hp. cbn [default from_option id py_get mbind res_bind].
    destruct x; try reflexivity. by destruct (Hx d).
Qed.

Lemma malformed_component_entry_raises_witness :
  regeneration_plan 1
    (PDict (Examples.rejected_with {["text" := PStr "too long"]}))
    (PDict Examples.draft)
  = Raise "'str' object has no attribute 'get'".
Proof.
  refine (malformed_component_entry_raises 1
            (Examples.rejected_with {["text" := PStr "too long"]})
            {["text" := PStr "too long"]} (PStr "too long")
            (PDict Examples.draft) _ _ _ _ _).
  - lia.
  - vm_compute; reflexivity.
  - vm_compute; reflexivity.
  - intros d; discriminate.
  - left. vm_compute; reflexivity.
Defined.

End PlannerMore.

Module GenerationMore.
Import AIService Workflow Spec Invariants.
Import ContentMerger.

Lemma fill_defaults_has_keys (d : gmap string pyval) (k : string) :
  k ∈ content_keys → is_Some (fill_defaults d !! k).
Proof.
  intros Hk. unfold fill_defaults.
  destruct (forallb (has_key d) content_keys) eqn:Hall.
  - rewrite forallb_forall in Hall.
    eapply bool_decide_eq_true_1, Hall. by apply list_elem_of_In.
  - unfold content_keys in Hk.
    repeat (apply elem_of_cons in Hk as [->|Hk]).
    + rewrite !setdefault_lookup_ne by done. rewrite setdefault_lookup_eq. eauto.
    + rewrite setdefault_lookup_ne by done. rewrite setdefault_lookup_eq. eauto.
    + rewrite setdefault_lookup_eq. eauto.
    + by apply elem_of_nil in Hk.
Qed.

Lemma merge_content_keeps_keys rc kt kp (d : gmap string pyval) (k : string) :
  is_Some (d !! k) → is_Some (merge_content rc kt kp d !! k).
Proof.
  intros Hk. unfold merge_content.
  repeat match goal with |- context [if ?b then _ else _] => destruct b end;
    try done.
  all: match goal with
       | |- is_Some (<[?k' := _]> _ !! _) =>
           destruct (decide (k' = k)) as [->|];
           [rewrite lookup_insert_eq; eauto | by rewrite lookup_insert_ne]
       end.
Qed.

Section Generation.
Variable w : world.

(** X4.  Whatever the model replied, the generation step hands on
    either nothing ([None]) or a non-empty content dictionary that
    has all three expected keys, also after a merge with kept
    components. *)
Theorem generated_content_is_complete (platform : string) (attempt : Z)
    (plan : regen_plan) :
  generation_result w platform attempt plan = PNone
  ∨ ∃ c, generation_result w platform attempt plan = PDict c
         ∧ truthy (PDict c) = true
         ∧ ∀ k, k ∈ content_keys → is_Some (c !! k).
Proof.
  unfold generation_result.
  destruct (prompt_loaded _); cbn [negb]; [|by left].
  destruct (llm _ plan) as [msg|msg|raw|v]; cbn [generate_content].
  1-3: left; by destruct (truthy _).
  destruct v; try (left; reflexivity).
  right. eexists. split; [reflexivity|].
  assert (H : ∀ k, k ∈ content_keys →
     is_Some (merge_content (regenerate_component plan)
        (approved_text_for_regen plan) (approved_image_prompt_for_regen plan)
        (fill_defaults d) !! k)).
  { intros k Hk. by apply merge_content_keeps_keys, fill_defaults_has_keys. }
  split; [|exact H].
  destruct (H "post_text") as [v Hv]; [set_solver|].
  by eapply RegenerationPlanner.truthy_dict_lookup.
Qed.

End Generation.

(** X5.  The merge changes at most the entry of the kept component:
    every key other than ['post_text'] and ['image_prompt'] (the
    hashtags among them) is the one of the fresh generation, the post
    text is fresh unless the target is ['image_prompt'], the image
    prompt is fresh unless the target is ['text'], and an entry that
    differs from the fresh one is the kept value, which is non-empty. *)
Theorem merge_touches_only_the_kept_component (rc : string)
    (kept_text kept_prompt : pyval) (fresh : gmap string pyval) :
  let merged := merge_content rc kept_text kept_prompt fresh in
  (∀ k, k ≠ "post_text" → k ≠ "image_prompt" → merged !! k = fresh !! k)
  ∧ (rc ≠ "image_prompt" → merged !! "post_text" = fresh !! "post_text")
  ∧ (rc ≠ "text" → merged !! "image_prompt" = fresh !! "image_prompt")
  ∧ (merged !! "post_text" = fresh !! "post_text"
     ∨ merged !! "post_text" = Some kept_text ∧ truthy kept_text = true)
  ∧ (merged !! "image_prompt" = fresh !! "image_prompt"
     ∨ merged !! "image_prompt" = Some kept_prompt
       ∧ truthy kept_prompt = true).
Proof.
  cbv zeta. unfold merge_content.
  destruct (bool_decide (rc = "text")) eqn:E1;
    destruct (truthy kept_prompt) eqn:E2; cbn [andb].
  2-4: destruct (bool_decide (rc = "image_prompt")) eqn:E3;
    destruct (truthy kept_text) eqn:E4; cbn [andb].
  all: try apply bool_decide_eq_true in E1; try apply bool_decide_eq_true in E3.
  all: repeat split; try intros; try congruence;
    rewrite ?lookup_insert_eq; rewrite ?lookup_insert_ne by congruence;
    eauto.
Qed.

End GenerationMore.

(** ** The review gate: escalation and failures *)

Module ReviewMore.
Import AIService Workflow Spec Invariants.
Import ReviewVocabulary ReviewGate.

Ltac review_cases H :=
  repeat match type of H with
    | context [if AI_REVIEW_ENABLED_POST_TEXT ?cfg then _ else _] =>
        destruct (AI_REVIEW_ENABLED_POST_TEXT cfg)
    | context [if AI_REVIEW_ENABLED_IMAGE_PROMPT ?cfg then _ else _] =>
        destruct (AI_REVIEW_ENABLED_IMAGE_PROMPT cfg)
    | context [match ai_text_review ?a with _ => _ end] =>
        destruct (ai_text_review a)
    | context [match ai_image_prompt_review ?a with _ => _ end] =>
        destruct (ai_image_prompt_review a)
    | context [match human_post_review ?a with _ => _ end] =>
        destruct (human_post_review a)
    | context [match py_get ?a ?k ?d with _ => _ end] =>
        destruct (py_get a k d)
    | context [truthy ?b && _] => destruct (truthy b)
    | context [true && truthy ?b] => destruct (truthy b)
    | context [if truthy ?b then _ else _] => destruct (truthy b)
    | context [_ || human_review_required_post ?self] =>
        destruct (human_review_required_post self)
    end; cbn [andb orb negb] in H.

Lemma review_result_inj (st st' : string) (fb fb' : pyval) :
  review_result st fb = review_result st' fb' → st = st' ∧ fb = fb'.
Proof.
  intros H.
  assert (Hget : ∀ k, py_get (review_result st fb) k PNone
                      = py_get (review_result st' fb') k PNone)
    by (intros k; by rewrite H).
  unfold review_result in Hget. cbn [py_get] in Hget. split.
  - specialize (Hget "status"). rewrite !lookup_insert_eq in Hget.
    cbn in Hget. congruence.
  - specialize (Hget "feedback"). rewrite !lookup_insert_ne in Hget by done.
    rewrite !lookup_singleton_eq in Hget. cbn in Hget. congruence.
Qed.

Lemma returned_inj {A : Type} (a b : A) (s s' : state) :
  (Ok a, s) = (Ok b, s') → a = b ∧ s = s'.
Proof. intros H. by inversion H. Qed.

Lemma raised_not_returned {A : Type} (e : string) (b : A) (s s' : state) :
  (Raise e, s) = (Ok b, s') → False.
Proof. intros H. inversion H. Qed.

Section Review.

Variable cfg : config.
Variable self : workflow.
Variable w : world.


(** X7.  For non-empty content, the human reviewer is asked exactly
    when the escalation rule says so: both AI sub-reviews came back
    (a disabled one counting as approved), and one of them did not
    approve or the policy requires a human. *)
Theorem human_review_escalation (platform_content : gmap string pyval)
    (platform : string) (attempt : Z) (s : state) :
  truthy (PDict platform_content) = true →
  let s' :=
    (_run_review_step cfg self w (PDict platform_content) platform attempt s).2 in
  EvHumanReview "full_post" (PStr platform) ∈ new_events s s'
  ↔ escalates cfg self (attempt_of w platform attempt) = true.
Proof.
  intros Hc s'. subst s'. unfold new_events, escalates, ai_check.
  destruct (_run_review_step cfg self w (PDict platform_content) platform
              attempt s) as [r s'] eqn:Hrun.
  unfold _run_review_step in Hrun. rewrite Hc in Hrun. cbn [negb] in Hrun.
  unfold review_try_body, ai_component_review in Hrun. unfold_M in Hrun.
  cbn [py_get] in Hrun.
  repeat match type of Hrun with
    | context [if AI_REVIEW_ENABLED_POST_TEXT cfg then _ else _] =>
        destruct (AI_REVIEW_ENABLED_POST_TEXT cfg)
    | context [if AI_REVIEW_ENABLED_IMAGE_PROMPT cfg then _ else _] =>
        destruct (AI_REVIEW_ENABLED_IMAGE_PROMPT cfg)
    | context [match ai_text_review ?a with _ => _ end] =>
        destruct (ai_text_review a) as [?v|?]
    | context [match ai_image_prompt_review ?a with _ => _ end] =>
        destruct (ai_image_prompt_review a) as [?v|?]
    | context [match py_get ?v "approved" ?d with _ => _ end] =>
        destruct (py_get v "approved" d) as [?a|?]
    | context [truthy ?b && _] => destruct (truthy b)
    | context [true && truthy ?b] => destruct (truthy b)
    | context [_ || human_review_required_post self] =>
        destruct (human_review_required_post self)
    end; cbn [andb orb negb] in Hrun |- *.
  all: repeat match type of Hrun with
    | context [match human_post_review ?a with _ => _ end] =>
        destruct (human_post_review a)
    | context [match py_get ?a ?k ?d with _ => _ end] =>
        destruct (py_get a k d)
    | context [if truthy ?b then _ else _] => destruct (truthy b)
    end.
  all: injection Hrun as Hr Hs; subst r s'.
  all: cbn [log set_log snd].
  all: rewrite <- ?app_assoc.
  all: first [rewrite drop_app_length | rewrite drop_all].
  all: cbn [app].
  all: split; [intros Hev|intros Hesc].
  all: try discriminate Hesc; try reflexivity.
  all: try (absent_event Hev).
  all: repeat first [apply list_elem_of_here | apply list_elem_of_further].
Qed.

(** X8.  No post is rejected on the word of the AI reviews alone: when
    the review step rejects non-empty content, either the human
    reviewer was asked, or the feedback is that of an exception caught
    in the step. *)
Theorem ai_alone_never_rejects (platform_content : gmap string pyval)
    (platform : string) (attempt : Z) (s s' : state) (fb : pyval) :
  truthy (PDict platform_content) = true →
  _run_review_step cfg self w (PDict platform_content) platform attempt s
  = (Ok (review_result "rejected" fb), s') →
  EvHumanReview "full_post" (PStr platform) ∈ new_events s s'
  ∨ ∃ e, fb = error_dict ("Critical error in review step: " ++ e).
Proof.
  intros Hc Hrun. unfold new_events.
  unfold _run_review_step in Hrun. rewrite Hc in Hrun. cbn [negb] in Hrun.
  unfold review_try_body, ai_component_review in Hrun. unfold_M in Hrun.
  cbn [py_get] in Hrun.
  review_cases Hrun.
  all: try (by apply raised_not_returned in Hrun).
  all: apply returned_inj in Hrun as [Hr Hs]; subst s'.
  all: apply review_result_inj in Hr as [Hst Hfb]; try discriminate Hst.
  all: try (right; eexists; symmetry; exact Hfb).
  all: left; cbn [log set_log].
  all: rewrite <- ?app_assoc.
  all: first [rewrite drop_app_length | rewrite drop_all].
  all: cbn [app].
  all: repeat first [apply list_elem_of_here | apply list_elem_of_further].
Qed.

(** When the human reviewer is asked, the step returns what
    [human_outcome] makes of the answer. *)
Lemma escalated_review_outcome (platform_content : gmap string pyval)
    (platform : string) (attempt : Z) (s : state) :
  truthy (PDict platform_content) = true →
  escalates cfg self (attempt_of w platform attempt) = true →
  (_run_review_step cfg self w (PDict platform_content) platform attempt s).1
  = Ok (human_outcome (human_post_review (attempt_of w platform attempt))).
Proof.
  intros Hc Hesc. unfold escalates, ai_check in Hesc.
  unfold _run_review_step. rewrite Hc. cbn [negb].
  unfold review_try_body, ai_component_review, human_outcome. unfold_M.
  cbn [py_get].
  repeat match type of Hesc with
    | context [if AI_REVIEW_ENABLED_POST_TEXT cfg then _ else _] =>
        destruct (AI_REVIEW_ENABLED_POST_TEXT cfg)
    | context [if AI_REVIEW_ENABLED_IMAGE_PROMPT cfg then _ else _] =>
        destruct (AI_REVIEW_ENABLED_IMAGE_PROMPT cfg)
    | context [match ai_text_review ?a with _ => _ end] =>
        destruct (ai_text_review a) as [?v|?]
    | context [match ai_image_prompt_review ?a with _ => _ end] =>
        destruct (ai_image_prompt_review a) as [?v|?]
    | context [match py_get ?v "approved" ?d with _ => _ end] =>
        destruct (py_get v "approved" d) as [?a|?]
    | context [truthy ?b && _] => destruct (truthy b)
    | context [true && truthy ?b] => destruct (truthy b)
    | context [_ || human_review_required_post self] =>
        destruct (human_review_required_post self)
    end; cbn [andb orb negb] in Hesc |- *; try discriminate Hesc.
  all: destruct (human_post_review _) as [hr|?]; cbn [mbind res_bind];
    [|reflexivity].
  all: destruct (py_get hr "approved" (PBool false)) as [ha|?];
    cbn [mbind res_bind]; [|reflexivity].
  all: destruct (py_get hr "feedback" (PDict ∅)) as [hf|?];
    cbn [mbind res_bind]; [|reflexivity].
  all: destruct (py_get hf "text" _) as [ht|?];
    cbn [mbind res_bind]; [|reflexivity].
  all: destruct (py_get hf "image_prompt" _) as [hp|?];
    cbn [mbind res_bind]; reflexivity.
Qed.


End Review.

Lemma human_review_escalation_witness :
  EvHumanReview "full_post" (PStr "Instagram")
  ∈ new_events (start "")
      (_run_review_step Examples.cfg0 Examples.self0 Examples.w0
         (PDict Examples.draft) "Instagram" 0 (start "")).2.
Proof.
  apply (human_review_escalation Examples.cfg0 Examples.self0 Examples.w0
           Examples.draft "Instagram" 0 (start "")).
  - vm_compute. reflexivity.
  - vm_compute. reflexivity.
Defined.

Lemma ai_alone_never_rejects_witness :
  let s' :=
    (_run_review_step Examples.cfg0 Examples.self0 Examples.w0
       (PDict Examples.draft) "Instagram" 0 (start "")).2 in
  EvHumanReview "full_post" (PStr "Instagram") ∈ new_events (start "") s'
  ∨ ∃ e,
      PDict (<["text" := verdict false "N/A"]>
               {["image_prompt" := verdict false "N/A"]})
      = error_dict ("Critical error in review step: " ++ e).
Proof.
  assert (Hr : (_run_review_step Examples.cfg0 Examples.self0 Examples.w0
                  (PDict Examples.draft) "Instagram" 0 (start "")).1
               = Ok (review_result "rejected"
                       (PDict (<["text" := verdict false "N/A"]>
                                 {["image_prompt" := verdict false "N/A"]}))))
    by (vm_compute; reflexivity).
  destruct (_run_review_step Examples.cfg0 Examples.self0 Examples.w0
              (PDict Examples.draft) "Instagram" 0 (start ""))
    as [r s'] eqn:Hrun.
  cbn [fst] in Hr. subst r. cbn [snd].
  apply (ai_alone_never_rejects Examples.cfg0 Examples.self0 Examples.w0
           Examples.draft "Instagram" 0 (start "") s' _ eq_refl Hrun).
Defined.


End ReviewMore.

(** ** Invariants by the kind of the events logged *)

Module EventFrames.
Import AIService Workflow Spec Invariants.

(** Invariants that depend on which events a step logs. *)
Section Frame.

Variable cfg : config.
Variable self : workflow.
Variable w : world.
Variable I : state → Prop.
Variable ok : event → Prop.

Hypothesis I_emit : ∀ e s, ok e → I s → I (set_log (λ l, l ++ [e])%list s).
Hypothesis I_news_step : ∀ f s, I s → I (set_news_step f s).
Hypothesis I_final : ∀ p c s, I s → I (set_final p c s).
Hypothesis I_states : ∀ f p s,
  I s → I (set_platform_states (alter f p (platform_states s)) s).
Hypothesis I_saved : ∀ s, I s → I (set_any_post_saved true s).

Lemma frame_emit (e : event) : ok e → preserves I (emit e).
Proof. intros He. apply preserves_modify. intros s. by apply I_emit. Qed.

Ltac frame :=
  repeat first
    [ preserves_step
    | apply frame_emit; solve [auto]
    | apply preserves_modify; intros ? ?;
      first [ by apply I_news_step | by apply I_final | by apply I_states
            | by apply I_saved ] ].

Lemma frame_summarized_content (content : string) :
  (∀ text, ok (EvSummarize text)) →
  preserves I (summarized_content cfg w content).
Proof. intros Hok. unfold summarized_content. frame. Qed.

Lemma frame_process_articles (articles : list (gmap string string))
    (combined : string) (count : nat) (links : list pyval) :
  (∀ text, ok (EvSummarize text)) →
  preserves I (process_articles cfg w articles combined count links).
Proof.
  intros Hok. revert combined count links.
  induction articles as [|a l IH]; intros combined count links;
    cbn [process_articles]; frame; [apply IH|..].
  - by apply frame_summarized_content.
  - apply IH.
Qed.

Lemma frame_news_step (used_links : gset string) :
  ok EvFetch → (∀ text, ok (EvSummarize text)) →
  ok (EvAIReview "news_summary" PNone) →
  ok (EvHumanReview "news_summary" PNone) →
  preserves I (_run_news_step cfg self w used_links).
Proof.
  intros H1 H2 H3 H4. unfold _run_news_step, news_try_body. frame;
    by apply frame_process_articles.
Qed.

Lemma frame_review_step (platform_content : pyval) (platform : string)
    (attempt : Z) :
  ok (EvReview platform attempt) →
  (∀ content_type, ok (EvAIReview content_type (PStr platform))) →
  ok (EvHumanReview "full_post" (PStr platform)) →
  preserves I (_run_review_step cfg self w platform_content platform attempt).
Proof.
  intros H1 H2 H3.
  unfold _run_review_step, review_try_body, ai_component_review. frame.
Qed.

Lemma frame_judge_attempt (platform : string) (attempt : Z)
    (current_content : pyval) :
  ok (EvReview platform attempt) →
  (∀ content_type, ok (EvAIReview content_type (PStr platform))) →
  ok (EvHumanReview "full_post" (PStr platform)) →
  preserves I (judge_attempt cfg self w platform attempt current_content).
Proof.
  intros H1 H2 H3. unfold judge_attempt, update_platform_state. frame.
  by apply frame_review_step.
Qed.

Lemma frame_attempt_body (platform : string) (attempt : Z) :
  (∀ plan, ok (EvGenerate platform attempt plan)) →
  ok (EvReview platform attempt) →
  (∀ content_type, ok (EvAIReview content_type (PStr platform))) →
  ok (EvHumanReview "full_post" (PStr platform)) →
  preserves I (attempt_body cfg self w platform attempt).
Proof.
  intros H0 H1 H2 H3.
  unfold attempt_body, update_platform_state, _run_generation_step.
  apply preserves_bind.
  { apply preserves_modify. intros s Hs. by apply I_states. }
  intros _. apply preserves_bind; [apply preserves_get_platform_state|].
  intros ps. frame. by apply frame_judge_attempt.
Qed.

Lemma frame_save_platform (platform : string) :
  (∀ prompt, ok (EvImage platform prompt)) →
  (∀ saved succeeded, ok (EvSave platform saved succeeded)) →
  preserves I (save_platform w platform).
Proof.
  intros H1 H2. unfold save_platform, save_content.
  apply preserves_bind; [apply preserves_get_final|]. intros c.
  frame; apply preserves_lift.
Qed.

Lemma frame_append (new_links : list pyval) :
  ok (EvAppend new_links) →
  (∀ l s, I s → I (set_ledger l s)) →
  preserves I (append_used_article_links w new_links).
Proof.
  intros H1 H2. unfold append_used_article_links. frame.
  apply preserves_modify. intros s Hs. by apply H2.
Qed.

End Frame.

End EventFrames.

(** ** The news gate: statuses and consumed links *)

Module NewsMore.
Import AIService Workflow Spec Invariants.
Import NewsVocabulary.

Section News.

Variable cfg : config.
Variable self : workflow.
Variable w : world.

Lemma summarized_content_returns (content : string) (s : state) :
  ∃ text s', summarized_content cfg w content s = (Ok text, s').
Proof.
  unfold summarized_content. case_bool_decide; [|by eexists _, _].
  unfold_M. destruct (summarize_article_text w content) as [summary|msg];
    [|by eexists _, _].
  destruct (_ && _); by eexists _, _.
Qed.

Lemma some_article_usable (articles : list (gmap string string)) :
  ¬ Forall (λ a, usable a = false) articles →
  Exists (λ a, usable a = true) articles.
Proof.
  induction articles as [|a l IH]; intros H; [by destruct H|].
  destruct (usable a) eqn:Hu; [by left|].
  right. apply IH. intros Hall. apply H. by constructor.
Qed.

Lemma article_block_nonempty (combined rest : string) :
  combined ++ "ARTICLE " ++ rest ≠ "".
Proof. by destruct combined. Qed.

(** The loop over the fetched articles never raises; it collects the
    consumed links, and its text is empty exactly when it started
    empty and no article was usable. *)
Lemma process_articles_result (articles : list (gmap string string))
    (combined : string) (count : nat) (links : list pyval) (s : state) :
  ∃ combined' s',
    process_articles cfg w articles combined count links s
    = (Ok (combined', (links ++ (PStr <$> consumed_links articles))%list), s')
    ∧ (combined' = "" ↔
       combined = "" ∧ Forall (λ a, usable a = false) articles).
Proof.
  revert combined count links s.
  induction articles as [|a l IH]; intros combined count links s.
  { exists combined, s. cbn. rewrite app_nil_r. split; [done|].
    split; [by intros ->|by intros [-> _]]. }
  cbn [process_articles]. unfold consumed_links.
  destruct (bool_decide (default "" (a !! "content") = "")
            || String.prefix "[" (default "" (a !! "content"))) eqn:Hskip.
  - assert (Hu : usable a = false) by (unfold usable; by rewrite Hskip).
    rewrite filter_cons_False by (by rewrite Hu).
    destruct (IH combined count links s) as (c' & s' & Hrun & Hiff).
    exists c', s'. split; [exact Hrun|]. rewrite Hiff.
    split; intros [-> Hall]; split; try done.
    + by constructor.
    + by inversion Hall.
  - assert (Hu : usable a = true) by (unfold usable; by rewrite Hskip).
    rewrite filter_cons_True by done.
    destruct (summarized_content_returns (default "" (a !! "content")) s)
      as (text & s1 & Hsum).
    unfold mbind at 1, M_bind at 1. rewrite Hsum.
    match goal with
    | |- context [process_articles cfg w l ?c2 ?n ?ls s1] =>
        destruct (IH c2 n ls s1) as (c' & s' & Hrun & Hiff)
    end.
    exists c', s'. split.
    + rewrite Hrun. do 3 f_equal. cbn [omap list_omap]. unfold trackable_link.
      destruct (a !! "link") as [lk|]; [|done].
      destruct (negb (bool_decide (lk = "")) && negb (bool_decide (lk = "#")));
        [|done].
      by rewrite <- app_assoc.
    + split.
      * intros Hc. apply Hiff in Hc as [Hc _]. exfalso.
        revert Hc. apply article_block_nonempty.
      * intros [_ Hall]. inversion Hall; subst. congruence.
Qed.

Ltac news_cases H :=
  repeat match type of H with
    | context [if AI_REVIEW_ENABLED_NEWS ?cfg then _ else _] =>
        destruct (AI_REVIEW_ENABLED_NEWS cfg)
    | context [match ai_news_review ?w with _ => _ end] =>
        destruct (ai_news_review w)
    | context [match human_news_review ?w with _ => _ end] =>
        destruct (human_news_review w)
    | context [match py_get ?a ?k ?d with _ => _ end] =>
        destruct (py_get a k d)
    | context [if negb (truthy ?b) then _ else _] =>
        destruct (truthy b)
    | context [negb (truthy ?b) || _] => destruct (truthy b)
    | context [_ || human_review_required_news ?self] =>
        destruct (human_review_required_news self)
    end; cbn in H.

(** What the news step returns, by what the fetcher returned. *)
Lemma news_step_outcome (used_links : gset string) (s : state) :
  ∃ r s',
    _run_news_step cfg self w used_links s = (Ok r, s')
    ∧ match news_fetcher_func w used_links with
      | Raise e =>
          status r = "rejected" ∧ fetched_articles r = []
          ∧ feedback r = PStr ("Critical error in news step: " ++ e)
      | Ok (FetchFailed msg) =>
          status r = "rejected" ∧ fetched_articles r = []
          ∧ feedback r = PStr ("News fetching failed: " ++ msg)
      | Ok (Articles []) => status r = "no_news" ∧ fetched_articles r = []
      | Ok (Articles l) =>
          status r = "rejected"
          ∨ status r = "approved"
            ∧ fetched_articles r = PStr <$> consumed_links l
            ∧ Exists (λ a, usable a = true) l
            ∧ ∃ summary, news_summary r = PStr summary ∧ summary ≠ ""
      end.
Proof.
  destruct (_run_news_step cfg self w used_links s) as [r0 s'] eqn:Hrun.
  unfold _run_news_step, news_try_body in Hrun. unfold_M in Hrun.
  destruct (news_fetcher_func w used_links) as [[msg|l]|msg] eqn:Hfetch;
    cbn in Hrun.
  - injection Hrun as <- <-. eexists _, _. by split.
  - destruct l as [|a l].
    + injection Hrun as <- <-. eexists _, _. by split.
    + match type of Hrun with
      | context [process_articles cfg w (a :: l) "" 0 [] ?s0] =>
          assert (Hns := NewsGate.process_articles_news_step cfg w
                           (a :: l) "" 0 [] s0);
          destruct (process_articles_result (a :: l) "" 0 [] s0)
            as (combined & s1 & Hpa & Hiff);
          rewrite Hpa in Hrun, Hns
      end; cbn in Hrun, Hns.
      case_bool_decide as Hcomb.
      { injection Hrun as <- <-. eexists _, _. split; [done|]. by left. }
      assert (Hex : Exists (λ a, usable a = true) (a :: l)).
      { apply some_article_usable. intros Hall. by apply Hcomb, Hiff. }
      news_cases Hrun.
      all: injection Hrun as <- <-; eexists _, _; (split; [done|]).
      all: cbn [status fetched_articles news_summary news_step set_news_step
                  set_status set_fetched_articles set_feedback set_news_summary
                  set_log];
        rewrite ?Hns;
        cbn [status fetched_articles news_summary set_status
               set_fetched_articles set_feedback set_news_summary
               initial_news_result];
        first [by left | right].
      all: split; [reflexivity|]; split; [reflexivity|]; split; [exact Hex|].
      all: by exists combined.
  - injection Hrun as <- <-. eexists _, _. by split.
Qed.

(** X10.  When the news step ends approved, the fetcher returned a list
    with at least one usable article, the summary is a non-empty
    string, and [fetched_articles] holds exactly the trackable links
    of the usable articles, in the order fetched. *)
Theorem approved_news_consumes_usable_links (used_links : gset string)
    (s s' : state) (r : news_result) :
  _run_news_step cfg self w used_links s = (Ok r, s') →
  status r = "approved" →
  ∃ l summary,
    news_fetcher_func w used_links = Ok (Articles l)
    ∧ fetched_articles r = PStr <$> consumed_links l
    ∧ Exists (λ a, usable a = true) l
    ∧ news_summary r = PStr summary ∧ summary ≠ "".
Proof.
  intros Hrun Hst.
  destruct (news_step_outcome used_links s) as (r' & s1 & Hrun' & H).
  rewrite Hrun in Hrun'. injection Hrun' as <- <-.
  destruct (news_fetcher_func w used_links) as [[msg|[|a l]]|msg].
  - destruct H as [H _]. rewrite Hst in H. discriminate H.
  - destruct H as [H _]. rewrite Hst in H. discriminate H.
  - destruct H as [H|(_ & Hl & Hex & summary & Hsum & Hne)].
    + rewrite Hst in H. discriminate H.
    + by exists (a :: l), summary.
  - destruct H as [H _]. rewrite Hst in H. discriminate H.
Qed.


End News.

Lemma approved_news_consumes_usable_links_witness :
  ∃ r l summary,
    status r = "approved"
    ∧ news_fetcher_func Examples.w1 ∅ = Ok (Articles l)
    ∧ fetched_articles r = PStr <$> consumed_links l
    ∧ Exists (λ a, usable a = true) l
    ∧ news_summary r = PStr summary ∧ summary ≠ "".
Proof.
  destruct (_run_news_step Examples.cfg0 Examples.self0 Examples.w1 ∅
              (start "")) as [[r|e] s'] eqn:Hrun.
  - assert (Hst : status r = "approved").
    { vm_compute in Hrun. apply ReviewMore.returned_inj in Hrun as [<- _].
      reflexivity. }
    destruct (approved_news_consumes_usable_links Examples.cfg0
                Examples.self0 Examples.w1 ∅ (start "") s' r Hrun Hst)
      as (l & summary & H).
    exists r, l, summary. split; [exact Hst|exact H].
  - vm_compute in Hrun. discriminate Hrun.
Defined.

End NewsMore.

(** ** The run: exceptions, generation calls, unapproved news *)

Module RunMore.
Import AIService Workflow Spec Invariants.
Import NewsVocabulary RunVocabulary RunBounds EventFrames.

Lemma count_generations_snoc (p : string) (l : list event) (e : event) :
  count_generations p (l ++ [e])
  = (count_generations p l + if generates p e then 1 else 0)%nat.
Proof.
  unfold count_generations. rewrite filter_app, length_app. f_equal.
  cbn. destruct (generates p e); reflexivity.
Qed.

Section Rules.

Variable p : string.

Lemma adds_quiet {A : Type} (m : M A) :
  (∀ c, preserves (generations_at_most p c) m) →
  adds_generations p 0 m.
Proof.
  intros H s. rewrite Nat.add_0_r.
  by apply (H (count_generations p (log s)) s), le_n.
Qed.

Lemma adds_ret {A : Type} (a : A) (k : nat) : adds_generations p k (mret a).
Proof. intros s. cbn [snd]. unfold mret, M_ret. cbn [snd]. lia. Qed.

Lemma adds_get (k : nat) : adds_generations p k get_state.
Proof. intros s. unfold get_state. cbn [snd]. lia. Qed.

Lemma adds_modify (f : state → state) (k : nat) :
  (∀ s, log (f s) = log s) → adds_generations p k (modify f).
Proof. intros Hf s. unfold modify. cbn [snd]. rewrite Hf. lia. Qed.

Lemma adds_weaken {A : Type} (k k' : nat) (m : M A) :
  (k ≤ k')%nat → adds_generations p k m → adds_generations p k' m.
Proof. intros Hk H s. specialize (H s). lia. Qed.

Lemma adds_bind {A B : Type} (k1 k2 : nat) (m : M A) (f : A → M B) :
  adds_generations p k1 m → (∀ a, adds_generations p k2 (f a)) →
  adds_generations p (k1 + k2) (m ≫= f).
Proof.
  intros Hm Hf s. specialize (Hm s). unfold mbind, M_bind.
  destruct (m s) as [[a|msg] s1]; cbn [snd] in Hm |- *; [|lia].
  specialize (Hf a s1). lia.
Qed.

Lemma adds_try {A : Type} (k1 k2 : nat) (body : M A)
    (handler : string → M A) :
  adds_generations p k1 body → (∀ e, adds_generations p k2 (handler e)) →
  adds_generations p (k1 + k2) (try_except body handler).
Proof.
  intros Hm Hh s. specialize (Hm s). unfold try_except.
  destruct (body s) as [[a|msg] s1]; cbn [snd] in Hm |- *; [lia|].
  specialize (Hh msg s1). lia.
Qed.

Lemma adds_for_each {A : Type} (k : nat) (xs : list A) (body : A → M ctl) :
  (∀ x, adds_generations p k (body x)) →
  adds_generations p (k * length xs) (for_each xs body).
Proof.
  intros Hb. induction xs as [|x xs IH].
  - intros s. cbn. lia.
  - cbn [for_each length].
    eapply adds_weaken; [|apply (adds_bind k (k * length xs))].
    + lia.
    + apply Hb.
    + intros [|]; [|exact IH]. intros s. cbn. lia.
Qed.

End Rules.

Section Run.

Variable cfg : config.
Variable self : workflow.
Variable w : world.

Lemma run_unfold (s : state) :
  run cfg self w s
  = try_except (run_try_body cfg self w) (run_except w) (init_locals s).
Proof. reflexivity. Qed.


Section Quiet.

Variable p : string.
Variable c : nat.

Lemma quiet_emit (e : event) (s : state) :
  no_generation p e → generations_at_most p c s →
  generations_at_most p c (set_log (λ l, l ++ [e])%list s).
Proof.
  unfold generations_at_most, no_generation. intros He Hs. cbn [log set_log].
  rewrite count_generations_snoc, He. lia.
Qed.

Lemma quiet_news (used_links : gset string) :
  preserves (generations_at_most p c)
    (_run_news_step cfg self w used_links).
Proof.
  apply (frame_news_step cfg self w (generations_at_most p c)
           (no_generation p)); try done.
  exact quiet_emit.
Qed.

Lemma quiet_judge (platform : string) (attempt : Z) (v : pyval) :
  preserves (generations_at_most p c)
    (judge_attempt cfg self w platform attempt v).
Proof.
  apply (frame_judge_attempt cfg self w (generations_at_most p c)
           (no_generation p)); try done.
  exact quiet_emit.
Qed.

Lemma quiet_save (platform : string) :
  preserves (generations_at_most p c) (save_platform w platform).
Proof.
  apply (frame_save_platform w (generations_at_most p c)
           (no_generation p)); try done.
  exact quiet_emit.
Qed.

Lemma quiet_append (new_links : list pyval) :
  preserves (generations_at_most p c)
    (append_used_article_links w new_links).
Proof.
  apply (frame_append w (generations_at_most p c)
           (no_generation p)); try done.
  exact quiet_emit.
Qed.

End Quiet.

Lemma attempt_adds_one (p platform : string) (attempt : Z) :
  adds_generations p (if bool_decide (platform = p) then 1 else 0)
    (attempt_body cfg self w platform attempt).
Proof.
  intros s. unfold attempt_body, update_platform_state, get_platform_state,
    _run_generation_step.
  unfold_M. cbn [platform_states set_platform_states].
  assert (Hk : (0 ≤ if bool_decide (platform = p) then 1 else 0)%nat) by lia.
  destruct (alter _ _ _ !! platform) as [ps|];
    cbn [snd log set_platform_states]; [|lia].
  destruct (regeneration_plan _ _ _) as [plan|msg];
    cbn [snd log set_platform_states]; [|lia].
  match goal with
  | |- context [judge_attempt cfg self w platform attempt ?v ?s0] =>
      assert (H := quiet_judge p (count_generations p (log s0)) platform
                     attempt v s0 (le_n _));
      destruct (judge_attempt cfg self w platform attempt v s0)
        as [[r|msg] s1]
  end; unfold generations_at_most in H;
    cbn [snd log set_log set_platform_states] in H |- *.
  all: rewrite count_generations_snoc in H; cbn [generates] in H.
  all: destruct (bool_decide (platform = p)); lia.
Qed.

(** X13.  In every run, [generate_content] is asked at most
    [max_regen_attempts + 1] times for each platform (and never when
    [max_regen_attempts] is negative). *)
Theorem generations_within_bound (file : string) (platform : string) :
  (count_generations platform (log (run cfg self w (start file)).2)
   ≤ Z.to_nat (max_regen_attempts self + 1))%nat.
Proof.
  set (N := Z.to_nat (max_regen_attempts self + 1)).
  assert (Hloop : ∀ q,
    adds_generations platform
      (if bool_decide (q = platform) then N else 0)
      (process_platform cfg self w q)).
  { intros q. unfold process_platform, attempt_loop.
    eapply adds_weaken;
      [|apply (adds_bind platform
                 ((if bool_decide (q = platform) then 1 else 0)
                  * length (seqZ 0 (max_regen_attempts self + 1))) 0)].
    - rewrite length_seqZ. fold N. case_bool_decide; lia.
    - apply adds_for_each. intros a. apply attempt_adds_one.
    - intros _. apply (adds_bind platform 0 0).
      + apply adds_quiet. intros c. apply quiet_save.
      + intros _. apply adds_ret. }
  assert (Hplat : adds_generations platform N
                    (for_each platforms (process_platform cfg self w))).
  { unfold platforms. cbn [for_each].
    eapply adds_weaken;
      [|apply (adds_bind platform
                 (if bool_decide ("Instagram" = platform) then N else 0)
                 (if bool_decide ("Rednote" = platform) then N else 0))].
    - repeat case_bool_decide; subst; try lia. discriminate.
    - apply Hloop.
    - intros [|]; [apply adds_ret|].
      eapply adds_weaken;
        [|apply (adds_bind platform
                   (if bool_decide ("Rednote" = platform) then N else 0) 0)];
        [|apply Hloop|]; [lia|].
      intros [|]; apply adds_ret. }
  assert (Hrun : adds_generations platform N (run cfg self w)).
  { unfold run, run_try_body, run_except, save_used_links.
    eapply adds_weaken; [|apply (adds_bind platform 0 N)]; [lia|..].
    { by apply adds_modify. }
    intros _. eapply adds_weaken; [|apply (adds_try platform N 0)]; [lia|..].
    - eapply adds_weaken; [|apply (adds_bind platform 0 N)]; [lia|..].
      { apply adds_get. }
      intros s0.
      eapply adds_weaken; [|apply (adds_bind platform 0 N)]; [lia|..].
      { apply adds_quiet. intros c. apply quiet_news. }
      intros r. repeat case_bool_decide; try apply adds_ret.
      eapply adds_weaken; [|apply (adds_bind platform 0 N)]; [lia|..].
      { by apply adds_modify. }
      intros _.
      eapply adds_weaken; [|apply (adds_bind platform 0 N)]; [lia|..].
      { by apply adds_modify. }
      intros _.
      eapply adds_weaken; [|apply (adds_bind platform N 0)]; [lia|..].
      { exact Hplat. }
      intros _.
      eapply adds_weaken; [|apply (adds_bind platform 0 0)]; [lia|..].
      { apply adds_get. }
      intros s1. destruct (_ && _); [|apply adds_ret].
      apply adds_quiet. intros c. apply quiet_append.
    - intros e.
      eapply adds_weaken; [|apply (adds_bind platform 0 0)]; [lia|..].
      { apply adds_get. }
      intros s1. destruct (_ && _); [|apply adds_ret].
      eapply adds_weaken; [|apply (adds_try platform 0 0)]; [lia|..].
      + apply adds_quiet. intros c. apply quiet_append.
      + intros _. apply adds_ret. }
  specialize (Hrun (start file)). cbn [log start] in Hrun.
  change (count_generations platform []) with 0%nat in Hrun. lia.
Qed.

Lemma news_step_footprint (used_links : gset string) :
  preserves (λ s, Forall news_event (log s))
    (_run_news_step cfg self w used_links).
Proof.
  apply (frame_news_step cfg self w _ news_event); try done.
  intros e s He Hs. cbn [log set_log]. apply Forall_app. split; [done|].
  by constructor.
Qed.

(** X14.  A run whose news step does not end approved stops there: it
    returns in the state the news step left, in which only the calls
    of the news step are logged (nothing was generated, reviewed,
    saved or appended) and the ledger is as the run found it. *)
Theorem unapproved_news_ends_run (file : string) (r : news_result)
    (s1 : state) :
  _run_news_step cfg self w (load_used_article_links w file)
    (init_locals (start file)) = (Ok r, s1) →
  status r ≠ "approved" →
  run cfg self w (start file) = (Ok tt, s1)
  ∧ Forall news_event (log s1)
  ∧ ledger s1 = file.
Proof.
  intros Hnews Hst. split; [|split].
  - destruct (NewsMore.news_step_outcome cfg self w
                (load_used_article_links w file) (init_locals (start file)))
      as (r' & s' & Hrun & Hcases).
    rewrite Hnews in Hrun. injection Hrun as <- <-.
    assert (Hstop : status r = "rejected" ∨ status r = "no_news").
    { destruct (news_fetcher_func w _) as [[msg|[|a l]]|msg].
      - left. apply Hcases.
      - right. apply Hcases.
      - destruct Hcases as [H|[H _]]; [by left|done].
      - left. apply Hcases. }
    rewrite run_unfold. unfold try_except, run_try_body.
    unfold mbind at 1, M_bind at 1, get_state.
    unfold mbind at 1, M_bind at 1.
    change (ledger (init_locals (start file))) with file.
    rewrite Hnews. destruct Hstop as [H|H]; rewrite H.
    + by rewrite bool_decide_eq_true_2.
    + rewrite bool_decide_eq_false_2 by discriminate.
      by rewrite bool_decide_eq_true_2.
  - assert (H := news_step_footprint (load_used_article_links w file)
                   (init_locals (start file))).
    rewrite Hnews in H. apply H. constructor.
  - assert (H := WorkflowRun.pending_news cfg self w file
                   (load_used_article_links w file) (init_locals (start file))).
    rewrite Hnews in H. destruct H as (_ & Hl & _); [|done].
    repeat split; done.
Qed.

End Run.

Lemma unapproved_news_ends_run_witness :
  ∃ s1,
    run Examples.cfg0 Examples.self0 Examples.w0 (start "") = (Ok tt, s1)
    ∧ Forall news_event (log s1)
    ∧ ledger s1 = "".
Proof.
  destruct (_run_news_step Examples.cfg0 Examples.self0 Examples.w0
              (load_used_article_links Examples.w0 "") (init_locals (start "")))
    as [[r|e] s1] eqn:Hrun.
  - exists s1.
    apply (unapproved_news_ends_run Examples.cfg0 Examples.self0 Examples.w0
             "" r s1 Hrun).
    vm_compute in Hrun. apply ReviewMore.returned_inj in Hrun as [<- _].
    discriminate.
  - vm_compute in Hrun. discriminate Hrun.
Defined.

End RunMore.

(** ** The run: what is appended to the used-link file *)

Module LedgerMore.
Import AIService Workflow Spec Invariants.
Import NewsVocabulary RunVocabulary RunBounds EventFrames.

Lemma append_assoc (s1 s2 s3 : string) : (s1 ++ s2) ++ s3 = s1 ++ s2 ++ s3.
Proof.
  induction s1 as [|a s1 IH]; [reflexivity|].
  change (String a ((s1 ++ s2) ++ s3) = String a (s1 ++ s2 ++ s3)).
  by rewrite IH.
Qed.

Lemma append_empty_r (s : string) : s ++ "" = s.
Proof.
  induction s as [|a s IH]; [reflexivity|].
  change (String a (s ++ "") = String a s). by rewrite IH.
Qed.

Lemma write_links_valid (links : list string) (file : string) :
  Forall (λ x, x ≠ "" ∧ x ≠ "#") links →
  write_links (PStr <$> links) file = file ++ link_lines links.
Proof.
  revert file. induction links as [|x links IH]; intros file Hall.
  - cbn [fmap list_fmap write_links link_lines]. by rewrite append_empty_r.
  - inversion Hall as [|? ? [H1 H2] Hrest]; subst.
    cbn [fmap list_fmap write_links link_lines].
    rewrite !bool_decide_eq_false_2 by done. cbn [negb andb].
    rewrite IH by done. by rewrite !append_assoc.
Qed.

Lemma consumed_links_valid (articles : list (gmap string string)) :
  Forall (λ x, x ≠ "" ∧ x ≠ "#") (consumed_links articles).
Proof.
  unfold consumed_links. apply Forall_forall. intros x Hx.
  apply list_elem_of_omap in Hx as (a & _ & Ha).
  unfold trackable_link in Ha. destruct (a !! "link") as [l|]; [|done].
  destruct (bool_decide (l = "")) eqn:E1; [done|].
  destruct (bool_decide (l = "#")) eqn:E2; [done|].
  cbn in Ha. injection Ha as <-.
  apply bool_decide_eq_false_1 in E1, E2. by split.
Qed.

Section Ledger.

Variable cfg : config.
Variable self : workflow.
Variable w : world.
Variable file : string.

(** While the platforms are worked on, the links stay pending and the
    list of links to commit stays as the news step left it. *)
Lemma platforms_keep_links (links : list pyval) :
  preserves (λ s, links_pending file s ∧ links_from_approved_news s = links)
    (for_each platforms (process_platform cfg self w)).
Proof.
  apply preserves_platforms; intros;
    match goal with H : _ ∧ _ |- _ => destruct H as [Hp Hl] end;
    (split; [|exact Hl]);
    first [ by apply WorkflowRun.pending_emit
          | by apply WorkflowRun.pending_saved
          | exact Hp ].
Qed.

(** Committing from a state in which the links are pending: the file
    stays, or the storage writes the pending links after a call of
    [save_content] that returned. *)
Lemma commit_links (links : list pyval) (s : state) :
  links_pending file s →
  links_from_approved_news s = links →
  ∀ s', (save_used_links w s).2 = s' ∨ (∃ e, (run_except w e s).2 = s') →
  ledger s' = file
  ∨ ledger s' = write_links links file ∧ save_returned (log s').
Proof.
  intros (Hc & Hl & Hp) Hlinks s' Hs'.
  assert (Happ : ∀ s1, (append_used_article_links w links s).2 = s1 →
            any_post_saved s = true →
            ledger s1 = file
            ∨ ledger s1 = write_links links file ∧ save_returned (log s1)).
  { intros s1 <- Hsaved. unfold append_used_article_links. unfold_M.
    destruct (negb (truthy (PList links))); [by left|].
    destruct (ledger_writable w); [|by left].
    right. cbn [snd ledger set_ledger log set_log]. split.
    - by rewrite Hl.
    - by apply WorkflowRun.save_returned_snoc, Hp. }
  destruct Hs' as [<-|[e <-]].
  - unfold save_used_links. unfold_M. cbv beta iota. rewrite Hlinks.
    destruct (truthy (PList links) && any_post_saved s) eqn:E; [|by left].
    apply andb_prop in E as [_ E]. by apply Happ.
  - unfold run_except. unfold_M. cbv beta iota. rewrite Hlinks.
    destruct (truthy (PList links) && any_post_saved s) eqn:E; [|by left].
    apply andb_prop in E as [_ E].
    specialize (Happ _ eq_refl E).
    by destruct (append_used_article_links w links s) as [[[]|msg] s1].
Qed.

Lemma save_used_links_returns (s : state) :
  ∃ s', save_used_links w s = (Ok tt, s').
Proof.
  unfold save_used_links, append_used_article_links. unfold_M.
  repeat match goal with
         | |- context [if ?b then _ else _] => destruct b
         end; by eexists.
Qed.

(** How a run leaves the used-link file: untouched, or as the storage
    wrote the links of the approved news to it. *)
Lemma ledger_after_run :
  let s' := (run cfg self w (start file)).2 in
  ledger s' = file
  ∨ ∃ l, news_fetcher_func w (load_used_article_links w file) = Ok (Articles l)
         ∧ ledger s' = write_links (PStr <$> consumed_links l) file
         ∧ save_returned (log s').
Proof.
  cbv zeta.
  set (s0 := init_locals (start file)).
  set (used := load_used_article_links w file).
  destruct (NewsMore.news_step_outcome cfg self w used s0)
    as (r & s1 & Hnews & Hcases).
  assert (Hpend : links_pending file s1).
  { assert (H := WorkflowRun.pending_news cfg self w file used s0).
    rewrite Hnews in H. apply H. repeat split; done. }
  remember (run cfg self w (start file)).2 as s' eqn:Hs'.
  rewrite RunMore.run_unfold in Hs'. fold s0 in Hs'.
  unfold try_except, run_try_body in Hs'.
  unfold mbind at 1, M_bind at 1, get_state in Hs'.
  unfold mbind at 1, M_bind at 1 in Hs'.
  change (ledger s0) with file in Hs'. fold used in Hs'. rewrite Hnews in Hs'.
  destruct (bool_decide (status r = "rejected")) eqn:Hrej;
    [left; subst s'; apply Hpend|].
  destruct (bool_decide (status r = "no_news")) eqn:Hno;
    [left; subst s'; apply Hpend|].
  apply bool_decide_eq_false_1 in Hrej, Hno.
  destruct (news_fetcher_func w used) as [[msg|[|a l]]|msg] eqn:Hfetch;
    try (by destruct Hcases as [Hcases _]).
  destruct Hcases as [?|(_ & Hl & _)]; [done|].
  unfold mbind at 1, M_bind at 1, modify at 1 in Hs'.
  unfold mbind at 1, M_bind at 1, modify at 1 in Hs'.
  match type of Hs' with
  | context [(for_each platforms (process_platform cfg self w) ≫= ?k) ?s2] =>
      assert (Hinv := platforms_keep_links (PStr <$> consumed_links (a :: l)) s2);
      unfold mbind at 1, M_bind at 1 in Hs';
      destruct (for_each platforms (process_platform cfg self w) s2)
        as [[[]|e] s3]
  end.
  all: cbn [snd] in Hinv; destruct Hinv as [Hp3 Hl3];
    [split; [apply Hpend|by rewrite <- Hl]|].
  - destruct (commit_links (PStr <$> consumed_links (a :: l)) s3 Hp3 Hl3
                (save_used_links w s3).2 (or_introl eq_refl)) as [H|[H1 H2]];
      destruct (save_used_links_returns s3) as [s4 Hs4];
      rewrite Hs4 in *; cbn [snd] in *; subst s'.
    + by left.
    + right. exists (a :: l). split; [reflexivity|]. split; [exact H1|exact H2].
  - destruct (commit_links (PStr <$> consumed_links (a :: l)) s3 Hp3 Hl3
                (run_except w e s3).2 (or_intror (ex_intro _ e eq_refl)))
      as [H|[H1 H2]];
      subst s'.
    + by left.
    + right. exists (a :: l). split; [reflexivity|]. split; [exact H1|exact H2].
Qed.

(** X15.  A run leaves the text of the used-link file as it found it,
    or appends to it the trackable links of the usable articles the
    fetcher returned in this run (called with the links loaded from
    the file), each on a line of its own, in their order; the latter
    only in a run in which some call of [save_content] returned,
    whether or not that call got the file of its post written. *)
Theorem ledger_grows_by_consumed_links :
  let s' := (run cfg self w (start file)).2 in
  ledger s' = file
  ∨ ∃ l, news_fetcher_func w (load_used_article_links w file) = Ok (Articles l)
         ∧ ledger s' = file ++ link_lines (consumed_links l)
         ∧ save_returned (log s').
Proof.
  cbv zeta. destruct ledger_after_run as [H|(l & Hfetch & Hledger & Hsaved)].
  - by left.
  - right. exists l. split; [exact Hfetch|]. split; [|exact Hsaved].
    rewrite Hledger. apply write_links_valid, consumed_links_valid.
Qed.

(** X30.  In every run [append_used_article_links] is called at most
    once, and only in a run in which some call of [save_content]
    returned (with or without the file of the post written); a run in
    which no such call returned makes no call to it and leaves the
    used-link file as it found it. *)
Theorem links_committed_at_most_once :
  let s' := (run cfg self w (start file)).2 in
  (count_appends (log s') ≤ 1)%nat
  ∧ (0 < count_appends (log s') → save_returned (log s'))%nat
  ∧ (¬ save_returned (log s') → count_appends (log s') = 0 ∧ ledger s' = file).
Proof.
  cbv zeta. rewrite RunMore.run_unfold.
  assert (H := WorkflowRun.run_body_accounted cfg self w file
                 (init_locals (start file))).
  destruct (try_except _ _ (init_locals (start file))) as [[[]|msg] s1];
    cbn [snd]; apply H; repeat split; done.
Qed.

End Ledger.

End LedgerMore.

(** ** The run: reported successes were handed to the storage *)

Module SaveMore.
Import AIService Workflow Spec Invariants.
Import SaveVocabulary EventFrames.

Lemma triple_for_each_break {A : Type} (I Q E : state → Prop) (xs : list A)
    (body : A → M ctl) :
  (∀ s, I s → Q s) →
  (∀ x, x ∈ xs →
     triple I (body x) (λ c, match c with Break => Q | Next => I end) E) →
  triple I (for_each xs body) (λ _, Q) E.
Proof.
  intros HIQ. induction xs as [|x xs IH]; intros Hb.
  - intros s Hs. by apply HIQ.
  - cbn [for_each]. eapply triple_bind.
    + apply Hb, list_elem_of_here.
    + intros [|]; [by intros s Hs|].
      apply IH. intros y Hy. by apply Hb, list_elem_of_further.
Qed.

Lemma triple_weaken_raise {A : Type} (P : state → Prop) (m : M A)
    (Q : A → state → Prop) (E E' : state → Prop) :
  (∀ s, E s → E' s) → triple P m Q E → triple P m Q E'.
Proof.
  intros HE Hm s Hs. specialize (Hm s Hs).
  destruct (m s) as [[a|msg] s1]; [exact Hm|by apply HE].
Qed.

Lemma saved_weaken (p : string) (s : state) :
  successes_saved s → successes_saved_but p s.
Proof. intros H q c Hq Hc. left. by apply H. Qed.

Lemma saved_emit (e : event) (s : state) :
  successes_saved s → successes_saved (set_log (λ l, l ++ [e])%list s).
Proof.
  intros H q c Hq Hc. cbn [log set_log].
  destruct (H q c Hq Hc) as [b Hb]. exists b. apply elem_of_app. by left.
Qed.

Section Save.

Variable cfg : config.
Variable self : workflow.
Variable w : world.

(** Content the review step approves is a dictionary. *)
Lemma approved_content_is_dict (v : pyval) (platform : string) (attempt : Z)
    (s s' : state) (outcome st : pyval) :
  _run_review_step cfg self w v platform attempt s = (Ok outcome, s') →
  py_get outcome "status" PNone = Ok st →
  str_eq st "approved" = true →
  ∃ d, v = PDict d.
Proof.
  intros Hrun Hst Happ.
  assert (Hrej : ∀ fb, outcome = review_result "rejected" fb → False).
  { intros fb ->. unfold review_result in Hst. cbn [py_get] in Hst.
    rewrite lookup_insert_eq in Hst. cbn in Hst. injection Hst as <-.
    cbn in Happ. by apply bool_decide_eq_true_1 in Happ. }
  unfold _run_review_step in Hrun.
  destruct (truthy v) eqn:Hc; cbn [negb] in Hrun.
  2: { unfold_M in Hrun. apply ReviewMore.returned_inj in Hrun as [<- _].
       by destruct (Hrej _ eq_refl). }
  destruct v as [| | | | |c]; [..|by exists c].
  all: unfold review_try_body in Hrun; unfold_M in Hrun;
    cbn [py_get] in Hrun; apply ReviewMore.returned_inj in Hrun as [<- _];
    by destruct (Hrej _ eq_refl).
Qed.

Lemma saved_review_step (v : pyval) (platform : string) (attempt : Z) :
  preserves successes_saved (_run_review_step cfg self w v platform attempt).
Proof.
  apply (frame_review_step cfg self w successes_saved (λ _, True));
    try done.
  intros e s _. apply saved_emit.
Qed.

Lemma saved_news_step (used_links : gset string) :
  preserves successes_saved (_run_news_step cfg self w used_links).
Proof.
  apply (frame_news_step cfg self w successes_saved (λ _, True));
    try done.
  intros e s _. apply saved_emit.
Qed.

Lemma saved_append (new_links : list pyval) :
  preserves successes_saved (append_used_article_links w new_links).
Proof.
  apply (frame_append w successes_saved (λ _, True)); try done.
  intros e s _. apply saved_emit.
Qed.

Lemma saved_but_final_dict (p : string) (d : gmap string pyval) (s : state) :
  successes_saved s → successes_saved_but p (set_final p (PDict d) s).
Proof.
  intros H q c. cbn [final_approved_content set_final log].
  destruct (decide (p = q)) as [<-|Hne].
  - rewrite lookup_insert_eq. intros [= <-] _. right. eauto.
  - rewrite lookup_insert_ne by done. intros Hq Hc. left. by apply H.
Qed.

Lemma saved_final_none (p : string) (s : state) :
  successes_saved_but p s → successes_saved (set_final p PNone s).
Proof.
  intros H q c. cbn [final_approved_content set_final log].
  destruct (decide (p = q)) as [<-|Hne].
  - rewrite lookup_insert_eq. by intros [= <-].
  - rewrite lookup_insert_ne by done. intros Hq Hc.
    destruct (H q c Hq Hc) as [?|[-> _]]; done.
Qed.

Lemma judge_attempt_saved (platform : string) (attempt : Z) (v : pyval) :
  triple successes_saved (judge_attempt cfg self w platform attempt v)
    (λ c, match c with
          | Break => successes_saved_but platform
          | Next => successes_saved
          end)
    successes_saved.
Proof.
  intros s Hs. unfold judge_attempt, update_platform_state.
  unfold mbind at 1, M_bind at 1, modify at 1.
  destruct (truthy v) eqn:Hv; cbn [negb].
  - unfold mbind at 1, M_bind at 1.
    match goal with
    | |- context [_run_review_step cfg self w v platform attempt ?s0] =>
        assert (Hrev := saved_review_step v platform attempt s0 Hs);
        destruct (_run_review_step cfg self w v platform attempt s0)
          as [[outcome|msg] s1] eqn:Hrun
    end; cbn [snd] in Hrev; [|exact Hrev].
    unfold_M.
    destruct (py_get outcome "status" PNone) as [st|msg] eqn:Hst;
      [|exact Hrev].
    destruct (str_eq st "approved") eqn:Happ.
    + destruct (approved_content_is_dict _ _ _ _ _ _ _ Hrun Hst Happ)
        as [d ->].
      by apply saved_but_final_dict.
    + destruct (_ <=? _)%Z; [|exact Hrev].
      by apply saved_weaken, saved_final_none, saved_weaken.
  - unfold_M. by destruct (_ <=? _)%Z; [apply saved_weaken|].
Qed.

Lemma attempt_body_saved (platform : string) (attempt : Z) :
  triple successes_saved (attempt_body cfg self w platform attempt)
    (λ c, match c with
          | Break => successes_saved_but platform
          | Next => successes_saved
          end)
    successes_saved.
Proof.
  intros s Hs.
  unfold attempt_body, update_platform_state, get_platform_state,
    _run_generation_step.
  unfold mbind at 1, M_bind at 1, modify at 1.
  unfold mbind at 1, M_bind at 1.
  cbn [platform_states set_platform_states].
  destruct (alter _ _ _ !! platform) as [ps|]; [|exact Hs].
  unfold mbind at 1, M_bind at 1, lift at 1.
  destruct (regeneration_plan _ _ _) as [plan|msg]; [|exact Hs].
  unfold mbind at 1, M_bind at 1.
  unfold mbind at 1, M_bind at 1, emit at 1, modify at 1, mret at 1,
    M_ret at 1.
  apply judge_attempt_saved. by apply saved_emit.
Qed.

(** The save of lines 579-587, for approved content that is a
    dictionary: the call returns and logs its write, or raises and the
    content is dropped. *)
Lemma save_try_saved (platform : string) (d : gmap string pyval)
    (image_url : option string) (s : state) :
  truthy (PDict d) = true →
  (∀ q c, q ≠ platform →
     final_approved_content s !! q = Some c → truthy c = true →
     ∃ written, EvSave q c written ∈ log s) →
  final_approved_content s !! platform = Some (PDict d) →
  ∃ s', try_except
          (save_content w platform (PDict d) image_url;;
           modify (set_any_post_saved true))
          (λ _, modify (set_final platform PNone)) s = (Ok tt, s')
        ∧ successes_saved s'.
Proof.
  intros Hc Hother Hfin. unfold try_except.
  unfold mbind at 1, M_bind at 1.
  destruct (save_content_cases w platform (PDict d) image_url s Hc)
    as [H|[msg H]]; rewrite H; unfold_M; eexists; (split; [reflexivity|]).
  - intros q c Hq Hc'.
    cbn [final_approved_content set_any_post_saved set_log log] in *.
    destruct (decide (q = platform)) as [->|Hne].
    + rewrite Hfin in Hq. injection Hq as <-. eexists.
      apply elem_of_app. right. apply list_elem_of_here.
    + destruct (Hother q c Hne Hq Hc') as [b Hb]. exists b.
      apply elem_of_app. by left.
  - intros q c Hq Hc'. cbn [final_approved_content set_final log] in *.
    destruct (decide (q = platform)) as [->|Hne].
    + rewrite lookup_insert_eq in Hq. injection Hq as <-. discriminate Hc'.
    + rewrite lookup_insert_ne in Hq by done. by apply Hother.
Qed.

(** What [generate_image] raises leaves the approved content of the
    platform in place, unsaved: only a save that is reached settles
    it. *)
Lemma save_platform_saved (platform : string) :
  triple (successes_saved_but platform) (save_platform w platform)
    (λ _, successes_saved) (λ _, True).
Proof.
  intros s Hs.
  assert (Hother : ∀ q c, q ≠ platform →
            final_approved_content s !! q = Some c → truthy c = true →
            ∃ written, EvSave q c written ∈ log s).
  { intros q c Hne Hq Hc. by destruct (Hs q c Hq Hc) as [?|[-> _]]. }
  unfold save_platform, get_final.
  unfold mbind at 1, M_bind at 1.
  destruct (final_approved_content s !! platform) as [c|] eqn:Hfin; [|done].
  destruct (truthy c) eqn:Hc.
  2: { unfold_M. intros q c' Hq Hc'. destruct (decide (q = platform)) as [->|];
       [congruence|by apply Hother]. }
  unfold mbind at 1, M_bind at 1, lift at 1.
  destruct c as [| | | | |d]; try done. cbn [py_get].
  set (image_prompt := default PNone (d !! "image_prompt")).
  destruct (truthy image_prompt).
  - unfold mbind at 1, M_bind at 1.
    unfold mbind at 1, M_bind at 1, emit at 1, modify at 1, lift at 1.
    destruct (generate_image _ image_prompt) as [image_url|msg]; [|done].
    match goal with
    | |- context [try_except _ _ ?s0] =>
        destruct (save_try_saved platform d image_url s0 Hc) as (s' & -> & H)
    end; [| |exact H].
    + intros q c Hne Hq Hc'. cbn [final_approved_content set_log log] in *.
      destruct (Hother q c Hne Hq Hc') as [b Hb]. exists b.
      apply elem_of_app. by left.
    + exact Hfin.
  - unfold mbind at 1, M_bind at 1, mret at 1, M_ret at 1.
    by destruct (save_try_saved platform d None s Hc Hother Hfin)
      as (s' & -> & H).
Qed.

Lemma process_platform_saved (platform : string) :
  triple successes_saved (process_platform cfg self w platform)
    (λ _, successes_saved) (λ _, True).
Proof.
  unfold process_platform, attempt_loop.
  eapply triple_bind.
  - apply (triple_for_each_break successes_saved
             (successes_saved_but platform)).
    + intros s. apply saved_weaken.
    + intros a _. eapply triple_weaken_raise; [|apply attempt_body_saved].
      done.
  - intros ?. eapply triple_bind; [apply save_platform_saved|].
    intros ? s Hs. exact Hs.
Qed.

Lemma save_used_links_saved :
  triple successes_saved (save_used_links w) (λ _, successes_saved)
    (λ _, True).
Proof.
  intros s Hs. unfold save_used_links. unfold_M.
  destruct (_ && _); [|exact Hs].
  assert (H := saved_append (links_from_approved_news s) s Hs).
  by destruct (append_used_article_links w _ s) as [[[]|?] ?].
Qed.

Lemma run_try_body_saved :
  triple successes_saved (run_try_body cfg self w) (λ _, successes_saved)
    (λ _, True).
Proof.
  unfold run_try_body.
  eapply triple_bind.
  { eapply triple_weaken_raise; [|apply triple_of_preserves, preserves_get].
    done. }
  intros s0. cbv beta. eapply triple_bind.
  { eapply triple_weaken_raise;
      [|apply triple_of_preserves, saved_news_step]. done. }
  intros news_result. cbv beta.
  repeat case_bool_decide; try (by intros s Hs).
  eapply triple_bind.
  { eapply triple_weaken_raise;
      [|apply triple_of_preserves, preserves_modify; by intros s Hs]. done. }
  intros ?. cbv beta. eapply triple_bind.
  { eapply triple_weaken_raise;
      [|apply triple_of_preserves, preserves_modify; by intros s Hs]. done. }
  intros ?. cbv beta. eapply triple_bind.
  { apply (triple_for_each successes_saved (λ _, True)).
    intros p _. apply process_platform_saved. }
  intros ?. apply save_used_links_saved.
Qed.

(** X16.  In a run that comes to its final report (the body of [run]
    did not raise), each platform the report counts as succeeded, its
    final content being non-empty, had exactly that content handed to
    [save_content], and the call came to the write of the post and
    returned; whether the file got written is for the storage to say. *)
Theorem reported_successes_were_saved (file : string) (platform : string)
    (c : pyval) (s' : state) :
  run_try_body cfg self w (init_locals (start file)) = (Ok tt, s') →
  final_approved_content s' !! platform = Some c →
  truthy c = true →
  run cfg self w (start file) = (Ok tt, s')
  ∧ ∃ written, EvSave platform c written ∈ log s'.
Proof.
  intros Hrun Hfin Hc. split.
  { rewrite RunMore.run_unfold. unfold try_except. by rewrite Hrun. }
  revert platform c Hfin Hc.
  assert (H := run_try_body_saved (init_locals (start file))).
  rewrite Hrun in H. apply H.
  intros q v. cbn [final_approved_content init_locals].
  intros Hq. apply elem_of_list_to_map_2, list_elem_of_fmap in Hq
    as (q' & [= -> ->] & _).
  discriminate.
Qed.

End Save.

Lemma reported_successes_were_saved_witness :
  ∃ s',
    run Examples.cfg0 Examples.self0 Examples.w1 (start "") = (Ok tt, s')
    ∧ ∃ written, EvSave "Instagram" (PDict Examples.draft) written ∈ log s'.
Proof.
  eexists.
  apply (reported_successes_were_saved Examples.cfg0 Examples.self0
           Examples.w1 "" "Instagram" (PDict Examples.draft)).
  - vm_compute. reflexivity.
  - vm_compute. reflexivity.
  - vm_compute. reflexivity.
Defined.

End SaveMore.

(** ** Strings, the ad intensity instruction, prompt files *)

Module PyStrFacts.

Lemma prefix_append (p s : string) : String.prefix p (p ++ s) = true.
Proof.
  induction p as [|a p IH].
  - change ("" ++ s) with s. by destruct s.
  - change (String a p ++ s) with (String a (p ++ s)).
    cbn [String.prefix]. by destruct (Ascii.ascii_dec a a).
Qed.

End PyStrFacts.

Module AdIntensityFacts.
Import AIService Workflow Spec Invariants.
Import AdIntensity.

(** X17.  The ad intensity instruction depends on the configured
    percentage only through its band after clamping to 0..100: a
    value that is no integer counts as 20, a negative value as 0 and
    a value above 100 as 100.  So every value of at most 0 gives the
    instruction without promotion, every value of at least 81 the
    strongest one, and the bands 1-20, 21-50 and 51-80 the three in
    between. *)
Theorem ad_intensity_bands (configured : option Z) :
  let n := default 20%Z configured in
  let instruction := _generate_ad_intensity_instruction configured in
  instruction
  = _generate_ad_intensity_instruction (Some (Z.max 0 (Z.min 100 n)))
  ∧ ((n ≤ 0)%Z → instruction = no_promotion)
  ∧ ((1 ≤ n ≤ 20)%Z → instruction = subtle_promotion)
  ∧ ((21 ≤ n ≤ 50)%Z → instruction = balanced_promotion)
  ∧ ((51 ≤ n ≤ 80)%Z → instruction = explicit_promotion)
  ∧ ((81 ≤ n)%Z → instruction = central_promotion).
Proof.
  cbv zeta. unfold _generate_ad_intensity_instruction.
  destruct configured as [n|]; cbn [default from_option id].
  2: { repeat split; intros; try lia; reflexivity. }
  assert (Hband : (n < 0 ∨ n = 0 ∨ 1 ≤ n ≤ 20 ∨ 21 ≤ n ≤ 50 ∨ 51 ≤ n ≤ 80
                   ∨ 81 ≤ n ≤ 100 ∨ 100 < n)%Z) by lia.
  destruct Hband as [H|[H|[H|[H|[H|[H|H]]]]]].
  all: repeat match goal with
       | |- context [(?a <=? ?b)%Z] =>
           first [ rewrite (proj2 (Z.leb_le a b)) by lia
                 | rewrite (proj2 (Z.leb_gt a b)) by lia ]
       | |- context [(?a =? ?b)%Z] =>
           first [ rewrite (proj2 (Z.eqb_eq a b)) by lia
                 | rewrite (proj2 (Z.eqb_neq a b)) by lia ]
       | |- _ => progress cbn [andb negb]
       end.
  all: repeat split; intros; first [reflexivity | lia].
Qed.

End AdIntensityFacts.

Module PromptFiles.
Import AIService Workflow Spec Invariants.
Import Utils PromptVocabulary.

Lemma has_key_is_Some (m : gmap string pyval) (k : string) :
  has_key m k = true ↔ is_Some (m !! k).
Proof. unfold has_key. apply bool_decide_eq_true. Qed.

Lemma has_key_None (m : gmap string pyval) (k : string) :
  has_key m k = false ↔ m !! k = None.
Proof.
  unfold has_key. rewrite bool_decide_eq_false.
  by rewrite eq_None_not_Some.
Qed.

(** What a processed message is, by the message it was made from. *)
Lemma process_message_Some (read_file : string → option string)
    (msg : pyval) (m' : gmap string pyval) :
  process_message read_file msg = Some m' →
  ∃ m, msg = PDict m
    ∧ is_Some (m !! "role")
    ∧ ((∃ s, m !! "content" = Some (PStr s))
       ∧ m !! "content_file" = None ∧ m' = m
       ∨ m !! "content" = None
         ∧ ∃ name s, m !! "content_file" = Some (PStr name)
                     ∧ read_file name = Some s
                     ∧ m' = delete "content_file"
                              (<["content" := PStr s]> m)).
Proof.
  destruct msg as [| | | | |m]; try discriminate. cbn [process_message].
  destruct (has_key m "role") eqn:Hrole; cbn [negb]; [|discriminate].
  apply has_key_is_Some in Hrole.
  destruct (has_key m "content") eqn:Hc, (has_key m "content_file") eqn:Hf;
    cbn [andb]; try discriminate.
  - apply has_key_None in Hf.
    destruct (m !! "content") as [[| | |s| |]|] eqn:E; try discriminate.
    intros [= <-]. exists m. split; [done|]. split; [done|]. left. eauto.
  - apply has_key_None in Hc.
    destruct (m !! "content_file") as [[| | |name| |]|] eqn:E;
      try discriminate.
    destruct (read_file name) as [s|] eqn:Hr; [|discriminate].
    intros [= <-]. exists m. split; [done|]. split; [done|]. right.
    split; [done|]. by exists name, s.
Qed.

(** X18.  A prompt file that loads is a JSON list, and every message
    loaded from it has a role, a ['content'] that is a string, and no
    ['content_file'] left; all its other entries are those of the
    item it was made from, and an item that carried its content
    directly comes out unchanged. *)
Theorem loaded_prompt_is_well_formed (prompt_messages : option pyval)
    (read_file : string → option string) (out : list (gmap string pyval)) :
  load_prompt_from_file prompt_messages read_file = Some out →
  ∃ msgs,
    prompt_messages = Some (PList msgs)
    ∧ Forall2
        (λ msg m',
           ∃ m, msg = PDict m
             ∧ is_Some (m' !! "role")
             ∧ (∃ s, m' !! "content" = Some (PStr s))
             ∧ m' !! "content_file" = None
             ∧ (∀ k, k ≠ "content" → k ≠ "content_file" →
                     m' !! k = m !! k)
             ∧ (is_Some (m !! "content") → m' = m))
        msgs out.
Proof.
  unfold load_prompt_from_file.
  destruct prompt_messages as [[| | | |msgs|]|]; try discriminate.
  intros Hload. exists msgs. split; [done|].
  apply mapM_Some in Hload.
  eapply Forall2_impl; [exact Hload|]. cbn beta.
  intros msg m' Hm. apply process_message_Some in Hm
    as (m & -> & Hrole & [([s Hs] & Hf & ->)|(Hc & name & s & Hf & Hr & ->)]).
  - exists m. repeat split; eauto.
  - exists m. split; [done|]. split.
    { rewrite lookup_delete_ne by done. by rewrite lookup_insert_ne. }
    split.
    { exists s. rewrite lookup_delete_ne by done. by rewrite lookup_insert_eq. }
    split; [by rewrite lookup_delete_eq|]. split.
    + intros k H1 H2. rewrite lookup_delete_ne by done.
      by rewrite lookup_insert_ne.
    + rewrite Hc. by intros [? ?].
Qed.

Lemma process_message_valid (read_file : string → option string)
    (msg : pyval) :
  is_Some (process_message read_file msg) ↔ valid_message read_file msg.
Proof.
  split.
  - intros [m' Hm]. apply process_message_Some in Hm
      as (m & -> & Hrole & [(Hs & Hf & _)|(Hc & name & s & Hf & Hr & _)]);
      exists m; (split; [done|]); (split; [done|]).
    + by left.
    + right. split; [done|]. exists name. by rewrite Hr.
  - intros (m & -> & Hrole & [([s Hs] & Hf)|(Hc & name & Hf & [s Hr])]);
      cbn [process_message].
    + apply has_key_is_Some in Hrole. rewrite Hrole. cbn [negb].
      assert (H1 : has_key m "content" = true)
        by (apply has_key_is_Some; eauto).
      assert (H2 : has_key m "content_file" = false)
        by (by apply has_key_None).
      rewrite H1, H2, Hs. cbn [andb]. eauto.
    + apply has_key_is_Some in Hrole. rewrite Hrole. cbn [negb].
      assert (H1 : has_key m "content" = false) by (by apply has_key_None).
      assert (H2 : has_key m "content_file" = true)
        by (apply has_key_is_Some; eauto).
      rewrite H1, H2, Hf, Hr. cbn [andb]. eauto.
Qed.

(** X19.  A prompt file loads exactly when it holds a JSON list all of
    whose items are valid messages: one item that is no dictionary,
    lacks a role, carries both or neither of ['content'] and
    ['content_file'], carries a ['content'] that is no string, or
    names a content file that cannot be read makes the whole file
    unusable. *)
Theorem prompt_loads_iff_all_valid (prompt_messages : option pyval)
    (read_file : string → option string) :
  is_Some (load_prompt_from_file prompt_messages read_file)
  ↔ ∃ msgs, prompt_messages = Some (PList msgs)
            ∧ Forall (valid_message read_file) msgs.
Proof.
  unfold load_prompt_from_file. split.
  - destruct prompt_messages as [[| | | |msgs|]|];
      try (intros [? ?]; discriminate).
    intros Hsome. exists msgs. split; [done|].
    apply mapM_is_Some in Hsome.
    eapply Forall_impl; [exact Hsome|]. intros msg.
    apply process_message_valid.
  - intros (msgs & -> & Hall). apply mapM_is_Some.
    eapply Forall_impl; [exact Hall|]. intros msg.
    apply process_message_valid.
Qed.

Lemma loaded_prompt_is_well_formed_witness :
  ∃ msgs,
    Some (PList [PDict (<["role" := PStr "system"]>
                          {["content_file" := PStr "system.txt"]})])
    = Some (PList msgs)
    ∧ Forall2
        (λ msg m',
           ∃ m, msg = PDict m
             ∧ is_Some (m' !! "role")
             ∧ (∃ s, m' !! "content" = Some (PStr s))
             ∧ m' !! "content_file" = None
             ∧ (∀ k, k ≠ "content" → k ≠ "content_file" →
                     m' !! k = m !! k)
             ∧ (is_Some (m !! "content") → m' = m))
        msgs
        [<["role" := PStr "system"]> {["content" := PStr "You write posts."]}].
Proof.
  apply (loaded_prompt_is_well_formed _ (λ _, Some "You write posts.")).
  vm_compute. reflexivity.
Defined.

End PromptFiles.

(** ** The summarizer and the AI reviewer of [AIService] *)

Module SummarizerFacts.
Import AIService Workflow Spec Invariants.

Section Summaries.

Variable client : option (string → Summarizer.completion).
Variable strip : string → string.

(** X20.  [summarize_article_text] never returns the empty string, and
    what it returns starts with ['[LLM Summary]: '] exactly when a
    client exists, the text is non-empty and the completion call
    returned; in every other case it starts with ['[Error'] or
    ['[Unexpected'], the two marks by which its callers recognise a
    failure. *)
Theorem summary_marks_success (text : string) :
  let summary := Summarizer.summarize_article_text client strip text in
  let succeeded :=
    ∃ create content,
      client = Some create ∧ text ≠ ""
      ∧ create text = Summarizer.Completed content
      ∧ summary = "[LLM Summary]: " ++ strip content in
  summary ≠ ""
  ∧ (String.prefix "[LLM Summary]: " summary = true ↔ succeeded)
  ∧ (¬ succeeded →
     String.prefix "[Error" summary || String.prefix "[Unexpected" summary
     = true).
Proof.
  cbv zeta.
  unfold Summarizer.summarize_article_text, Summarizer.summarize_with_llm.
  case_bool_decide as Htext.
  { split; [done|]. split; [|done].
    split; [done|]. by intros (create & content & _ & Hne & _). }
  destruct client as [create|].
  2: { split; [done|]. split; [|done].
       split; [done|]. by intros (create & content & Hc & _). }
  destruct (create text) as [e|e|content] eqn:Hcreate.
  - split; [intros H; vm_compute in H; discriminate H|].
    split; [|intros _; vm_compute; reflexivity].
    split; [intros H; vm_compute in H; discriminate H|].
    intros (create' & content & [= <-] & _ & Hc & _). congruence.
  - split; [intros H; vm_compute in H; discriminate H|].
    split; [|intros _; vm_compute; reflexivity].
    split; [intros H; vm_compute in H; discriminate H|].
    intros (create' & content & [= <-] & _ & Hc & _). congruence.
  - split; [intros H; vm_compute in H; discriminate H|]. split.
    + split; [|intros _; apply PyStrFacts.prefix_append].
      intros _. by exists create, content.
    + intros Hn. exfalso. apply Hn. by exists create, content.
Qed.

Section WithWorkflow.

Variable cfg : config.
Variable w : world.

(** The summarizer of the workflow is the one of [AIService]. *)
Hypothesis w_summarizer : ∀ text,
  Workflow.summarize_article_text w text
  = Ok (Summarizer.summarize_article_text client strip text).

(** X21.  With the summarizer of [AIService] in the workflow, the text
    the news step uses for an article is the article's own content,
    unless the content is longer than the threshold and the
    completion call returned: then it is the summary, marked
    ['[LLM Summary]: '].  An error message of the summarizer never
    replaces the content. *)
Theorem news_step_keeps_content_on_failed_summary (content : string)
    (s : state) :
  let long :=
    bool_decide (ARTICLE_SUMMARIZATION_THRESHOLD cfg < String.length content) in
  (summarized_content cfg w content s).1
  = Ok (match client with
        | Some create =>
            match create content with
            | Summarizer.Completed reply =>
                if long then "[LLM Summary]: " ++ strip reply else content
            | _ => content
            end
        | None => content
        end).
Proof.
  cbv zeta. unfold summarized_content.
  case_bool_decide as Hlong.
  2: { by destruct client as [create|]; [destruct (create content)|]. }
  unfold_M. rewrite w_summarizer.
  unfold Summarizer.summarize_article_text, Summarizer.summarize_with_llm.
  assert (Hne : content ≠ "").
  { intros ->. change (String.length "") with 0 in Hlong. lia. }
  rewrite !(bool_decide_eq_false_2 (content = "")) by done.
  destruct client as [create|]; [|reflexivity].
  destruct (create content) as [e|e|reply]; reflexivity.
Qed.

End WithWorkflow.

End Summaries.

Lemma news_step_keeps_content_on_failed_summary_witness :
  (summarized_content ModelExamples.cfg_short ModelExamples.w_summarizer
     "Shoppers abandon fewer carts this quarter." (start "")).1
  = Ok "[LLM Summary]: Fewer carts are abandoned.".
Proof.
  apply (news_step_keeps_content_on_failed_summary
           (Some ModelExamples.create0) ModelExamples.strip0
           ModelExamples.cfg_short ModelExamples.w_summarizer
           (λ text, eq_refl)
           "Shoppers abandon fewer carts this quarter." (start "")).
Defined.

End SummarizerFacts.

Module AIReviewerFacts.
Import AIService Workflow Spec Invariants.
Import AIReviewer.

Lemma verdict_entries (a : bool) (f : string) :
  ∃ d, verdict a f = PDict d
       ∧ d !! "approved" = Some (PBool a)
       ∧ d !! "feedback" = Some (PStr f).
Proof.
  eexists. split; [reflexivity|]. split.
  - apply lookup_insert_eq.
  - rewrite lookup_insert_ne by done. apply lookup_singleton_eq.
Qed.

Section Reviews.

Variable type_error : string → pyval → string.
Variable review_model :
  pyval → string → option string → string → review_reply.

(** A review read from a decoded reply is the reply itself, a JSON
    object with both keys, or the rejection for an invalid format. *)
Lemma read_review_Ok (raw : string) (v r : pyval) :
  read_review type_error raw v = Ok r →
  (∃ d, v = PDict d ∧ r = v
        ∧ is_Some (d !! "approved") ∧ is_Some (d !! "feedback"))
  ∨ r = verdict false ("AI feedback: Invalid review response format: " ++ raw).
Proof.
  unfold read_review, py_in, py_item.
  destruct v as [| | |s|l|d]; try discriminate; cbn [mbind res_bind].
  - destruct (PyStr.contains "approved" s); cbn [negb mbind res_bind];
      [|intros [= <-]; by right].
    destruct (PyStr.contains "feedback" s); cbn [negb];
      [discriminate|intros [= <-]; by right].
  - destruct (existsb _ l); cbn [negb mbind res_bind];
      [|intros [= <-]; by right].
    destruct (existsb _ l); cbn [negb];
      [discriminate|intros [= <-]; by right].
  - destruct (has_key d "approved") eqn:Ha; cbn [negb mbind res_bind];
      [|intros [= <-]; by right].
    destruct (has_key d "feedback") eqn:Hf; cbn [negb];
      [|intros [= <-]; by right].
    apply bool_decide_eq_true_1 in Ha as [a Ha], Hf as [f Hf].
    rewrite Ha, Hf. cbn [mbind res_bind]. intros [= <-]. left.
    exists d. by eauto.
Qed.

(** X22.  [review_content] fails closed.  It raises only for non-empty
    content that is neither a string nor a list; otherwise it returns
    a dictionary that has both ['approved'] and ['feedback'], and
    whose ['approved'] reads as true only when the content type is
    known and the reply of the review model decoded to this very
    dictionary.  Empty content, an unknown content type, a failed
    call, a reply that is no JSON or no JSON object, and a reply
    without one of the two keys all give a rejection. *)
Theorem review_content_fails_closed (content_to_review : pyval)
    (content_type : string) (platform : option string) (language : string) :
  match review_content type_error review_model content_to_review
          content_type platform language with
  | Ok review =>
      ∃ d, review = PDict d
        ∧ is_Some (d !! "approved") ∧ is_Some (d !! "feedback")
        ∧ (truthy (default (PBool false) (d !! "approved")) = true →
           truthy content_to_review = true
           ∧ known_content_type content_type = true
           ∧ ∃ raw, review_model content_to_review content_type platform
                      language
                    = ReviewDecoded raw (PDict d))
  | Raise _ =>
      truthy content_to_review = true
      ∧ (∀ s, content_to_review ≠ PStr s)
      ∧ (∀ l, content_to_review ≠ PList l)
  end.
Proof.
  assert (Hrej : ∀ f, ∃ d, verdict false f = PDict d
            ∧ is_Some (d !! "approved") ∧ is_Some (d !! "feedback")
            ∧ (truthy (default (PBool false) (d !! "approved")) = true →
               truthy content_to_review = true
               ∧ known_content_type content_type = true
               ∧ ∃ raw, review_model content_to_review content_type platform
                          language
                        = ReviewDecoded raw (PDict d))).
  { intros f. destruct (verdict_entries false f) as (d & Hd & Ha & Hf).
    exists d. rewrite Ha, Hf. split; [done|]. split; [eauto|].
    split; [eauto|]. discriminate. }
  unfold review_content.
  destruct (truthy content_to_review) eqn:Hc; cbn [negb]; [|apply Hrej].
  destruct content_to_review as [| | |s|l|d0]; try (by repeat split).
  all: destruct (known_content_type content_type) eqn:Hk; cbn [negb];
    [|apply Hrej].
  all: match goal with
       | |- context [review_model ?x ?ct ?p ?lang] =>
           destruct (review_model x ct p lang) as [e|raw|raw v] eqn:Hm
       end; try apply Hrej.
  all: destruct (read_review type_error raw v) as [r|e] eqn:Hread;
    [|apply Hrej].
  all: apply read_review_Ok in Hread
         as [(d & Hv & Hr & Ha & Hf)| Hr]; subst; [|apply Hrej].
  all: exists d; split; [done|]; split; [done|]; split; [done|].
  all: intros _; split; [done|]; split; [done|]; by exists raw.
Qed.

Lemma review_of_empty_content (content_to_review : pyval)
    (content_type : string) (platform : option string) (language : string) :
  truthy content_to_review = false →
  review_content type_error review_model content_to_review content_type
    platform language
  = Ok (verdict false "AI feedback: Content to review was empty.").
Proof. intros H. unfold review_content. by rewrite H. Qed.

Lemma rejection_reads_false (f : string) :
  py_get (verdict false f) "approved" (PBool false) = Ok (PBool false).
Proof.
  unfold verdict. cbn [py_get]. by rewrite lookup_insert_eq.
Qed.

Section WithWorkflow.

Variable cfg : config.
Variable self : workflow.
Variable w : world.

(** X23.  With [review_content] as the AI reviewer of the workflow, a
    post whose text (or whose image prompt) is missing or empty is
    never approved without the human reviewer: when the AI review of
    that component is enabled and the review step approves the post,
    the human reviewer was asked. *)
Theorem empty_component_needs_human (platform_content : gmap string pyval)
    (platform language : string) (attempt : Z) (s s' : state) (fb : pyval) :
  let aw := attempt_of w platform attempt in
  let post_text := default (PStr "") (platform_content !! "post_text") in
  let image_prompt := default (PStr "") (platform_content !! "image_prompt") in
  truthy (PDict platform_content) = true →
  (AI_REVIEW_ENABLED_POST_TEXT cfg = true
   ∧ ai_text_review aw
     = review_content type_error review_model post_text "post_text"
         (Some platform) language
   ∧ truthy post_text = false)
  ∨ (AI_REVIEW_ENABLED_IMAGE_PROMPT cfg = true
     ∧ ai_image_prompt_review aw
       = review_content type_error review_model image_prompt "image_prompt"
           (Some platform) language
     ∧ truthy image_prompt = false) →
  _run_review_step cfg self w (PDict platform_content) platform attempt s
  = (Ok (review_result "approved" fb), s') →
  EvHumanReview "full_post" (PStr platform) ∈ new_events s s'.
Proof.
  intros aw post_text image_prompt Hc Hempty Hrun. unfold new_events.
  unfold _run_review_step in Hrun. rewrite Hc in Hrun. cbn [negb] in Hrun.
  unfold review_try_body, ai_component_review in Hrun. unfold_M in Hrun.
  cbn [py_get] in Hrun. fold aw in Hrun.
  destruct Hempty as [(Hen & Hai & He)|(Hen & Hai & He)];
    rewrite Hen, Hai, (review_of_empty_content _ _ _ _ He) in Hrun;
    rewrite ?rejection_reads_false in Hrun; cbn [truthy] in Hrun.
  all: ReviewMore.review_cases Hrun.
  all: try (by apply ReviewMore.raised_not_returned in Hrun).
  all: apply ReviewMore.returned_inj in Hrun as [Hr Hs]; subst s'.
  all: apply ReviewMore.review_result_inj in Hr as [Hst Hfb];
    try discriminate Hst.
  all: cbn [log set_log].
  all: rewrite <- ?app_assoc.
  all: first [rewrite drop_app_length | rewrite drop_all].
  all: cbn [app].
  all: repeat first [apply list_elem_of_here | apply list_elem_of_further].
Qed.

End WithWorkflow.

End Reviews.

Lemma empty_component_needs_human_witness :
  EvHumanReview "full_post" (PStr "Instagram")
  ∈ new_events (start "")
      (_run_review_step Examples.cfg0 (ContentWorkflow 1 false false)
         ModelExamples.w_ai_reviewer (PDict ModelExamples.textless)
         "Instagram" 0 (start "")).2.
Proof.
  assert (Hr : (_run_review_step Examples.cfg0 (ContentWorkflow 1 false false)
                  ModelExamples.w_ai_reviewer (PDict ModelExamples.textless)
                  "Instagram" 0 (start "")).1
               = Ok (review_result "approved" (PDict Examples.all_approved)))
    by (vm_compute; reflexivity).
  destruct (_run_review_step Examples.cfg0 (ContentWorkflow 1 false false)
              ModelExamples.w_ai_reviewer (PDict ModelExamples.textless)
              "Instagram" 0 (start "")) as [r s'] eqn:Hrun.
  cbn [fst] in Hr. subst r. cbn [snd].
  apply (empty_component_needs_human ModelExamples.type_error0
           ModelExamples.review_model0 Examples.cfg0
           (ContentWorkflow 1 false false) ModelExamples.w_ai_reviewer
           ModelExamples.textless "Instagram" "en" 0 (start "") s'
           (PDict Examples.all_approved)).
  - vm_compute. reflexivity.
  - left. split; [reflexivity|]. split; [reflexivity|].
    vm_compute. reflexivity.
  - exact Hrun.
Defined.

End AIReviewerFacts.

(** ** The console reviewer *)

Module ConsoleReviewerFacts.
Import AIService Workflow Spec Invariants.
Import Reviewers.

Ltac unfold_console :=
  unfold mbind, mret, Console_bind, Console_ret, pure.
Tactic Notation "unfold_console" "in" hyp(H) :=
  unfold mbind, mret, Console_bind, Console_ret, pure in H.

Section Console.

Variable normalize : string → string.

(** The question loop answers ['y'] or ['n'], having skipped the
    lines that normalize to neither. *)
Lemma ask_approval_Ok (lines rest : list string) (approval : string) :
  ask_approval normalize lines = (Ok approval, rest) →
  (approval = "y" ∨ approval = "n")
  ∧ ∃ skipped line,
      lines = (skipped ++ line :: rest)%list
      ∧ normalize line = approval
      ∧ Forall (λ l, normalize l ≠ "y" ∧ normalize l ≠ "n") skipped.
Proof.
  induction lines as [|line lines IH]; [discriminate|].
  cbn [ask_approval].
  destruct (bool_decide (normalize line = "y")) eqn:Hy;
    [|destruct (bool_decide (normalize line = "n")) eqn:Hn]; cbn [orb].
  - intros [= <- <-]. apply bool_decide_eq_true_1 in Hy.
    split; [by left|]. by exists [], line.
  - intros [= <- <-]. apply bool_decide_eq_true_1 in Hn.
    split; [by right|]. by exists [], line.
  - intros H. apply IH in H as (Hyn & skipped & l & -> & Hl & Hall).
    split; [done|]. exists (line :: skipped), l. split; [done|].
    split; [done|]. constructor; [|done].
    apply bool_decide_eq_false_1 in Hy, Hn. done.
Qed.

(** What reviewing one component returns. *)
Lemma review_component_Ok (content_to_review ai_feedback : pyval)
    (key missing ai_key : string) (lines rest : list string)
    (ok : bool) (entry : pyval) :
  review_component normalize content_to_review ai_feedback key missing ai_key
    lines = (Ok (ok, entry), rest) →
  (∃ text, py_get content_to_review key (PStr missing) = Ok (PStr text))
  ∧ ∃ fb, entry = verdict ok fb ∧ (ok = true → fb = "Human approved.").
Proof.
  unfold review_component. unfold_console.
  destruct (py_get content_to_review key (PStr missing)) as [component|];
    [|discriminate].
  destruct component as [| | |text| |]; try discriminate.
  cbn [replace_newlines].
  destruct (py_get ai_feedback ai_key (PDict ∅)) as [ai_entry|];
    [|discriminate].
  destruct (py_get ai_entry "feedback" (PStr "N/A")); [|discriminate].
  destruct (ask_approval normalize lines) as [[approval|] lines1];
    [|discriminate].
  case_bool_decide.
  - unfold input. destruct lines1 as [|fb lines2]; [discriminate|].
    intros [= <- <- <-]. split; [by exists text|]. by exists fb.
  - intros [= <- <- <-]. split; [by exists text|]. by eexists.
Qed.

(** What the console reviewer returns for a full post. *)
Lemma request_review_Ok (content : gmap string pyval)
    (ai_feedback verdict_given : pyval) (lines rest : list string) :
  request_review normalize (PDict content) "full_post" ai_feedback lines
  = (Ok verdict_given, rest) →
  (∃ text_ok prompt_ok text_fb prompt_fb,
     verdict_given
     = human_verdict (text_ok && prompt_ok) (verdict text_ok text_fb)
         (verdict prompt_ok prompt_fb)
     ∧ (text_ok = true → text_fb = "Human approved.")
     ∧ (prompt_ok = true → prompt_fb = "Human approved."))
  ∧ (∃ text, default (PStr "[NO TEXT FOUND]") (content !! "post_text")
             = PStr text)
  ∧ (∃ prompt,
       default (PStr "[NO IMAGE PROMPT FOUND]") (content !! "image_prompt")
       = PStr prompt).
Proof.
  unfold request_review. rewrite bool_decide_eq_true_2 by done.
  unfold mbind at 1, Console_bind at 1.
  destruct (review_component normalize (PDict content) ai_feedback "post_text"
              _ _ lines) as [[[text_ok text_entry]|] lines1] eqn:Ht;
    [|discriminate].
  unfold mbind at 1, Console_bind at 1.
  destruct (review_component normalize (PDict content) ai_feedback
              "image_prompt" _ _ lines1)
    as [[[prompt_ok prompt_entry]|] lines2] eqn:Hp; [|discriminate].
  intros [= <- <-].
  apply review_component_Ok in Ht as ([text Ht] & tfb & -> & Htfb).
  apply review_component_Ok in Hp as ([prompt Hp] & pfb & -> & Hpfb).
  cbn [py_get] in Ht, Hp. injection Ht as Ht. injection Hp as Hp.
  split; [|by eauto].
  by exists text_ok, prompt_ok, tfb, pfb.
Qed.

(** X24.  A verdict of the console reviewer on a full post is
    consistent with the answers given: it carries a verdict for the
    text and one for the image prompt, the post is approved exactly
    when both components are, an approved component carries the
    feedback ['Human approved.'], and the lines left are a suffix of
    the input.  Such a verdict is only reached for a post whose text
    and image prompt, where present, are strings. *)
Theorem console_verdict_is_consistent (content : gmap string pyval)
    (ai_feedback verdict_given : pyval) (lines rest : list string) :
  request_review normalize (PDict content) "full_post" ai_feedback lines
  = (Ok verdict_given, rest) →
  ∃ text_ok prompt_ok text_fb prompt_fb,
    verdict_given
    = human_verdict (text_ok && prompt_ok) (verdict text_ok text_fb)
        (verdict prompt_ok prompt_fb)
    ∧ (text_ok = true → text_fb = "Human approved.")
    ∧ (prompt_ok = true → prompt_fb = "Human approved.")
    ∧ (∀ text, content !! "post_text" = Some text → ∃ s, text = PStr s)
    ∧ (∀ prompt, content !! "image_prompt" = Some prompt →
                 ∃ s, prompt = PStr s).
Proof.
  intros Hrun.
  destruct (request_review_Ok _ _ _ _ _ Hrun)
    as ((text_ok & prompt_ok & tfb & pfb & Hv & Ht & Hp) & [t Hst] & [p Hsp]).
  exists text_ok, prompt_ok, tfb, pfb.
  repeat (split; [done|]). split.
  - intros text Htext. rewrite Htext in Hst. by exists t.
  - intros prompt Hprompt. rewrite Hprompt in Hsp. by exists p.
Qed.

(** A component that is present and is no string stops the console
    review before any line is read. *)
Lemma review_component_not_str (content : gmap string pyval)
    (ai_feedback x : pyval) (key missing ai_key : string)
    (lines : list string) :
  content !! key = Some x → (∀ text, x ≠ PStr text) →
  review_component normalize (PDict content) ai_feedback key missing ai_key
    lines
  = (Raise ("'" ++ type_name x ++ "' object has no attribute 'replace'"),
     lines).
Proof.
  intros Hx Hns. unfold review_component. unfold_console.
  cbn [py_get]. rewrite Hx. cbn [default from_option id].
  destruct x; try reflexivity. by destruct (Hns s).
Qed.

Section WithWorkflow.

Import ReviewVocabulary.

Variable cfg : config.
Variable self : workflow.
Variable w : world.

Lemma human_outcome_of_verdict (approved : bool) (t p : pyval) :
  human_outcome (Ok (human_verdict approved t p))
  = review_result (if approved then "approved" else "rejected")
      (PDict (<["text" := t]> {["image_prompt" := p]})).
Proof.
  unfold human_outcome, human_verdict. cbn [mbind res_bind py_get].
  rewrite lookup_insert_eq. cbn [default from_option id mbind res_bind truthy].
  rewrite lookup_insert_ne by done. rewrite lookup_singleton_eq.
  cbn [default from_option id mbind res_bind py_get].
  rewrite lookup_insert_eq. rewrite lookup_insert_ne by done.
  rewrite lookup_singleton_eq. reflexivity.
Qed.

(** X25.  With the console reviewer in the workflow, a post whose text
    or image prompt is present and is no string (the [None] that
    [generate_content] fills in for a missing key, for one) cannot be
    approved once the human is asked: the request raises, and the
    review step ends rejected with the text of the exception as its
    feedback, whatever is typed at the console.  For the text the
    exception is raised before any question is asked. *)
Theorem console_rejects_incomplete_post (content : gmap string pyval)
    (platform key : string) (attempt : Z) (s : state) (ai_feedback x : pyval)
    (lines : list string) :
  let aw := attempt_of w platform attempt in
  escalates cfg self aw = true →
  human_post_review aw
  = (request_review normalize (PDict content) "full_post" ai_feedback lines).1 →
  key = "post_text" ∨ key = "image_prompt" →
  content !! key = Some x →
  (∀ text, x ≠ PStr text) →
  ∃ e,
    (_run_review_step cfg self w (PDict content) platform attempt s).1
    = Ok (review_result "rejected"
            (error_dict ("Critical error in review step: " ++ e)))
    ∧ (key = "post_text" →
       e = "'" ++ type_name x ++ "' object has no attribute 'replace'"
       ∧ (request_review normalize (PDict content) "full_post" ai_feedback
            lines).2 = lines).
Proof.
  intros aw Hesc Hhuman Hkey Hx Hns.
  assert (Hc : truthy (PDict content) = true)
    by (by eapply RegenerationPlanner.truthy_dict_lookup).
  rewrite (ReviewMore.escalated_review_outcome cfg self w content platform
             attempt s Hc Hesc).
  fold aw. rewrite Hhuman.
  destruct (request_review normalize (PDict content) "full_post" ai_feedback
              lines) as [[v|e] rest] eqn:Hrun.
  - exfalso. apply request_review_Ok in Hrun as (_ & [t Ht] & [p Hp]).
    destruct Hkey as [->| ->].
    + rewrite Hx in Ht. by destruct (Hns t).
    + rewrite Hx in Hp. by destruct (Hns p).
  - exists e. split; [reflexivity|]. intros ->.
    unfold request_review in Hrun. rewrite bool_decide_eq_true_2 in Hrun by done.
    unfold mbind at 1, Console_bind at 1 in Hrun.
    rewrite (review_component_not_str content ai_feedback x "post_text"
               _ _ lines Hx Hns) in Hrun.
    by injection Hrun as <- <-.
Qed.

(** X26.  With the console reviewer in the workflow, the verdict typed
    at the console decides the next attempt.  When the human is asked
    and answers, the review step approves exactly when both
    components were approved; after a rejection the plan of the next
    attempt never raises, regenerates exactly the rejected components
    with the feedback typed for them, and keeps the approved
    component of the reviewed content. *)
Theorem console_verdict_drives_the_plan (content : gmap string pyval)
    (platform : string) (attempt next : Z) (s : state)
    (ai_feedback verdict_given : pyval) (lines : list string) :
  let aw := attempt_of w platform attempt in
  truthy (PDict content) = true →
  escalates cfg self aw = true →
  (request_review normalize (PDict content) "full_post" ai_feedback lines).1
  = Ok verdict_given →
  human_post_review aw = Ok verdict_given →
  (0 < next)%Z →
  ∃ text_ok prompt_ok text_fb prompt_fb,
    let outcome :=
      review_result (if text_ok && prompt_ok then "approved" else "rejected")
        (PDict (<["text" := verdict text_ok text_fb]>
                  {["image_prompt" := verdict prompt_ok prompt_fb]})) in
    (_run_review_step cfg self w (PDict content) platform attempt s).1
    = Ok outcome
    ∧ regeneration_plan next outcome (PDict content)
      = Ok (match text_ok, prompt_ok with
            | true, true => initial_plan
            | true, false =>
                RegenPlan "image_prompt"
                  (default PNone (content !! "post_text")) PNone
                  PNone (PStr prompt_fb)
            | false, true =>
                RegenPlan "text" PNone
                  (default PNone (content !! "image_prompt"))
                  (PStr text_fb) PNone
            | false, false =>
                RegenPlan "all" PNone PNone (PStr text_fb) (PStr prompt_fb)
            end).
Proof.
  intros aw Hc Hesc Hconsole Hhuman Hnext.
  destruct (request_review normalize (PDict content) "full_post" ai_feedback
              lines) as [r rest] eqn:Hrun.
  cbn [fst] in Hconsole. subst r.
  apply request_review_Ok in Hrun
    as ((text_ok & prompt_ok & tfb & pfb & -> & _ & _) & _ & _).
  exists text_ok, prompt_ok, tfb, pfb. cbv zeta. split.
  - rewrite (ReviewMore.escalated_review_outcome cfg self w content platform
               attempt s Hc Hesc).
    fold aw. rewrite Hhuman. by rewrite human_outcome_of_verdict.
  - destruct (text_ok && prompt_ok) eqn:Hboth.
    + apply andb_prop in Hboth as [-> ->].
      unfold regeneration_plan, review_result.
      destruct (_ && _); [|reflexivity].
      cbn [py_get mbind res_bind]. rewrite lookup_insert_eq.
      cbn [default from_option id str_eq].
      by rewrite bool_decide_eq_false_2.
    + pose proof (RegenerationPlanner.regeneration_plan_rejected next
        (<["status" := PStr "rejected"]>
           {["feedback" :=
               PDict (<["text" := verdict text_ok tfb]>
                        {["image_prompt" := verdict prompt_ok pfb]})]})
        (<["text" := verdict text_ok tfb]>
           {["image_prompt" := verdict prompt_ok pfb]})
        (<["approved" := PBool text_ok]> {["feedback" := PStr tfb]})
        (<["approved" := PBool prompt_ok]> {["feedback" := PStr pfb]})
        content Hnext) as Hplan.
      rewrite lookup_insert_eq in Hplan. specialize (Hplan eq_refl).
      rewrite lookup_insert_ne in Hplan by done.
      rewrite lookup_singleton_eq in Hplan. specialize (Hplan eq_refl).
      rewrite lookup_insert_eq in Hplan. specialize (Hplan eq_refl).
      rewrite lookup_insert_ne in Hplan by done.
      rewrite lookup_singleton_eq in Hplan. specialize (Hplan eq_refl).
      cbv zeta in Hplan. rewrite !lookup_insert_eq in Hplan.
      rewrite !lookup_insert_ne in Hplan by done.
      rewrite !lookup_singleton_eq in Hplan.
      cbn [default from_option id truthy] in Hplan.
      unfold review_result. rewrite Hplan.
      by destruct text_ok, prompt_ok.
Qed.

End WithWorkflow.

End Console.

Lemma console_verdict_is_consistent_witness :
  ∃ text_ok prompt_ok text_fb prompt_fb,
    human_verdict false (verdict true "Human approved.")
      (verdict false "too generic")
    = human_verdict (text_ok && prompt_ok) (verdict text_ok text_fb)
        (verdict prompt_ok prompt_fb)
    ∧ (text_ok = true → text_fb = "Human approved.")
    ∧ (prompt_ok = true → prompt_fb = "Human approved.")
    ∧ (∀ text, Examples.draft !! "post_text" = Some text → ∃ s, text = PStr s)
    ∧ (∀ prompt, Examples.draft !! "image_prompt" = Some prompt →
                 ∃ s, prompt = PStr s).
Proof.
  apply (console_verdict_is_consistent ModelExamples.normalize0
           Examples.draft ModelExamples.ai_reviews _ ModelExamples.typed []).
  vm_compute. reflexivity.
Defined.

Lemma console_rejects_incomplete_post_witness :
  ∃ e,
    (_run_review_step Examples.cfg0 Examples.self0
       (ModelExamples.w_console ModelExamples.textless)
       (PDict ModelExamples.textless) "Instagram" 0 (start "")).1
    = Ok (review_result "rejected"
            (error_dict ("Critical error in review step: " ++ e)))
    ∧ ("post_text" = "post_text" →
       e = "'" ++ type_name PNone ++ "' object has no attribute 'replace'"
       ∧ (request_review ModelExamples.normalize0
            (PDict ModelExamples.textless) "full_post"
            ModelExamples.ai_reviews ModelExamples.typed).2
         = ModelExamples.typed).
Proof.
  apply (console_rejects_incomplete_post ModelExamples.normalize0
           Examples.cfg0 Examples.self0
           (ModelExamples.w_console ModelExamples.textless)
           ModelExamples.textless "Instagram" "post_text" 0 (start "")
           ModelExamples.ai_reviews PNone ModelExamples.typed).
  - vm_compute. reflexivity.
  - reflexivity.
  - left. reflexivity.
  - vm_compute. reflexivity.
  - intros text. discriminate.
Defined.

Lemma console_verdict_drives_the_plan_witness :
  ∃ text_ok prompt_ok text_fb prompt_fb,
    let outcome :=
      review_result (if text_ok && prompt_ok then "approved" else "rejected")
        (PDict (<["text" := verdict text_ok text_fb]>
                  {["image_prompt" := verdict prompt_ok prompt_fb]})) in
    (_run_review_step Examples.cfg0 Examples.self0
       (ModelExamples.w_console Examples.draft) (PDict Examples.draft)
       "Instagram" 0 (start "")).1
    = Ok outcome
    ∧ regeneration_plan 1 outcome (PDict Examples.draft)
      = Ok (match text_ok, prompt_ok with
            | true, true => initial_plan
            | true, false =>
                RegenPlan "image_prompt"
                  (default PNone (Examples.draft !! "post_text")) PNone
                  PNone (PStr prompt_fb)
            | false, true =>
                RegenPlan "text" PNone
                  (default PNone (Examples.draft !! "image_prompt"))
                  (PStr text_fb) PNone
            | false, false =>
                RegenPlan "all" PNone PNone (PStr text_fb) (PStr prompt_fb)
            end).
Proof.
  apply (console_verdict_drives_the_plan ModelExamples.normalize0
           Examples.cfg0 Examples.self0
           (ModelExamples.w_console Examples.draft) Examples.draft
           "Instagram" 0 1 (start "") ModelExamples.ai_reviews
           (human_verdict false (verdict true "Human approved.")
              (verdict false "too generic"))
           ModelExamples.typed).
  - vm_compute. reflexivity.
  - vm_compute. reflexivity.
  - vm_compute. reflexivity.
  - vm_compute. reflexivity.
  - lia.
Defined.

End ConsoleReviewerFacts.

(** ** The news fetcher *)

Module NewsFetcherFacts.
Import AIService Workflow Spec Invariants.
Import NewsFetcher NewsVocabulary FetcherVocabulary.

Lemma prefix_bracket (s : string) :
  String.prefix "[" ("[" ++ s) = true.
Proof. apply PyStrFacts.prefix_append. Qed.

Section Fetcher.

Variable parse : list string → string → string → feed.
Variable gnewsdecoder : string → res (option decoded_info).
Variable download : string → article_fetch.
Variable lower : string → string.

Lemma article_entries (title link date content : string) :
  let article : gmap string string :=
    <["title" := title]>
      (<["link" := link]> (<["date" := date]> {["content" := content]})) in
  article !! "link" = Some link
  ∧ article !! "content" = Some content
  ∧ article !! "title" = Some title
  ∧ article !! "date" = Some date.
Proof.
  cbv zeta. repeat split.
Qed.

Lemma decode_link_cases (google_news_link : string) :
  decode_link gnewsdecoder google_news_link = (google_news_link, None)
  ∨ ∃ url, decode_link gnewsdecoder google_news_link = (url, Some url).
Proof.
  unfold decode_link.
  destruct (_ && _); [|by left].
  destruct (gnewsdecoder google_news_link) as [[info|]|]; try by left.
  destruct (_ && _); [right; by eexists|by left].
Qed.

Lemma placeholder_is_bracketed (google_news_link : string) :
  String.prefix "[" (fetch_text download google_news_link None) = true.
Proof. unfold fetch_text. by destruct (_ && _). Qed.

Lemma process_entry_fresh (excluded_keywords : list string)
    (used_links : gset string) (entry article : gmap string string) :
  process_entry gnewsdecoder download lower excluded_keywords used_links entry
  = Some article →
  fresh_article download used_links article.
Proof.
  unfold process_entry.
  set (title := default "No Title" (entry !! "title")).
  set (rss := default (default "No summary available" (entry !! "description"))
                (entry !! "summary")).
  set (link := default "#" (entry !! "link")).
  destruct (bool_decide (title = "")) eqn:Ht; [discriminate|].
  destruct (bool_decide (rss = "")) eqn:Hr; [discriminate|].
  destruct (bool_decide (title = "[Removed]")); [discriminate|].
  cbn [orb]. apply bool_decide_eq_false_1 in Hr.
  destruct (decode_link_cases link) as [Hd|[url Hd]]; rewrite Hd.
  - destruct (bool_decide (link ∈ used_links)) eqn:Hu; [discriminate|].
    apply bool_decide_eq_false_1 in Hu.
    rewrite bool_decide_eq_true_2 by done. cbn [negb andb orb].
    destruct (_ && _); [discriminate|].
    rewrite placeholder_is_bracketed. cbn [negb andb].
    destruct (content_is_kept _); [|discriminate].
    intros [= <-]. exists link, ("[Using RSS Summary]: " ++ rss).
    destruct (article_entries title link (default "" (entry !! "published"))
                ("[Using RSS Summary]: " ++ rss)) as (H1 & H2 & H3 & H4).
    rewrite H1, H2, H3, H4. split; [done|]. split; [done|].
    split; [done|]. split; [eauto|]. split; [eauto|].
    right. by exists rss.
  - destruct (bool_decide (url ∈ used_links)) eqn:Hu; [discriminate|].
    apply bool_decide_eq_false_1 in Hu. cbn [orb].
    destruct (_ && bool_decide (link ∈ used_links)); [discriminate|].
    destruct (_ && is_excluded _ _ _ _); [discriminate|].
    cbn [fetch_text].
    assert (Hshape : ∀ content,
      Some (<["title" := title]>
              (<["link" := url]>
                 (<["date" := default "" (entry !! "published")]>
                    {["content" := content]}))) = Some article →
      ((download url = ArticleText content
        ∧ content ≠ "" ∧ String.prefix "[" content = false)
       ∨ (∃ rss_summary,
            content = "[Using RSS Summary]: " ++ rss_summary
            ∧ rss_summary ≠ "")) →
      fresh_article download used_links article).
    { intros content [= <-] Hcontent. exists url, content.
      destruct (article_entries title url (default "" (entry !! "published"))
                  content) as (H1 & H2 & H3 & H4).
      rewrite H1, H2, H3, H4. split; [done|]. split; [done|].
      split; [done|]. split; [eauto|]. split; [eauto|]. done. }
    cbn [negb]. rewrite andb_true_r.
    destruct (download url) as [e|e|text] eqn:Hdl.
    + change ("[Error fetching/parsing article: " ++ e ++ "]")
        with ("[" ++ ("Error fetching/parsing article: " ++ e ++ "]")).
      rewrite prefix_bracket.
      destruct (content_is_kept _); [|discriminate].
      intros H. apply (Hshape _ H). right. by exists rss.
    + change ("[Unexpected error fetching article: " ++ e ++ "]")
        with ("[" ++ ("Unexpected error fetching article: " ++ e ++ "]")).
      rewrite prefix_bracket.
      destruct (content_is_kept _); [|discriminate].
      intros H. apply (Hshape _ H). right. by exists rss.
    + destruct (bool_decide (text = "")) eqn:Hempty; cbn [negb].
      * change (String.prefix "[" "[Full text fetched but empty]") with true.
        cbv iota. destruct (content_is_kept _); [|discriminate].
        intros H. apply (Hshape _ H). right. by exists rss.
      * apply bool_decide_eq_false_1 in Hempty.
        destruct (String.prefix "[" text) eqn:Hpre.
        -- destruct (content_is_kept _); [|discriminate].
           intros H. apply (Hshape _ H). right. by exists rss.
        -- destruct (content_is_kept _); [|discriminate].
           intros H. apply (Hshape _ H). by left.
Qed.

Lemma collect_fresh (excluded_keywords : list string)
    (used_links : gset string) (max_articles : Z)
    (entries articles : list (gmap string string)) :
  Forall (fresh_article download used_links) articles →
  (Z.of_nat (length articles) ≤ Z.max 0 max_articles)%Z →
  let result :=
    collect gnewsdecoder download lower excluded_keywords used_links
      max_articles entries articles in
  Forall (fresh_article download used_links) result
  ∧ (Z.of_nat (length result) ≤ Z.max 0 max_articles)%Z.
Proof.
  revert articles. induction entries as [|entry rest IH];
    intros articles Hall Hlen; cbn [collect]; [done|].
  destruct (Z.leb_spec max_articles (Z.of_nat (length articles))); [done|].
  destruct (process_entry _ _ _ _ _ entry) as [article|] eqn:Hentry.
  - apply IH.
    + apply Forall_app. split; [done|]. constructor; [|done].
      by eapply process_entry_fresh.
    + rewrite length_app. cbn [length]. lia.
  - by apply IH.
Qed.

(** X27.  What [get_recent_ecommerce_news] returns is an error message
    or a list of at most [max_articles] articles (none when
    [max_articles] is not positive).  Every article returned has a
    title, a date, a link that is not among the used links, and a
    content that is either the non-empty text downloaded from that
    link, not starting with a bracket, or the RSS summary, marked
    ['[Using RSS Summary]: ']. *)
Theorem fetched_articles_are_fresh (query_keywords excluded_keywords : list string)
    (target_language target_country : string) (max_articles : Z)
    (used_links : gset string) (initial_fetch_count : Z) :
  match get_recent_ecommerce_news parse gnewsdecoder download lower
          query_keywords excluded_keywords target_language target_country
          max_articles used_links initial_fetch_count with
  | FetchFailed msg => True
  | Articles articles =>
      (Z.of_nat (length articles) ≤ Z.max 0 max_articles)%Z
      ∧ Forall (fresh_article download used_links) articles
  end.
Proof.
  unfold get_recent_ecommerce_news.
  case_bool_decide; [done|].
  destruct (parse _ _ _) as [e|[| |] e|entries]; try done.
  case_bool_decide; [cbn; split; [lia|done]|].
  destruct (collect_fresh excluded_keywords used_links max_articles
              (py_slice_to initial_fetch_count entries) [])
    as [Hall Hlen]; [done|cbn; lia|].
  by split.
Qed.


Lemma fetched_articles_fresh_list (query_keywords excluded_keywords : list string)
    (target_language target_country : string) (max_articles : Z)
    (used_links : gset string) (initial_fetch_count : Z) :
  ∀ l,
    get_recent_ecommerce_news parse gnewsdecoder download lower
      query_keywords excluded_keywords target_language target_country
      max_articles used_links initial_fetch_count = Articles l →
    Forall (fresh_article download used_links) l.
Proof.
  intros l. unfold get_recent_ecommerce_news.
  case_bool_decide; [discriminate|].
  destruct (parse _ _ _) as [e|[| |] e|entries]; try discriminate.
  case_bool_decide; [by intros [= <-]|].
  intros [= <-].
  destruct (collect_fresh excluded_keywords used_links max_articles
              (py_slice_to initial_fetch_count entries) [])
    as [Hall _]; [done|cbn; lia|exact Hall].
Qed.

End Fetcher.

End NewsFetcherFacts.

(** ** The news fetcher in the workflow *)

Module FetcherInWorkflow.
Import AIService Workflow Spec Invariants.
Import NewsFetcher NewsVocabulary FetcherVocabulary.

Section Composition.

Variable parse : list string → string → string → feed.
Variable gnewsdecoder : string → res (option decoded_info).
Variable download : string → article_fetch.
Variable lower : string → string.
Variable query_keywords excluded_keywords : list string.
Variable target_language target_country : string.
Variable max_articles initial_fetch_count : Z.

Variable cfg : config.
Variable self : workflow.
Variable w : world.

(** The fetcher of the workflow is [get_recent_ecommerce_news]. *)
Hypothesis w_fetcher : ∀ used_links,
  news_fetcher_func w used_links
  = Ok (get_recent_ecommerce_news parse gnewsdecoder download lower
          query_keywords excluded_keywords target_language target_country
          max_articles used_links initial_fetch_count).

(** A fresh article is usable by the news step only if its content
    was downloaded. *)
Lemma usable_fresh_article (used_links : gset string)
    (article : gmap string string) :
  fresh_article download used_links article →
  usable article = true →
  ∃ link text,
    article !! "link" = Some link ∧ (link ∉ used_links)
    ∧ article !! "content" = Some text
    ∧ download link = ArticleText text
    ∧ text ≠ "" ∧ String.prefix "[" text = false.
Proof.
  intros (link & content & Hl & Hu & Hc & _ & _ & Hcase) Huse.
  unfold usable in Huse. rewrite Hc in Huse. cbn [default from_option id] in Huse.
  destruct Hcase as [(Hd & Hne & Hpre)|(rss & -> & _)].
  - by exists link, content.
  - change ("[Using RSS Summary]: " ++ rss)
      with ("[" ++ ("Using RSS Summary]: " ++ rss)) in Huse.
    rewrite NewsFetcherFacts.prefix_bracket in Huse.
    by rewrite orb_true_r in Huse.
Qed.

(** An article that carries the RSS summary is skipped by the news
    step. *)
Lemma rss_article_not_usable (article : gmap string string) (rss : string) :
  article !! "content" = Some ("[Using RSS Summary]: " ++ rss) →
  usable article = false.
Proof.
  intros Hc. unfold usable. rewrite Hc. cbn [default from_option id].
  change ("[Using RSS Summary]: " ++ rss)
    with ("[" ++ ("Using RSS Summary]: " ++ rss)).
  rewrite NewsFetcherFacts.prefix_bracket. by rewrite orb_true_r.
Qed.

Lemma fetched_list_is_fresh (used_links : gset string)
    (l : list (gmap string string)) :
  news_fetcher_func w used_links = Ok (Articles l) →
  Forall (fresh_article download used_links) l.
Proof.
  rewrite w_fetcher. intros [= H].
  by apply (NewsFetcherFacts.fetched_articles_fresh_list parse gnewsdecoder
              download lower query_keywords excluded_keywords
              target_language target_country max_articles used_links
              initial_fetch_count).
Qed.

(** X28.  With [get_recent_ecommerce_news] as the fetcher of the
    workflow, an approved news step rests on an article the fetcher
    returned in this call whose link is not among the used links and
    whose content is the non-empty text downloaded from that link; and
    a batch of articles that all carry the RSS summary in place of
    their page ends rejected. *)
Theorem approval_needs_a_downloaded_article (used_links : gset string)
    (s s' : state) (r : news_result) :
  _run_news_step cfg self w used_links s = (Ok r, s') →
  (status r = "approved" →
   ∃ l article link text,
     news_fetcher_func w used_links = Ok (Articles l)
     ∧ article ∈ l
     ∧ article !! "link" = Some link ∧ (link ∉ used_links)
     ∧ article !! "content" = Some text
     ∧ download link = ArticleText text
     ∧ text ≠ "" ∧ String.prefix "[" text = false)
  ∧ (∀ l,
       news_fetcher_func w used_links = Ok (Articles l) → l ≠ [] →
       Forall (λ article, ∃ rss_summary,
                 article !! "content"
                 = Some ("[Using RSS Summary]: " ++ rss_summary)) l →
       status r = "rejected").
Proof.
  intros Hrun.
  destruct (NewsMore.news_step_outcome cfg self w used_links s)
    as (r' & s1 & Hrun' & H).
  rewrite Hrun in Hrun'. injection Hrun' as <- <-.
  destruct (news_fetcher_func w used_links) as [[msg|[|a l]]|msg] eqn:Hfetch.
  - split; [|discriminate]. intros Hst.
    destruct H as [H _]. rewrite Hst in H. discriminate H.
  - split; [|by intros ? [= <-]]. intros Hst.
    destruct H as [H _]. rewrite Hst in H. discriminate H.
  - split.
    + intros Hst.
      destruct H as [H|(_ & _ & Hex & _)]; [rewrite Hst in H; discriminate H|].
      apply Exists_exists in Hex as (article & Hin & Huse).
      pose proof (fetched_list_is_fresh _ _ Hfetch) as Hfresh.
      rewrite Forall_forall in Hfresh.
      destruct (usable_fresh_article used_links article (Hfresh _ Hin) Huse)
        as (link & text & Hl & Hnew & Hc & Hd & Hne & Hpre).
      exists (a :: l), article, link, text.
      split; [reflexivity|].
      split; [first [exact Hin | by apply list_elem_of_In]|]. done.
    + intros l' [= <-] _ Hrss.
      destruct H as [H|(_ & _ & Hex & _)]; [exact H|].
      apply Exists_exists in Hex as (article & Hin & Huse).
      rewrite Forall_forall in Hrss.
      destruct (Hrss article) as [rss Hc];
        [first [exact Hin | by apply list_elem_of_In]|].
      rewrite (rss_article_not_usable article rss Hc) in Huse.
      discriminate Huse.
  - split; [|discriminate]. intros Hst.
    destruct H as [H _]. rewrite Hst in H. discriminate H.
Qed.

(** X29.  With [get_recent_ecommerce_news] as the fetcher of the
    workflow, what a run appends to the used-link file are lines,
    each of them a link that is not among the links loaded from the
    file when the run began (the stripped non-empty lines that were
    read) and whose page was downloaded with a non-empty text in this
    run. *)
Theorem run_records_only_new_downloaded_links (file : string) :
  let s' := (run cfg self w (start file)).2 in
  ∃ added,
    ledger s' = file ++ link_lines added
    ∧ ∀ link, link ∈ added →
        (link ∉ load_used_article_links w file)
        ∧ ∃ text, download link = ArticleText text
                  ∧ text ≠ "" ∧ String.prefix "[" text = false.
Proof.
  cbv zeta.
  destruct (LedgerMore.ledger_after_run cfg self w file)
    as [H|(l & Hfetch & Hledger & _)].
  { exists []. cbn [link_lines]. rewrite LedgerMore.append_empty_r.
    split; [done|]. intros link Hin. by apply elem_of_nil in Hin. }
  exists (consumed_links l). split.
  { rewrite Hledger.
    apply LedgerMore.write_links_valid, LedgerMore.consumed_links_valid. }
  intros link Hin.
  unfold consumed_links in Hin.
  apply list_elem_of_omap in Hin as (article & Hart & Htrack).
  apply list_elem_of_filter in Hart as [Huse Hart].
  pose proof (fetched_list_is_fresh _ _ Hfetch) as Hfresh.
  rewrite Forall_forall in Hfresh.
  destruct (usable_fresh_article _ article (Hfresh _ Hart) Huse)
    as (link' & text & Hl & Hnew & _ & Hd & Hne & Hpre).
  unfold trackable_link in Htrack. rewrite Hl in Htrack.
  destruct (bool_decide (link' = "")); [discriminate|].
  destruct (bool_decide (link' = "#")); [discriminate|].
  cbn in Htrack. injection Htrack as <-.
  split; [exact Hnew|by exists text].
Qed.

End Composition.

Lemma approval_needs_a_downloaded_article_witness :
  ∃ l article link text,
    news_fetcher_func ModelExamples.w_fetcher ∅ = Ok (Articles l)
    ∧ article ∈ l
    ∧ article !! "link" = Some link ∧ (link ∉ (∅ : gset string))
    ∧ article !! "content" = Some text
    ∧ ModelExamples.download0 link = ArticleText text
    ∧ text ≠ "" ∧ String.prefix "[" text = false.
Proof.
  destruct (_run_news_step Examples.cfg0 Examples.self0
              ModelExamples.w_fetcher ∅ (start "")) as [[r|e] s'] eqn:Hrun.
  - assert (Hst : status r = "approved").
    { vm_compute in Hrun. apply ReviewMore.returned_inj in Hrun as [<- _].
      reflexivity. }
    exact (proj1 (approval_needs_a_downloaded_article ModelExamples.parse0
             ModelExamples.gnewsdecoder0 ModelExamples.download0
             ModelExamples.lower0 ["ecommerce"] [] "en" "US" 3 20
             Examples.cfg0 Examples.self0 ModelExamples.w_fetcher
             (λ used_links, eq_refl) ∅ (start "") s' r Hrun) Hst).
  - vm_compute in Hrun. discriminate Hrun.
Defined.

Lemma run_records_only_new_downloaded_links_witness :
  let s' :=
    (run Examples.cfg0 Examples.self0 ModelExamples.w_fetcher (start "")).2 in
  ∃ added,
    ledger s' = "" ++ link_lines added
    ∧ ∀ link, link ∈ added →
        (link ∉ load_used_article_links ModelExamples.w_fetcher "")
        ∧ ∃ text, ModelExamples.download0 link = ArticleText text
                  ∧ text ≠ "" ∧ String.prefix "[" text = false.
Proof.
  apply (run_records_only_new_downloaded_links ModelExamples.parse0
           ModelExamples.gnewsdecoder0 ModelExamples.download0
           ModelExamples.lower0 ["ecommerce"] [] "en" "US" 3 20
           Examples.cfg0 Examples.self0 ModelExamples.w_fetcher
           (λ used_links, eq_refl) "").
Defined.

End FetcherInWorkflow.

